(** * Message routing between agents: a model of [src/workflow/agent_router.py]

    The development embeds the data types [MessageType], [RoutingStrategy],
    [Message], [RoutingRule] and the methods [add_routing_rule],
    [add_default_routing_rules], [route_message] and [process_message] of
    [AgentRouter], and proves the properties the specification states about
    them. *)

From Stdlib Require Import List ZArith NArith Bool Ascii String Lia.
From Stdlib Require Import Sorted Permutation.
From Stdlib Require QArith.
Import ListNotations.

Local Open Scope Z_scope.

(* ================================================================== *)
(** ** Python strings *)
(* ================================================================== *)

(** A Python [str] is a sequence of Unicode code points: [len] counts code
    points and [in] looks for a run of code points.  The source's literals
    are Cyrillic, so a byte string would get both wrong. *)
Definition pystr : Type := list N.

(** Literals are written as UTF-8 text and decoded once. *)
Fixpoint utf8_decode (bs : list N) : pystr :=
  match bs with
  | [] => []
  | b0 :: r0 =>
      if (b0 <? 128)%N then b0 :: utf8_decode r0
      else if (b0 <? 224)%N then
        match r0 with
        | b1 :: r1 =>
            N.lor (N.shiftl (N.land b0 31) 6) (N.land b1 63) :: utf8_decode r1
        | [] => []
        end
      else if (b0 <? 240)%N then
        match r0 with
        | b1 :: b2 :: r2 =>
            N.lor (N.shiftl (N.land b0 15) 12)
              (N.lor (N.shiftl (N.land b1 63) 6) (N.land b2 63))
            :: utf8_decode r2
        | _ => []
        end
      else
        match r0 with
        | b1 :: b2 :: b3 :: r3 =>
            N.lor (N.shiftl (N.land b0 7) 18)
              (N.lor (N.shiftl (N.land b1 63) 12)
                 (N.lor (N.shiftl (N.land b2 63) 6) (N.land b3 63)))
            :: utf8_decode r3
        | _ => []
        end
  end.

Definition py (s : string) : pystr :=
  utf8_decode (map N_of_ascii (list_ascii_of_string s)).

Fixpoint pystr_eqb (a b : pystr) : bool :=
  match a, b with
  | [], [] => true
  | x :: a', y :: b' => (x =? y)%N && pystr_eqb a' b'
  | _, _ => false
  end.

(** [s.startswith(k)] *)
Fixpoint starts_with (k s : pystr) : bool :=
  match k, s with
  | [], _ => true
  | x :: k', y :: s' => (x =? y)%N && starts_with k' s'
  | _ :: _, [] => false
  end.

(** [k in s] for two strings *)
Fixpoint is_substring (k s : pystr) : bool :=
  starts_with k s ||
  match s with
  | [] => false
  | _ :: s' => is_substring k s'
  end.

(** [len(s)] *)
Definition len (s : pystr) : Z := Z.of_nat (List.length s).

(* ================================================================== *)
(** ** Exceptions *)
(* ================================================================== *)

(** An exception is observed by the router through [type(e).__name__] and
    [str(e)], and by an [except Exception] clause through its class:
    [KeyboardInterrupt], [SystemExit], [asyncio.CancelledError] and the
    other classes that derive from [BaseException] directly are not
    instances of [Exception] and pass such a clause. *)
Record Exc : Type := mkRaised {
  exc_type : pystr;
  exc_str : pystr;
  isinstance_Exception : bool
}.

(** An instance of a class that derives from [Exception]. *)
Definition mkExc (type message : pystr) : Exc := mkRaised type message true.

(** An instance of a class that derives from [BaseException] only. *)
Definition mkBaseException (type message : pystr) : Exc := mkRaised type message false.

Inductive Result (A : Type) : Type :=
| Ok (a : A)
| Raise (e : Exc).
Arguments Ok {A} a.
Arguments Raise {A} e.

Definition IndexError (msg : pystr) : Exc := mkExc (py "IndexError") msg.
Definition ValueError (msg : pystr) : Exc := mkExc (py "ValueError") msg.

(* ================================================================== *)
(** ** Dictionaries *)
(* ================================================================== *)

(** A Python [dict] keeps its keys in insertion order, and
    [self.agents.keys()] is iterated in that order, so a dictionary is a
    list of bindings.  Assigning to a key that is present replaces the value
    in place; assigning to a new key appends. *)
Module Dict.

Definition t (V : Type) : Type := list (pystr * V).

Definition empty {V : Type} : t V := [].

Fixpoint get {V : Type} (k : pystr) (d : t V) : option V :=
  match d with
  | [] => None
  | (k', v) :: d' => if pystr_eqb k k' then Some v else get k d'
  end.

(** [k in d] *)
Definition mem {V : Type} (k : pystr) (d : t V) : bool :=
  match get k d with Some _ => true | None => false end.

(** [d[k] = v] *)
Fixpoint set {V : Type} (k : pystr) (v : V) (d : t V) : t V :=
  match d with
  | [] => [(k, v)]
  | (k', v') :: d' =>
      if pystr_eqb k k' then (k', v) :: d' else (k', v') :: set k v d'
  end.

(** [d.keys()] *)
Definition keys {V : Type} (d : t V) : list pystr := map fst d.

End Dict.

(* ================================================================== *)
(** ** Enumerations *)
(* ================================================================== *)

Inductive MessageType : Type := TASK | RESULT | ERROR | CONTROL | DATA.

Inductive RoutingStrategy : Type := SEQUENTIAL | PARALLEL | CONDITIONAL | BROADCAST.

(** [member.value] *)
Definition MessageType_value (t : MessageType) : pystr :=
  match t with
  | TASK => py "task"
  | RESULT => py "result"
  | ERROR => py "error"
  | CONTROL => py "control"
  | DATA => py "data"
  end.

Definition MessageType_members : list MessageType :=
  [TASK; RESULT; ERROR; CONTROL; DATA].

(** [MessageType(value)]: the member with that value, [ValueError]
    otherwise (lookup is by value, so it is case sensitive).  The text of
    the error is ["%r is not a valid %s" % (value, cls.__qualname__)];
    [repr] is the interpreter's [repr] on strings, which chooses the quotes
    and escapes by its Unicode tables. *)
Definition MessageType_of_value (repr : pystr -> pystr) (value : pystr)
    : Result MessageType :=
  match find (fun t => pystr_eqb (MessageType_value t) value) MessageType_members with
  | Some t => Ok t
  | None => Raise (ValueError (repr value ++ py " is not a valid MessageType"))
  end.

Definition MessageType_eqb (a b : MessageType) : bool :=
  match a, b with
  | TASK, TASK | RESULT, RESULT | ERROR, ERROR
  | CONTROL, CONTROL | DATA, DATA => true
  | _, _ => false
  end.

(** What the field [message_type] of a constructed message holds.  The
    dataclass checks nothing: [__post_init__] converts a [str] and leaves
    every other value as it is given.  So the field holds a member of the
    enumeration, or an object that is neither a member nor a [str] (an
    [int], [None], ...), which is represented by its [repr]; it holds no
    [str], as long as the field is not assigned after construction. *)
Inductive Kind : Type :=
| Member (t : MessageType)
| NotAMember (rendering : pystr).

Coercion Member : MessageType >-> Kind.

(** [kind == member]: an object that is not a member is not equal to
    one. *)
Definition Kind_eqb (kind : Kind) (member : MessageType) : bool :=
  match kind with
  | Member t => MessageType_eqb t member
  | NotAMember _ => false
  end.

(* ================================================================== *)
(** ** Payloads and metadata values *)
(* ================================================================== *)

(** [Message.content] is typed [Any].  The router stores it, copies it and
    applies [str] to it; a payload that is not a string is therefore
    represented by what [str] returns on it. *)
Inductive Content : Type :=
| CStr (s : pystr)
| CObj (rendering : pystr).

(** [str(content)] *)
Definition py_str (c : Content) : pystr :=
  match c with
  | CStr s => s
  | CObj r => r
  end.

(** The values of a metadata dictionary: what the router writes (integers,
    booleans, strings, lists of strings, lists of contents, durations) and
    whatever the caller had put there.  A float number of seconds is held as
    the rational it stands for. *)
Inductive MetaVal : Type :=
| MBool (b : bool)
| MInt (n : Z)
| MStr (s : pystr)
| MFloat (q : QArith_base.Q)
| MStrList (l : list pystr)
| MContents (l : list Content)
| MAny (c : Content).

(** A [datetime] is held as microseconds since the epoch, so that the
    difference of two is a [timedelta] in microseconds;
    [timedelta.total_seconds()] divides by [10**6]. *)
Definition datetime : Type := Z.

Definition total_seconds (delta : Z) : QArith_base.Q :=
  QArith_base.Qmake delta 1000000.

(* ================================================================== *)
(** ** Message and RoutingRule *)
(* ================================================================== *)

Module Message.

Record t : Type := mk {
  id : pystr;
  sender : pystr;
  recipients : list pystr;
  message_type : Kind;
  content : Content;
  metadata : Dict.t MetaVal;
  timestamp : datetime;
  priority : Z
}.

End Message.

Module RoutingRule.

(** [condition] is a Python callable: it returns a boolean or raises. *)
Record t : Type := mk {
  condition : Message.t -> Result bool;
  target_agents : list pystr;
  strategy : RoutingStrategy;
  priority : Z;
  description : pystr
}.

End RoutingRule.

(* ================================================================== *)
(** ** Agents and the router's state *)
(* ================================================================== *)

(** What the router uses of a [BaseAgent]: the awaited [process] call, which
    returns a result or raises, and the two accessors, which return copies
    of the configured lists. *)
Record BaseAgent : Type := mkAgent {
  process : Content -> Result Content;
  get_capabilities : list pystr;
  get_limitations : list pystr
}.

Record Stats : Type := mkStats {
  messages_processed : Z;
  messages_routed : Z;
  errors : Z;
  avg_processing_time : QArith_base.Q
}.

(** The fields of [AgentRouter] that the modelled methods read or write.
    [config_loader], [api_key], [message_queue] and [is_running] are used by
    [initialize_agents] and the queue loop only. *)
Record AgentRouter : Type := mkRouter {
  agents : Dict.t BaseAgent;
  routing_rules : list RoutingRule.t;
  message_history : list Message.t;
  stats : Stats
}.

(** [AgentRouter.__init__] *)
Definition AgentRouter_init : AgentRouter :=
  {| agents := Dict.empty;
     routing_rules := [];
     message_history := [];
     stats := {| messages_processed := 0;
                 messages_routed := 0;
                 errors := 0;
                 avg_processing_time := QArith_base.Qmake 0 1 |} |}.

(** [self.agents[agent_id] = agent], as [initialize_agents] does for each
    configured agent. *)
Definition register_agent (agent_id : pystr) (agent : BaseAgent)
    (self : AgentRouter) : AgentRouter :=
  {| agents := Dict.set agent_id agent (agents self);
     routing_rules := routing_rules self;
     message_history := message_history self;
     stats := stats self |}.

(* ================================================================== *)
(** ** The effects of a method call *)
(* ================================================================== *)

(** A call runs against the router, the wall clock and the interpreter.
    [clock k] is what the [k]-th call of [datetime.now()] returns and
    [ticks] counts the calls made so far; [str_repr] is [repr] on
    strings. *)
Record World : Type := mkWorld {
  router : AgentRouter;
  clock : nat -> datetime;
  ticks : nat;
  str_repr : pystr -> pystr
}.

(** A computation returns or raises, and in both cases leaves a world
    behind: what was written before an exception stays written. *)
Definition M (A : Type) : Type := World -> Result A * World.

Definition ret {A : Type} (a : A) : M A := fun w => (Ok a, w).

Definition raise {A : Type} (e : Exc) : M A := fun w => (Raise e, w).

Definition bind {A B : Type} (m : M A) (k : A -> M B) : M B :=
  fun w =>
    match m w with
    | (Ok a, w') => k a w'
    | (Raise e, w') => (Raise e, w')
    end.

Declare Scope py_scope.
Delimit Scope py_scope with py.
Notation "x <- m ;; k" := (bind m (fun x => k))
  (at level 61, m at next level, right associativity) : py_scope.
Notation "m ;;; k" := (bind m (fun _ => k))
  (at level 61, right associativity) : py_scope.
Local Open Scope py_scope.

(** A pure step that may raise. *)
Definition lift {A : Type} (r : Result A) : M A := fun w => (r, w).

(** [try: body  except Exception as e: handler(e)]: an exception that is
    not an instance of [Exception] is not caught. *)
Definition try_except {A : Type} (body : M A) (handler : Exc -> M A) : M A :=
  fun w =>
    match body w with
    | (Ok a, w') => (Ok a, w')
    | (Raise e, w') =>
        if isinstance_Exception e then handler e w' else (Raise e, w')
    end.

(** Reading a field of [self]. *)
Definition gets {A : Type} (f : AgentRouter -> A) : M A :=
  fun w => (Ok (f (router w)), w).

(** Assigning to [self.stats]. *)
Definition set_stats (f : Stats -> Stats) : M unit :=
  fun w =>
    (Ok tt,
     {| router := {| agents := agents (router w);
                     routing_rules := routing_rules (router w);
                     message_history := message_history (router w);
                     stats := f (stats (router w)) |};
        clock := clock w;
        ticks := ticks w;
        str_repr := str_repr w |}).

(** [datetime.now()] *)
Definition now : M datetime :=
  fun w =>
    (Ok (clock w (ticks w)),
     {| router := router w; clock := clock w; ticks := S (ticks w);
        str_repr := str_repr w |}).

(** [for x in xs: acc = body(x, acc)] *)
Fixpoint for_each {A S : Type} (xs : list A) (body : A -> S -> M S) (acc : S) : M S :=
  match xs with
  | [] => ret acc
  | x :: xs' => acc' <- body x acc ;; for_each xs' body acc'
  end.

(** [enumerate(xs)] *)
Fixpoint enumerate_from {A : Type} (i : Z) (xs : list A) : list (Z * A) :=
  match xs with
  | [] => []
  | x :: xs' => (i, x) :: enumerate_from (i + 1) xs'
  end.

Definition enumerate {A : Type} (xs : list A) : list (Z * A) := enumerate_from 0 xs.

(** [if isinstance(self.message_type, str):
        self.message_type = MessageType(self.message_type)].  The value
    given is a string ([inr]) or anything else ([inl]). *)
Definition post_init (message_type : Kind + pystr) : M Kind :=
  fun w =>
    (match message_type with
     | inl kind => Ok kind
     | inr s =>
         match MessageType_of_value (str_repr w) s with
         | Ok t => Ok (Member t)
         | Raise e => Raise e
         end
     end,
     w).

(** [Message(...)]: the dataclass constructor.  [timestamp] takes its
    default, [datetime.now()]; then [__post_init__] converts a
    [message_type] given as a string, and raises for a string that is not
    the value of a member. *)
Definition Message_init (id sender : pystr) (recipients : list pystr)
    (message_type : Kind + pystr) (content : Content)
    (metadata : Dict.t MetaVal) (priority : Z) : M Message.t :=
  timestamp <- now ;;
  message_type <- post_init message_type ;;
  ret {| Message.id := id;
         Message.sender := sender;
         Message.recipients := recipients;
         Message.message_type := message_type;
         Message.content := content;
         Message.metadata := metadata;
         Message.timestamp := timestamp;
         Message.priority := priority |}.

(* ================================================================== *)
(** ** add_routing_rule *)
(* ================================================================== *)

(** [list.sort(key=lambda x: x.priority, reverse=True)] is a stable sort:
    the larger key first, and elements with equal keys in the order they had
    ([reverse=True] keeps that order).  The stable sort of a list is unique,
    so the sort is written as the simplest stable one: each element, taken
    from the right, goes before the first element whose key is not larger. *)
Fixpoint insert_by_priority (rule : RoutingRule.t) (sorted : list RoutingRule.t)
    : list RoutingRule.t :=
  match sorted with
  | [] => [rule]
  | r :: rest =>
      if RoutingRule.priority r <=? RoutingRule.priority rule
      then rule :: r :: rest
      else r :: insert_by_priority rule rest
  end.

Fixpoint sort_by_priority_reverse (rules : list RoutingRule.t) : list RoutingRule.t :=
  match rules with
  | [] => []
  | r :: rest => insert_by_priority r (sort_by_priority_reverse rest)
  end.

Definition add_routing_rule (rule : RoutingRule.t) (self : AgentRouter) : AgentRouter :=
  {| agents := agents self;
     routing_rules := sort_by_priority_reverse (routing_rules self ++ [rule]);
     message_history := message_history self;
     stats := stats self |}.

(* ================================================================== *)
(** ** route_message *)
(* ================================================================== *)

(** [[rule for rule in rules if rule.condition(message)]]: every condition
    is called, in list order, and the first one that raises ends the
    comprehension. *)
Fixpoint matching_rules (rules : list RoutingRule.t) (message : Message.t)
    : Result (list RoutingRule.t) :=
  match rules with
  | [] => Ok []
  | rule :: rest =>
      match RoutingRule.condition rule message with
      | Raise e => Raise e
      | Ok b =>
          match matching_rules rest message with
          | Raise e => Raise e
          | Ok l => Ok (if b then rule :: l else l)
          end
      end
  end.

(** [[agent_id for agent_id in rule.target_agents if agent_id in self.agents]] *)
Definition available_agents (rule : RoutingRule.t) (self : AgentRouter) : list pystr :=
  filter (fun agent_id => Dict.mem agent_id (agents self)) (RoutingRule.target_agents rule).

Definition add_messages_routed (n : Z) (s : Stats) : Stats :=
  {| messages_processed := messages_processed s;
     messages_routed := messages_routed s + n;
     errors := errors s;
     avg_processing_time := avg_processing_time s |}.

Definition add_error (s : Stats) : Stats :=
  {| messages_processed := messages_processed s;
     messages_routed := messages_routed s;
     errors := errors s + 1;
     avg_processing_time := avg_processing_time s |}.

(** The body of the [try] of [route_message].  Of its steps only a rule's
    condition can raise, and that is before the first message is appended:
    when the handler runs, [routed_messages] is still empty. *)
Definition route_message_try (message : Message.t) : M (list Message.t) :=
  rules <- gets routing_rules ;;
  matching <- lift (matching_rules rules message) ;;
  match matching with
  | [] => ret []
  | rule :: _ =>
      self <- gets (fun self => self) ;;
      let available := available_agents rule self in
      match available with
      | [] => ret []
      | _ :: _ =>
          routed_messages <-
            match RoutingRule.strategy rule with
            | SEQUENTIAL =>
                for_each (enumerate available)
                  (fun '(i, agent_id) routed_messages =>
                     agent_message <-
                       Message_init
                         (Message.id message ++ py "_to_" ++ agent_id)
                         (Message.sender message)
                         [agent_id]
                         (inl (Message.message_type message))
                         (Message.content message)
                         (Dict.set (py "previous_results")
                            (MContents (map Message.content routed_messages))
                            (Dict.set (py "total_steps")
                               (MInt (Z.of_nat (List.length available)))
                               (Dict.set (py "step") (MInt (i + 1))
                                  (Message.metadata message))))
                         (Message.priority message) ;;
                     ret (routed_messages ++ [agent_message]))
                  []
            | PARALLEL =>
                for_each available
                  (fun agent_id routed_messages =>
                     agent_message <-
                       Message_init
                         (Message.id message ++ py "_to_" ++ agent_id)
                         (Message.sender message)
                         [agent_id]
                         (inl (Message.message_type message))
                         (Message.content message)
                         (Dict.set (py "agent_id") (MStr agent_id)
                            (Dict.set (py "parallel") (MBool true)
                               (Message.metadata message)))
                         (Message.priority message) ;;
                     ret (routed_messages ++ [agent_message]))
                  []
            | BROADCAST =>
                for_each (Dict.keys (agents self))
                  (fun agent_id routed_messages =>
                     agent_message <-
                       Message_init
                         (Message.id message ++ py "_broadcast_" ++ agent_id)
                         (Message.sender message)
                         [agent_id]
                         (inl (Message.message_type message))
                         (Message.content message)
                         (Dict.set (py "broadcast") (MBool true)
                            (Message.metadata message))
                         (Message.priority message) ;;
                     ret (routed_messages ++ [agent_message]))
                  []
            | CONDITIONAL => ret []
            end ;;
          set_stats (add_messages_routed (Z.of_nat (List.length routed_messages))) ;;;
          ret routed_messages
      end
  end.

Definition route_message (message : Message.t) : M (list Message.t) :=
  try_except
    (route_message_try message)
    (fun e => set_stats add_error ;;; ret []).

(* ================================================================== *)
(** ** process_message *)
(* ================================================================== *)

(** [self.stats["avg_processing_time"] = (avg * n + t) / (n + 1)] and then
    [self.stats["messages_processed"] += 1]. *)
Definition record_processed (processing_time : QArith_base.Q) (s : Stats) : Stats :=
  {| messages_processed := messages_processed s + 1;
     messages_routed := messages_routed s;
     errors := errors s;
     avg_processing_time :=
       QArith_base.Qdiv
         (QArith_base.Qplus
            (QArith_base.Qmult (avg_processing_time s)
               (QArith_base.inject_Z (messages_processed s)))
            processing_time)
         (QArith_base.inject_Z (messages_processed s + 1)) |}.

(** [[message.sender] if message.sender != "system" else []] *)
Definition reply_recipients (message : Message.t) : list pystr :=
  if pystr_eqb (Message.sender message) (py "system") then []
  else [Message.sender message].

(** The body of the [try] of [process_message]. *)
Definition process_message_try (start_time : datetime) (message : Message.t)
    : M Message.t :=
  agent_id <- lift (match Message.recipients message with
                    | [] => Raise (IndexError (py "list index out of range"))
                    | agent_id :: _ => Ok agent_id
                    end) ;;
  agent <- gets (fun self => Dict.get agent_id (agents self)) ;;
  match agent with
  | None => raise (ValueError (py "Агент " ++ agent_id ++ py " не найден"))
  | Some agent =>
      result <- lift (process agent (Message.content message)) ;;
      t_response <- now ;;
      response <-
        Message_init
          (py "response_" ++ Message.id message)
          agent_id
          (reply_recipients message)
          (inl (Member RESULT))
          result
          (Dict.set (py "agent_limitations") (MStrList (get_limitations agent))
             (Dict.set (py "agent_capabilities") (MStrList (get_capabilities agent))
                (Dict.set (py "processing_time")
                   (MFloat (total_seconds (t_response - start_time)))
                   (Dict.set (py "original_message_id") (MStr (Message.id message))
                      Dict.empty))))
          (Message.priority message) ;;
      t_done <- now ;;
      set_stats (record_processed (total_seconds (t_done - start_time))) ;;;
      ret response
  end.

(** The [except Exception as e] handler of [process_message]. *)
Definition process_message_except (start_time : datetime) (message : Message.t)
    (e : Exc) : M Message.t :=
  set_stats add_error ;;;
  t_error <- now ;;
  Message_init
    (py "error_" ++ Message.id message)
    (match Message.recipients message with
     | agent_id :: _ => agent_id
     | [] => py "system"
     end)
    (reply_recipients message)
    (inl (Member ERROR))
    (CStr (py "Ошибка обработки: " ++ exc_str e))
    (Dict.set (py "processing_time") (MFloat (total_seconds (t_error - start_time)))
       (Dict.set (py "error_type") (MStr (exc_type e))
          (Dict.set (py "original_message_id") (MStr (Message.id message))
             Dict.empty)))
    (Message.priority message).

Definition process_message (message : Message.t) : M Message.t :=
  start_time <- now ;;
  try_except
    (process_message_try start_time message)
    (process_message_except start_time message).

(* ================================================================== *)
(** ** add_default_routing_rules *)
(* ================================================================== *)

Section DefaultRules.

(** [str.lower()], the Unicode lower-casing of the Python runtime.  The
    default conditions are stated for it as it is, whatever it maps a string
    to. *)
Variable lower : pystr -> pystr.

(** [any(keyword in str(message.content).lower() for keyword in keywords)] *)
Definition any_keyword_in (keywords : list pystr) (message : Message.t) : bool :=
  existsb (fun keyword => is_substring keyword (lower (py_str (Message.content message))))
    keywords.

Definition data_analysis_keywords : list pystr :=
  [py "анализ"; py "данные"; py "статистика"; py "тренды"].

Definition code_generation_keywords : list pystr :=
  [py "код"; py "программа"; py "функция"; py "класс"; py "алгоритм"].

Definition code_review_keywords : list pystr :=
  [py "ревью"; py "проверка"; py "код"; py "качество"].

Definition project_management_keywords : list pystr :=
  [py "проект"; py "план"; py "управление"; py "задачи"; py "сроки"].

Definition idea_generation_keywords : list pystr :=
  [py "идея"; py "инновация"; py "креатив"; py "решение"].

Definition quality_assessment_keywords : list pystr :=
  [py "качество"; py "оценка"; py "проверка"; py "аудит"].

Definition is_data_analysis (message : Message.t) : Result bool :=
  Ok (Kind_eqb (Message.message_type message) TASK
      && any_keyword_in data_analysis_keywords message).

Definition is_code_generation (message : Message.t) : Result bool :=
  Ok (Kind_eqb (Message.message_type message) TASK
      && any_keyword_in code_generation_keywords message).

Definition is_code_review (message : Message.t) : Result bool :=
  Ok (Kind_eqb (Message.message_type message) TASK
      && any_keyword_in code_review_keywords message).

Definition is_project_management (message : Message.t) : Result bool :=
  Ok (Kind_eqb (Message.message_type message) TASK
      && any_keyword_in project_management_keywords message).

Definition is_idea_generation (message : Message.t) : Result bool :=
  Ok (Kind_eqb (Message.message_type message) TASK
      && any_keyword_in idea_generation_keywords message).

Definition is_quality_assessment (message : Message.t) : Result bool :=
  Ok (Kind_eqb (Message.message_type message) TASK
      && any_keyword_in quality_assessment_keywords message).

Definition is_complex_task (message : Message.t) : Result bool :=
  Ok (Kind_eqb (Message.message_type message) TASK
      && (200 <? len (py_str (Message.content message)))).

Definition add_default_routing_rules (self : AgentRouter) : AgentRouter :=
  let self := add_routing_rule
    {| RoutingRule.condition := is_data_analysis;
       RoutingRule.target_agents := [py "analyst"];
       RoutingRule.strategy := SEQUENTIAL;
       RoutingRule.priority := 10;
       RoutingRule.description := py "Анализ данных -> Data Analyst" |} self in
  let self := add_routing_rule
    {| RoutingRule.condition := is_code_generation;
       RoutingRule.target_agents := [py "coder"];
       RoutingRule.strategy := SEQUENTIAL;
       RoutingRule.priority := 10;
       RoutingRule.description := py "Генерация кода -> Code Developer" |} self in
  let self := add_routing_rule
    {| RoutingRule.condition := is_code_review;
       RoutingRule.target_agents := [py "reviewer"];
       RoutingRule.strategy := SEQUENTIAL;
       RoutingRule.priority := 9;
       RoutingRule.description := py "Ревью кода -> Code Reviewer" |} self in
  let self := add_routing_rule
    {| RoutingRule.condition := is_project_management;
       RoutingRule.target_agents := [py "manager"];
       RoutingRule.strategy := SEQUENTIAL;
       RoutingRule.priority := 8;
       RoutingRule.description := py "Управление проектами -> Project Manager" |} self in
  let self := add_routing_rule
    {| RoutingRule.condition := is_idea_generation;
       RoutingRule.target_agents := [py "ideator"];
       RoutingRule.strategy := SEQUENTIAL;
       RoutingRule.priority := 7;
       RoutingRule.description := py "Генерация идей -> Idea Generator" |} self in
  let self := add_routing_rule
    {| RoutingRule.condition := is_quality_assessment;
       RoutingRule.target_agents := [py "assessor"];
       RoutingRule.strategy := SEQUENTIAL;
       RoutingRule.priority := 6;
       RoutingRule.description := py "Оценка качества -> Quality Assessor" |} self in
  add_routing_rule
    {| RoutingRule.condition := is_complex_task;
       RoutingRule.target_agents := [py "analyst"; py "coder"; py "reviewer"];
       RoutingRule.strategy := SEQUENTIAL;
       RoutingRule.priority := 5;
       RoutingRule.description :=
         py "Комплексные задачи -> Analyst -> Coder -> Reviewer" |} self.

(** The keywords of the six topic rules together. *)
Definition configured_keywords : list pystr :=
  data_analysis_keywords ++ code_generation_keywords ++ code_review_keywords
  ++ project_management_keywords ++ idea_generation_keywords
  ++ quality_assessment_keywords.

(** The rule list of a router that was given the default rules and no
    other. *)
Definition default_routing_rules : list RoutingRule.t :=
  routing_rules (add_default_routing_rules AgentRouter_init).

End DefaultRules.

(** [repr] on a string whose characters beyond U+007F are printable, as
    Cyrillic letters are: the quotes are double when the string has a single
    quote and no double one; the backslash, the chosen quote, tab, newline
    and carriage return are escaped with a backslash, the other control
    characters as [\xhh].  It is used for the concrete worlds below. *)
Definition hex_digit (n : N) : N :=
  if (n <? 10)%N then (48 + n)%N else (87 + n)%N.

Definition repr_char (quote c : N) : pystr :=
  if (c =? 92)%N then [92; 92]%N
  else if (c =? quote)%N then [92; quote]%N
  else if (c =? 9)%N then [92; 116]%N
  else if (c =? 10)%N then [92; 110]%N
  else if (c =? 13)%N then [92; 114]%N
  else if ((c <? 32) || (c =? 127))%N
       then [92; 120; hex_digit (c / 16); hex_digit (c mod 16)]%N
  else [c].

Definition repr_basic (s : pystr) : pystr :=
  let quote := if existsb (N.eqb 39) s && negb (existsb (N.eqb 34) s)
               then 34%N else 39%N in
  [quote] ++ flat_map (repr_char quote) s ++ [quote].

(** [str.lower()] on the Basic Latin and Cyrillic capitals (U+0041..U+005A,
    U+0400..U+042F), which is where it is used on concrete texts below;
    other code points are left as they are. *)
Definition lower_char (c : N) : N :=
  if ((65 <=? c) && (c <=? 90))%N then (c + 32)%N
  else if ((1040 <=? c) && (c <=? 1071))%N then (c + 32)%N
  else if ((1024 <=? c) && (c <=? 1039))%N then (c + 80)%N
  else c.

Definition lower_basic (s : pystr) : pystr := map lower_char s.

(* ================================================================== *)
(** ** The agent factories *)
(* ================================================================== *)

(** The agent classes of [specialized_agents.py] and
    [extended_agents.py]. *)
Inductive AgentClass : Type :=
| DataAnalystAgent | CodeDeveloperAgent | CodeReviewerAgent
| TaskManagerAgent | IdeaGeneratorAgent | QualityAssessorAgent
| DatabaseAgent | ImageAnalysisAgent | APIAgent | MachineLearningAgent
| SecurityAgent | DevOpsAgent | DocumentationAgent | TestingAgent
| ResearchAgent | CommunicationAgent.

Inductive Factory : Type := AgentFactory | ExtendedAgentFactory.

(** [{**a, **b}] *)
Definition dict_merge {V : Type} (a b : Dict.t V) : Dict.t V :=
  fold_left (fun d kv => Dict.set (fst kv) (snd kv) d) b a.

(** [agent_classes] of [AgentFactory.create_agent]. *)
Definition agent_classes : Dict.t AgentClass :=
  [ (py "analyst", DataAnalystAgent);
    (py "coder", CodeDeveloperAgent);
    (py "reviewer", CodeReviewerAgent);
    (py "manager", TaskManagerAgent);
    (py "ideator", IdeaGeneratorAgent);
    (py "assessor", QualityAssessorAgent) ].

(** [base_agent_classes] of [ExtendedAgentFactory.create_agent]: the values
    are class names, strings. *)
Definition base_agent_classes : Dict.t (pystr + AgentClass) :=
  [ (py "analyst", inl (py "DataAnalystAgent"));
    (py "coder", inl (py "CodeDeveloperAgent"));
    (py "reviewer", inl (py "CodeReviewerAgent"));
    (py "manager", inl (py "TaskManagerAgent"));
    (py "ideator", inl (py "IdeaGeneratorAgent"));
    (py "assessor", inl (py "QualityAssessorAgent")) ].

Definition extended_agent_classes : Dict.t (pystr + AgentClass) :=
  [ (py "database", inr DatabaseAgent);
    (py "image_analysis", inr ImageAnalysisAgent);
    (py "api", inr APIAgent);
    (py "ml", inr MachineLearningAgent);
    (py "security", inr SecurityAgent);
    (py "devops", inr DevOpsAgent);
    (py "documentation", inr DocumentationAgent);
    (py "testing", inr TestingAgent);
    (py "research", inr ResearchAgent);
    (py "communication", inr CommunicationAgent) ].

Definition all_agent_classes : Dict.t (pystr + AgentClass) :=
  dict_merge base_agent_classes extended_agent_classes.

(** [ExtendedAgentFactory.get_available_agent_types()] *)
Definition ExtendedAgentFactory_get_available_agent_types : list pystr :=
  [ py "analyst"; py "coder"; py "reviewer"; py "manager"; py "ideator";
    py "assessor";
    py "database"; py "image_analysis"; py "api"; py "ml"; py "security";
    py "devops"; py "documentation"; py "testing"; py "research";
    py "communication" ].

(** [AgentFactory.get_available_agent_types()], [extended_agents] being
    importable: [base_types + extended_types]. *)
Definition AgentFactory_get_available_agent_types : list pystr :=
  [ py "analyst"; py "coder"; py "reviewer"; py "manager"; py "ideator";
    py "assessor" ]
  ++ ExtendedAgentFactory_get_available_agent_types.

Definition RecursionError : Exc :=
  mkExc (py "RecursionError") (py "maximum recursion depth exceeded").

(** [sys.getrecursionlimit()], by default. *)
Definition recursion_limit : nat := 1000.

Section Factories.

(** The validated configuration of an agent, and the part of the Python
    runtime and of the agent classes the factories rely on: what calling a
    class on a configuration (and the api key) gives, and whether an
    exception is an [ImportError], which [AgentFactory] catches around its
    call of the extended factory. *)
Variable Cfg : Type.
Variable construct : AgentClass -> Cfg -> Result BaseAgent.
Variable isinstance_ImportError : Exc -> bool.

(** [AgentFactory.create_agent] and [ExtendedAgentFactory.create_agent]
    call each other; [depth] is the number of frames left before Python
    raises [RecursionError]. *)
Fixpoint create_agent (depth : nat) (factory : Factory) (agent_type : pystr)
    (config : Cfg) : Result BaseAgent :=
  match depth with
  | O => Raise RecursionError
  | S depth' =>
      match factory with
      | AgentFactory =>
          match Dict.get agent_type agent_classes with
          | Some agent_class => construct agent_class config
          | None =>
              match create_agent depth' ExtendedAgentFactory agent_type config with
              | Ok agent => Ok agent
              | Raise e =>
                  if isinstance_ImportError e
                  then Raise (ValueError (py "Неизвестный тип агента: " ++ agent_type))
                  else Raise e
              end
          end
      | ExtendedAgentFactory =>
          match Dict.get agent_type all_agent_classes with
          | None => Raise (ValueError (py "Неизвестный тип агента: " ++ agent_type))
          | Some (inl _) => create_agent depth' AgentFactory agent_type config
          | Some (inr agent_class) => construct agent_class config
          end
      end
  end.

(* ================================================================== *)
(** ** initialize_agents *)
(* ================================================================== *)

(** What the configuration loader and pydantic give: the value of
    [self.config_loader.load_agents_config().get("agents", {})], or the
    exception the loader raises, and the [AgentConfig] built from an
    agent's dictionary, or the validation error. *)
Variable ConfigDict : Type.
Variable load_agents_config : Result (Dict.t ConfigDict).
Variable AgentConfig_init : ConfigDict -> Result Cfg.

(** [self.agents[agent_id] = agent] *)
Definition set_agent (agent_id : pystr) (agent : BaseAgent) : M unit :=
  fun w =>
    (Ok tt,
     {| router := register_agent agent_id agent (router w);
        clock := clock w;
        ticks := ticks w;
        str_repr := str_repr w |}).

(** The body of the loop of [initialize_agents]. *)
Definition initialize_agent (configured : Dict.t ConfigDict) (agent_id : pystr)
    (_ : unit) : M unit :=
  match Dict.get agent_id configured with
  | None => ret tt
  | Some agent_config_dict =>
      agent_config <- lift (AgentConfig_init agent_config_dict) ;;
      agent <- lift (create_agent recursion_limit AgentFactory agent_id agent_config) ;;
      set_agent agent_id agent
  end.

(** [agent_ids] is [None] by default: every configured agent. *)
Definition initialize_agents (agent_ids : option (list pystr)) : M unit :=
  try_except
    (configured <- lift load_agents_config ;;
     let agent_ids := match agent_ids with
                      | None => Dict.keys configured
                      | Some ids => ids
                      end in
     for_each agent_ids (initialize_agent configured) tt)
    (fun e => raise e).

End Factories.

(* ================================================================== *)
(** ** The message history *)
(* ================================================================== *)

(** [l[start:]]: a negative [start] counts from the end, and both ends are
    clamped to the list. *)
Definition slice_from {A : Type} (start : Z) (l : list A) : list A :=
  let n := Z.of_nat (List.length l) in
  let start := if start <? 0 then Z.max (start + n) 0 else Z.min start n in
  skipn (Z.to_nat start) l.

(** [self.message_history[-limit:] if limit else self.message_history] *)
Definition get_message_history (limit : Z) (self : AgentRouter) : list Message.t :=
  if limit =? 0 then message_history self
  else slice_from (- limit) (message_history self).

Definition clear_history (self : AgentRouter) : AgentRouter :=
  {| agents := agents self;
     routing_rules := routing_rules self;
     message_history := [];
     stats := stats self |}.

(** [self.message_history.append(message)] *)
Definition append_history (message : Message.t) : M unit :=
  fun w =>
    (Ok tt,
     {| router := {| agents := agents (router w);
                     routing_rules := routing_rules (router w);
                     message_history := message_history (router w) ++ [message];
                     stats := stats (router w) |};
        clock := clock w;
        ticks := ticks w;
        str_repr := str_repr w |}).

(** The branch of [start_processing] for routed messages that are not marked
    parallel: each is processed to its end before the next, and the response
    is appended to the history. *)
Definition process_sequentially (routed_messages : list Message.t) : M unit :=
  for_each routed_messages
    (fun msg (_ : unit) =>
       response <- process_message msg ;;
       append_history response)
    tt.

(* ================================================================== *)
(** ** Definitions used to state the results *)
(* ================================================================== *)

(** The world after [n] more readings of the clock. *)
Definition advance (n : nat) (w : World) : World :=
  {| router := router w; clock := clock w; ticks := n + ticks w;
     str_repr := str_repr w |}.

(** The world after [self.stats] was replaced. *)
Definition with_stats (s : Stats) (w : World) : World :=
  {| router := {| agents := agents (router w);
                  routing_rules := routing_rules (router w);
                  message_history := message_history (router w);
                  stats := s |};
     clock := clock w;
     ticks := ticks w;
     str_repr := str_repr w |}.

(** The world whose router has the given rule list and is otherwise [w]'s. *)
Definition with_rules (rules : list RoutingRule.t) (w : World) : World :=
  {| router := {| agents := agents (router w);
                  routing_rules := rules;
                  message_history := message_history (router w);
                  stats := stats (router w) |};
     clock := clock w;
     ticks := ticks w;
     str_repr := str_repr w |}.

(** What a loop that appends one constructed message per element leaves in
    its accumulator: the element, the accumulator so far and the clock
    reading determine each message. *)
Fixpoint append_each {A : Type} (mk : A -> list Message.t -> datetime -> Message.t)
    (xs : list A) (acc : list Message.t) (clk : nat -> datetime) (k : nat)
    : list Message.t :=
  match xs with
  | [] => acc
  | x :: xs' => append_each mk xs' (acc ++ [mk x acc (clk k)]) clk (S k)
  end.

(** The message each strategy builds for one target, given the messages
    built before it in the same loop and the reading of the clock. *)
Definition sequential_message (message : Message.t) (total_steps : nat)
    (step : Z * pystr) (routed_messages : list Message.t) (ts : datetime) : Message.t :=
  Message.mk
    (Message.id message ++ py "_to_" ++ snd step)
    (Message.sender message)
    [snd step]
    (Message.message_type message)
    (Message.content message)
    (Dict.set (py "previous_results")
       (MContents (map Message.content routed_messages))
       (Dict.set (py "total_steps") (MInt (Z.of_nat total_steps))
          (Dict.set (py "step") (MInt (fst step + 1)) (Message.metadata message))))
    ts
    (Message.priority message).

Definition parallel_message (message : Message.t) (agent_id : pystr)
    (routed_messages : list Message.t) (ts : datetime) : Message.t :=
  Message.mk
    (Message.id message ++ py "_to_" ++ agent_id)
    (Message.sender message)
    [agent_id]
    (Message.message_type message)
    (Message.content message)
    (Dict.set (py "agent_id") (MStr agent_id)
       (Dict.set (py "parallel") (MBool true) (Message.metadata message)))
    ts
    (Message.priority message).

Definition broadcast_message (message : Message.t) (agent_id : pystr)
    (routed_messages : list Message.t) (ts : datetime) : Message.t :=
  Message.mk
    (Message.id message ++ py "_broadcast_" ++ agent_id)
    (Message.sender message)
    [agent_id]
    (Message.message_type message)
    (Message.content message)
    (Dict.set (py "broadcast") (MBool true) (Message.metadata message))
    ts
    (Message.priority message).

(** The derived messages of a rule that fires with a registered target. *)
Definition expansion (rule : RoutingRule.t) (message : Message.t) (w : World)
    : list Message.t :=
  let available := available_agents rule (router w) in
  match RoutingRule.strategy rule with
  | SEQUENTIAL =>
      append_each (sequential_message message (List.length available))
        (enumerate available) [] (clock w) (ticks w)
  | PARALLEL =>
      append_each (parallel_message message) available [] (clock w) (ticks w)
  | BROADCAST =>
      append_each (broadcast_message message) (Dict.keys (agents (router w))) []
        (clock w) (ticks w)
  | CONDITIONAL => []
  end.

(** [rules] registered one after the other, by [add_routing_rule]. *)
Definition add_routing_rules (rules : list RoutingRule.t) (self : AgentRouter)
    : AgentRouter :=
  fold_left (fun self rule => add_routing_rule rule self) rules self.

(** Non-increasing priorities, first to last. *)
Definition priority_sorted (rules : list RoutingRule.t) : Prop :=
  StronglySorted (fun a b => RoutingRule.priority b <= RoutingRule.priority a) rules.

(** The rules of one priority, in list order. *)
Definition with_priority (p : Z) (rules : list RoutingRule.t) : list RoutingRule.t :=
  filter (fun r => RoutingRule.priority r =? p) rules.

(** The ways the [try] of [process_message] ends in an exception [e]. *)
Inductive process_failure (w : World) (message : Message.t) : Exc -> Prop :=
| no_recipient :
    Message.recipients message = [] ->
    process_failure w message (IndexError (py "list index out of range"))
| agent_not_registered agent_id rest :
    Message.recipients message = agent_id :: rest ->
    Dict.get agent_id (agents (router w)) = None ->
    process_failure w message
      (ValueError (py "Агент " ++ agent_id ++ py " не найден"))
| agent_raised agent_id rest agent e :
    Message.recipients message = agent_id :: rest ->
    Dict.get agent_id (agents (router w)) = Some agent ->
    process agent (Message.content message) = Raise e ->
    process_failure w message e.

(** The call reaches an agent and the agent returns [result]. *)
Definition process_success (w : World) (message : Message.t)
    (agent_id : pystr) (agent : BaseAgent) (result : Content) : Prop :=
  (exists rest, Message.recipients message = agent_id :: rest) /\
  Dict.get agent_id (agents (router w)) = Some agent /\
  process agent (Message.content message) = Ok result.

(** The message [process_message] returns after the agent returned
    [result]: [t_response] is the reading taken for the metadata and [ts]
    the one taken for the timestamp. *)
Definition result_response (message : Message.t) (agent_id : pystr) (agent : BaseAgent)
    (result : Content) (start_time t_response ts : datetime) : Message.t :=
  Message.mk
    (py "response_" ++ Message.id message)
    agent_id
    (reply_recipients message)
    RESULT
    result
    (Dict.set (py "agent_limitations") (MStrList (get_limitations agent))
       (Dict.set (py "agent_capabilities") (MStrList (get_capabilities agent))
          (Dict.set (py "processing_time")
             (MFloat (total_seconds (t_response - start_time)))
             (Dict.set (py "original_message_id") (MStr (Message.id message))
                Dict.empty))))
    ts
    (Message.priority message).

(** The message [process_message] returns after the exception [e]. *)
Definition error_response (message : Message.t) (e : Exc)
    (start_time t_error ts : datetime) : Message.t :=
  Message.mk
    (py "error_" ++ Message.id message)
    (match Message.recipients message with
     | agent_id :: _ => agent_id
     | [] => py "system"
     end)
    (reply_recipients message)
    ERROR
    (CStr (py "Ошибка обработки: " ++ exc_str e))
    (Dict.set (py "processing_time") (MFloat (total_seconds (t_error - start_time)))
       (Dict.set (py "error_type") (MStr (exc_type e))
          (Dict.set (py "original_message_id") (MStr (Message.id message))
             Dict.empty)))
    ts
    (Message.priority message).

(* ------------------------------------------------------------------ *)
(** *** Concrete routers and messages *)
(* ------------------------------------------------------------------ *)

Module Sample.

(** An agent in the manner of the tests' [MockAgent]. *)
Definition mock_agent (name : pystr) : BaseAgent :=
  {| process := fun _ => Ok (CStr (py "Обработано агентом " ++ name));
     get_capabilities := [py "analysis"];
     get_limitations := [py "no_network"] |}.

(** An agent whose [process] raises. *)
Definition failing_agent : BaseAgent :=
  {| process := fun _ => Raise (mkExc (py "RuntimeError") (py "LLM unavailable"));
     get_capabilities := [];
     get_limitations := [] |}.

(** An agent whose [process] is cancelled while it is awaited. *)
Definition cancelled_agent : BaseAgent :=
  {| process := fun _ => Raise (mkBaseException (py "CancelledError") (py ""));
     get_capabilities := [];
     get_limitations := [] |}.

Definition two_agents : AgentRouter :=
  register_agent (py "coder") (mock_agent (py "coder"))
    (register_agent (py "analyst") (mock_agent (py "analyst")) AgentRouter_init).

Definition three_agents : AgentRouter :=
  register_agent (py "reviewer") failing_agent two_agents.

Definition with_cancelled_agent : AgentRouter :=
  register_agent (py "slow") cancelled_agent two_agents.

(** The conditions of [test_routing_strategies]:
    ["..." in str(message.content).lower()]. *)
Definition says (word : string) (message : Message.t) : Result bool :=
  Ok (is_substring (py word) (lower_basic (py_str (Message.content message)))).

(** A condition that raises. *)
Definition broken (_ : Message.t) : Result bool :=
  Raise (mkExc (py "KeyError") (py "'topic'")).

(** A condition during which the user presses Ctrl-C. *)
Definition interrupted (_ : Message.t) : Result bool :=
  Raise (mkBaseException (py "KeyboardInterrupt") (py "")).

Definition sequential_rule : RoutingRule.t :=
  {| RoutingRule.condition := says "последовательно";
     RoutingRule.target_agents := [py "analyst"; py "coder"];
     RoutingRule.strategy := SEQUENTIAL;
     RoutingRule.priority := 10;
     RoutingRule.description := py "Последовательная обработка" |}.

Definition parallel_rule : RoutingRule.t :=
  {| RoutingRule.condition := says "параллельно";
     RoutingRule.target_agents := [py "analyst"; py "coder"];
     RoutingRule.strategy := PARALLEL;
     RoutingRule.priority := 9;
     RoutingRule.description := py "Параллельная обработка" |}.

(** The broadcast rule of the test: its target list is empty. *)
Definition broadcast_rule : RoutingRule.t :=
  {| RoutingRule.condition := says "всем";
     RoutingRule.target_agents := [];
     RoutingRule.strategy := BROADCAST;
     RoutingRule.priority := 8;
     RoutingRule.description := py "Широковещательная рассылка" |}.

(** A broadcast rule that lists one registered agent. *)
Definition broadcast_rule_listing_analyst : RoutingRule.t :=
  {| RoutingRule.condition := says "всем";
     RoutingRule.target_agents := [py "analyst"];
     RoutingRule.strategy := BROADCAST;
     RoutingRule.priority := 8;
     RoutingRule.description := py "Широковещательная рассылка" |}.

Definition conditional_rule : RoutingRule.t :=
  {| RoutingRule.condition := says "если";
     RoutingRule.target_agents := [py "analyst"];
     RoutingRule.strategy := CONDITIONAL;
     RoutingRule.priority := 7;
     RoutingRule.description := py "Условная маршрутизация" |}.

(** The router of [test_routing_strategies], with two agents registered. *)
Definition test_router : AgentRouter :=
  add_routing_rules [sequential_rule; parallel_rule; broadcast_rule; conditional_rule]
    two_agents.

Definition world (self : AgentRouter) : World :=
  {| router := self; clock := fun k => 1000 * Z.of_nat k; ticks := 0;
     str_repr := repr_basic |}.

Definition task (id : string) (sender : string) (recipients : list pystr)
    (content : string) : Message.t :=
  {| Message.id := py id;
     Message.sender := py sender;
     Message.recipients := recipients;
     Message.message_type := TASK;
     Message.content := CStr (py content);
     Message.metadata := Dict.empty;
     Message.timestamp := 0;
     Message.priority := 0 |}.

End Sample.

(* ================================================================== *)
(** ** Further definitions used to state results *)
(* ================================================================== *)

Arguments create_agent {Cfg} construct isinstance_ImportError depth factory
  agent_type config.
Arguments initialize_agent {Cfg} construct isinstance_ImportError {ConfigDict}
  AgentConfig_init configured agent_id _.
Arguments initialize_agents {Cfg} construct isinstance_ImportError {ConfigDict}
  load_agents_config AgentConfig_init agent_ids.

(** The call of [process_message] on [m] raises nothing outside [Exception]:
    the router's own IndexError and ValueError are Exceptions, so this is
    about what the first recipient's [process] raises. *)
Definition handled (w : World) (m : Message.t) : bool :=
  match Message.recipients m with
  | [] => true
  | agent_id :: _ =>
      match Dict.get agent_id (agents (router w)) with
      | None => true
      | Some agent =>
          match process agent (Message.content m) with
          | Ok _ => true
          | Raise e => isinstance_Exception e
          end
      end
  end.

(** What [process_message] makes, in the world [w], of the message [m] for
    the registered agent [agent_id] when the agent's [process] has the
    outcome [outcome]: a RESULT with what the agent returned, an ERROR with
    the text of the [Exception] it raised, or, raised again, what it raised
    that is no [Exception]. *)
Definition agent_outcome (w : World) (m : Message.t) (agent_id : pystr)
    (outcome : Result Content) : Prop :=
  match outcome with
  | Ok result =>
      exists response w',
        process_message m w = (Ok response, w') /\
        Message.sender response = agent_id /\
        Dict.get (py "original_message_id") (Message.metadata response) =
          Some (MStr (Message.id m)) /\
        Message.message_type response = RESULT /\
        Message.content response = result
  | Raise e =>
      if isinstance_Exception e
      then exists response w',
             process_message m w = (Ok response, w') /\
             Message.sender response = agent_id /\
             Dict.get (py "original_message_id") (Message.metadata response) =
               Some (MStr (Message.id m)) /\
             Message.message_type response = ERROR /\
             Message.content response = CStr (py "Ошибка обработки: " ++ exc_str e)
      else process_message m w = (Raise e, advance 1 w)
  end.

(** The metadata keys each strategy writes over the caller's. *)
Definition written_keys (strategy : RoutingStrategy) : list pystr :=
  match strategy with
  | SEQUENTIAL => [py "step"; py "total_steps"; py "previous_results"]
  | PARALLEL => [py "parallel"; py "agent_id"]
  | BROADCAST => [py "broadcast"]
  | CONDITIONAL => []
  end.

(** The message with another recipient list. *)
Definition with_recipients (recipients : list pystr) (m : Message.t) : Message.t :=
  Message.mk (Message.id m) (Message.sender m) recipients (Message.message_type m)
    (Message.content m) (Message.metadata m) (Message.timestamp m)
    (Message.priority m).

(** The number of messages of one kind. *)
Definition count_kind (kind : MessageType) (l : list Message.t) : Z :=
  Z.of_nat (List.length (filter (fun m => Kind_eqb (Message.message_type m) kind) l)).

(** What [initialize_agents] does with one id: nothing when the id is not
    configured, otherwise the agent it registers or the exception it
    raises. *)
Definition agent_for {Cfg ConfigDict : Type}
    (construct : AgentClass -> Cfg -> Result BaseAgent)
    (isinstance_ImportError : Exc -> bool)
    (AgentConfig_init : ConfigDict -> Result Cfg)
    (configured : Dict.t ConfigDict) (agent_id : pystr) : option (Result BaseAgent) :=
  match Dict.get agent_id configured with
  | None => None
  | Some agent_config_dict =>
      Some (match AgentConfig_init agent_config_dict with
            | Raise e => Raise e
            | Ok agent_config =>
                create_agent construct isinstance_ImportError recursion_limit
                  AgentFactory agent_id agent_config
            end)
  end.

(** The ids whose agent is created. *)
Definition created_ok {Cfg ConfigDict : Type}
    (construct : AgentClass -> Cfg -> Result BaseAgent)
    (isinstance_ImportError : Exc -> bool)
    (AgentConfig_init : ConfigDict -> Result Cfg)
    (configured : Dict.t ConfigDict) (agent_id : pystr) : Prop :=
  match agent_for construct isinstance_ImportError AgentConfig_init configured agent_id with
  | Some (Raise _) => False
  | _ => True
  end.

(** The router after the agents of the ids that are configured and created
    were assigned, one after the other. *)
Definition register_all {Cfg ConfigDict : Type}
    (construct : AgentClass -> Cfg -> Result BaseAgent)
    (isinstance_ImportError : Exc -> bool)
    (AgentConfig_init : ConfigDict -> Result Cfg)
    (configured : Dict.t ConfigDict) (agent_ids : list pystr) (self : AgentRouter)
    : AgentRouter :=
  fold_left
    (fun self agent_id =>
       match agent_for construct isinstance_ImportError AgentConfig_init configured
               agent_id with
       | Some (Ok agent) => register_agent agent_id agent self
       | _ => self
       end)
    agent_ids self.

(** The world with another router. *)
Definition with_router (self : AgentRouter) (w : World) : World :=
  {| router := self; clock := clock w; ticks := ticks w; str_repr := str_repr w |}.

(** What [AgentFactory] makes of the outcome of the extended factory. *)
Definition import_error_as_unknown (isinstance_ImportError : Exc -> bool)
    (agent_type : pystr) (r : Result BaseAgent) : Result BaseAgent :=
  match r with
  | Ok agent => Ok agent
  | Raise e =>
      if isinstance_ImportError e
      then Raise (ValueError (py "Неизвестный тип агента: " ++ agent_type))
      else Raise e
  end.

Definition pystr_eq_dec : forall a b : pystr, {a = b} + {a <> b} :=
  list_eq_dec N.eq_dec.

Module Fixture.

(** A configuration in which an agent is its name and capability list; the
    name "broken" fails validation. *)
Definition config : Type := (pystr * list pystr)%type.

Definition validate (c : config) : Result config :=
  if pystr_eqb (fst c) (py "broken")
  then Raise (mkExc (py "ValidationError") (py "1 validation error for AgentConfig"))
  else Ok c.

Definition construct (cls : AgentClass) (c : config) : Result BaseAgent :=
  Ok {| process := fun _ => Ok (CStr (fst c));
        get_capabilities := snd c;
        get_limitations := [] |}.

Definition not_import_error (_ : Exc) : bool := false.

Definition configured : Dict.t config :=
  [ (py "analyst", (py "Data Analyst", [py "analysis"]));
    (py "helper", (py "Helper", []));
    (py "coder", (py "Code Developer", [py "python"])) ].

Definition message (id : string) (kind : MessageType) (content : string) : Message.t :=
  {| Message.id := py id;
     Message.sender := py "user";
     Message.recipients := [];
     Message.message_type := kind;
     Message.content := CStr (py content);
     Message.metadata := [(py "parallel", MBool true); (py "trace", MStr (py "t-1"))];
     Message.timestamp := 0;
     Message.priority := 3 |}.

(** A router with history. *)
Definition with_history (history : list Message.t) : AgentRouter :=
  {| agents := agents Sample.two_agents;
     routing_rules := [];
     message_history := history;
     stats := stats AgentRouter_init |}.

End Fixture.

(* ================================================================== *)
(** ** Strings and dictionaries *)
(* ================================================================== *)

Lemma pystr_eqb_eq (a b : pystr) : pystr_eqb a b = true <-> a = b.
Proof.
  revert b; induction a as [|x a IH]; intros [|y b]; simpl; split;
    try congruence; try reflexivity.
  - intros H. apply andb_true_iff in H as [Hxy Hab].
    apply N.eqb_eq in Hxy. apply IH in Hab. congruence.
  - intros H. injection H as -> ->.
    apply andb_true_iff; split; [apply N.eqb_refl | now apply IH].
Qed.

Lemma pystr_eqb_refl (a : pystr) : pystr_eqb a a = true.
Proof. now apply pystr_eqb_eq. Qed.

Lemma pystr_eqb_neq (a b : pystr) : pystr_eqb a b = false <-> a <> b.
Proof.
  split.
  - intros H E. apply pystr_eqb_eq in E. congruence.
  - intros H. destruct (pystr_eqb a b) eqn:E; [|reflexivity].
    apply pystr_eqb_eq in E. contradiction.
Qed.

Lemma Dict_get_set_eq {V : Type} (k : pystr) (v : V) (d : Dict.t V) :
  Dict.get k (Dict.set k v d) = Some v.
Proof.
  induction d as [|[k' v'] d IH]; simpl.
  - now rewrite pystr_eqb_refl.
  - destruct (pystr_eqb k k') eqn:E; simpl; rewrite E; [reflexivity | exact IH].
Qed.

Lemma Dict_get_set_ne {V : Type} (k k' : pystr) (v : V) (d : Dict.t V) :
  pystr_eqb k k' = false ->
  Dict.get k (Dict.set k' v d) = Dict.get k d.
Proof.
  intros Hne. induction d as [|[k0 v0] d IH]; simpl.
  - now rewrite Hne.
  - destruct (pystr_eqb k' k0) eqn:E; simpl.
    + apply pystr_eqb_eq in E; subst k0. now rewrite Hne.
    + now rewrite IH.
Qed.

(** Assigning to a key that is absent puts it last; the other keys keep
    their places. *)
Lemma Dict_keys_set_new {V : Type} (k : pystr) (v : V) (d : Dict.t V) :
  Dict.get k d = None ->
  Dict.keys (Dict.set k v d) = Dict.keys d ++ [k].
Proof.
  induction d as [|[k' v'] d IH]; simpl; [reflexivity|].
  destruct (pystr_eqb k k'); [discriminate|].
  intros H. simpl. f_equal. now apply IH.
Qed.

(** Assigning to a key that is present leaves the key order as it is. *)
Lemma Dict_keys_set_old {V : Type} (k : pystr) (v : V) (d : Dict.t V) :
  Dict.mem k d = true ->
  Dict.keys (Dict.set k v d) = Dict.keys d.
Proof.
  unfold Dict.mem.
  induction d as [|[k' v'] d IH]; simpl; [discriminate|].
  destruct (pystr_eqb k k'); [reflexivity|].
  intros H. simpl. f_equal. now apply IH.
Qed.

(* ================================================================== *)
(** ** Construction of messages *)
(* ================================================================== *)

Lemma MessageType_of_value_spec (repr : pystr -> pystr) (raw : pystr) :
  match MessageType_of_value repr raw with
  | Ok t => MessageType_value t = raw
  | Raise e =>
      (forall t, MessageType_value t <> raw) /\
      e = ValueError (repr raw ++ py " is not a valid MessageType")
  end.
Proof.
  unfold MessageType_of_value.
  destruct (find _ MessageType_members) as [t|] eqn:F.
  - apply find_some in F as [_ F]. now apply pystr_eqb_eq.
  - split; [|reflexivity].
    intros t E.
    assert (In t MessageType_members) as Hin by (destruct t; simpl; tauto).
    pose proof (find_none _ _ F t Hin) as Hn. simpl in Hn.
    apply pystr_eqb_neq in Hn. contradiction.
Qed.

Lemma MessageType_members_all (t : MessageType) : In t MessageType_members.
Proof. destruct t; simpl; tauto. Qed.

(** A message built from a value that is not a string is built, with that
    value as its kind. *)
Lemma Message_init_member id sender recipients (kind : Kind) content metadata
    priority (w : World) :
  Message_init id sender recipients (inl kind) content metadata priority w =
  (Ok (Message.mk id sender recipients kind content metadata (clock w (ticks w)) priority),
   advance 1 w).
Proof. reflexivity. Qed.

(** A message built from a raw string goes through [MessageType(value)]. *)
Lemma Message_init_raw id sender recipients (raw : pystr) content metadata
    priority (w : World) :
  fst (Message_init id sender recipients (inr raw) content metadata priority w) =
  match MessageType_of_value (str_repr w) raw with
  | Ok t =>
      Ok (Message.mk id sender recipients (Member t) content metadata
            (clock w (ticks w)) priority)
  | Raise e => Raise e
  end.
Proof.
  unfold Message_init, bind, now, post_init, ret. cbn [str_repr].
  destruct (MessageType_of_value (str_repr w) raw); reflexivity.
Qed.

(** C9, as the code has it.  A message constructed from a member of the
    enumeration has that member as its kind.  A message constructed from a
    string has the member whose value is that string, and for a string that
    is the value of no member the construction raises [ValueError] and
    yields no message.  A value that is neither a string nor a member is
    stored as it is given.  So a constructed message has a kind that is a
    member of the enumeration unless the value given for it was such an
    object. *)
Theorem Message_init_message_type
    id sender recipients content metadata priority (w : World) :
  (forall t : MessageType,
     exists m,
       fst (Message_init id sender recipients (inl (Member t)) content metadata priority w)
         = Ok m /\
       Message.message_type m = Member t) /\
  (forall raw : pystr,
     match fst (Message_init id sender recipients (inr raw) content metadata priority w) with
     | Ok m =>
         exists t, Message.message_type m = Member t /\ MessageType_value t = raw
     | Raise e =>
         ~ In raw (map MessageType_value MessageType_members) /\
         e = ValueError (str_repr w raw ++ py " is not a valid MessageType")
     end) /\
  (forall rendering : pystr,
     exists m,
       fst (Message_init id sender recipients (inl (NotAMember rendering)) content
              metadata priority w) = Ok m /\
       Message.message_type m = NotAMember rendering) /\
  (forall (given : Kind + pystr) (m : Message.t),
     fst (Message_init id sender recipients given content metadata priority w) = Ok m ->
     (exists t, Message.message_type m = Member t /\ In t MessageType_members) \/
     (exists rendering, given = inl (NotAMember rendering))).
Proof.
  split; [|split; [|split]].
  - intros t. rewrite Message_init_member. simpl. eauto.
  - intros raw. rewrite Message_init_raw.
    pose proof (MessageType_of_value_spec (str_repr w) raw) as S.
    destruct (MessageType_of_value (str_repr w) raw) as [t|e];
      cbn [Message.message_type].
    + exists t. auto.
    + destruct S as [S ->]. split; [|reflexivity].
      intros Hin. apply in_map_iff in Hin as [t [Ht _]]. now apply (S t).
  - intros rendering. rewrite Message_init_member. simpl. eauto.
  - intros [[t|rendering]|raw] m.
    + rewrite Message_init_member. simpl. intros E. injection E as <-.
      left. exists t. split; [reflexivity | apply MessageType_members_all].
    + eauto.
    + rewrite Message_init_raw.
      destruct (MessageType_of_value (str_repr w) raw) as [t|e]; [|discriminate].
      intros E. injection E as <-.
      left. exists t. split; [reflexivity | apply MessageType_members_all].
Qed.

(** The raw strings "task" and "TASK" in the sample world: the first is the
    value of TASK, the second is the value of no member. *)
Lemma Message_init_message_type_witness :
  let w := Sample.world AgentRouter_init in
  (exists m, fst (Message_init (py "m1") (py "system") [] (inr (py "task"))
                    (CStr (py "x")) Dict.empty 0 w) = Ok m /\
             Message.message_type m = TASK) /\
  fst (Message_init (py "m1") (py "system") [] (inr (py "TASK"))
         (CStr (py "x")) Dict.empty 0 w) =
  Raise (ValueError (py "'TASK' is not a valid MessageType")).
Proof.
  intros w.
  destruct (Message_init_message_type (py "m1") (py "system") [] (CStr (py "x"))
              Dict.empty 0 w) as (_ & Hraw & _ & Hany).
  split.
  - pose proof (Hraw (py "task")) as H.
    destruct (fst (Message_init (py "m1") (py "system") [] (inr (py "task"))
                     (CStr (py "x")) Dict.empty 0 w)) as [m|e] eqn:E.
    + destruct (Hany (inr (py "task")) m E) as [_ | [rendering Hr]]; [|discriminate].
      destruct H as (t & Ht & Hv). exists m. split; [reflexivity|].
      rewrite Ht. destruct t; vm_compute in Hv; try discriminate. reflexivity.
    + vm_compute in E. discriminate.
  - pose proof (Hraw (py "TASK")) as H.
    destruct (fst (Message_init (py "m1") (py "system") [] (inr (py "TASK"))
                     (CStr (py "x")) Dict.empty 0 w)) as [m|e] eqn:E.
    + vm_compute in E. discriminate.
    + destruct H as [_ ->]. vm_compute. reflexivity.
Defined.

(** [Message(..., message_type=42, ...)] is constructed, and its kind is
    no member of the enumeration. *)
Lemma Message_message_type_not_closed :
  exists m,
    fst (Message_init (py "m1") (py "system") [] (inl (NotAMember (py "42")))
           (CStr (py "x")) Dict.empty 0 (Sample.world AgentRouter_init)) = Ok m /\
    forall t : MessageType, Message.message_type m <> Member t.
Proof.
  eexists. split; [reflexivity|]. intros t. discriminate.
Qed.

(** The raw strings "task" and "TASK": lookup is by value. *)
Example Message_init_raw_task :
  exists m, fst (Message_init (py "m1") (py "system") [] (inr (py "task"))
                   (CStr (py "x")) Dict.empty 0 (Sample.world AgentRouter_init)) = Ok m
            /\ Message.message_type m = TASK.
Proof. eexists. split; reflexivity. Qed.

Example Message_init_raw_upper :
  fst (Message_init (py "m1") (py "system") [] (inr (py "TASK"))
         (CStr (py "x")) Dict.empty 0 (Sample.world AgentRouter_init))
  = Raise (ValueError (py "'TASK' is not a valid MessageType")).
Proof. vm_compute. reflexivity. Qed.

(** A raw string with a single quote is shown between double quotes, and a
    newline as an escape. *)
Example Message_init_raw_quote :
  fst (Message_init (py "m1") (py "system") [] (inr (py "it's" ++ [10%N]))
         (CStr (py "x")) Dict.empty 0 (Sample.world AgentRouter_init))
  = Raise (ValueError ([34%N] ++ py "it's\n" ++ [34%N]
                       ++ py " is not a valid MessageType")).
Proof. vm_compute. reflexivity. Qed.

(* ================================================================== *)
(** ** The rule list is sorted, stably *)
(* ================================================================== *)

Lemma insert_by_priority_In (rule r : RoutingRule.t) (l : list RoutingRule.t) :
  In r (insert_by_priority rule l) -> r = rule \/ In r l.
Proof.
  induction l as [|h l IH]; simpl.
  - intros [<-|[]]. now left.
  - destruct (RoutingRule.priority h <=? RoutingRule.priority rule); simpl.
    + intros [<-|[<-|H]]; auto.
    + intros [<-|H]; auto. destruct (IH H); auto.
Qed.

Lemma insert_by_priority_sorted (rule : RoutingRule.t) (l : list RoutingRule.t) :
  priority_sorted l -> priority_sorted (insert_by_priority rule l).
Proof.
  unfold priority_sorted.
  induction 1 as [|h l Hs IH Hh]; simpl.
  - constructor; constructor.
  - destruct (RoutingRule.priority h <=? RoutingRule.priority rule) eqn:E.
    + apply Z.leb_le in E.
      constructor; [constructor; assumption|].
      constructor; [assumption|].
      rewrite Forall_forall in Hh |- *. intros x Hx. specialize (Hh x Hx). lia.
    + apply Z.leb_gt in E.
      constructor; [assumption|].
      rewrite Forall_forall in Hh |- *. intros x Hx.
      destruct (insert_by_priority_In _ _ _ Hx) as [->|Hx']; [lia | auto].
Qed.

Lemma sort_by_priority_reverse_sorted (l : list RoutingRule.t) :
  priority_sorted (sort_by_priority_reverse l).
Proof.
  induction l as [|r l IH]; simpl.
  - constructor.
  - now apply insert_by_priority_sorted.
Qed.

Lemma insert_by_priority_Permutation (rule : RoutingRule.t) (l : list RoutingRule.t) :
  Permutation (insert_by_priority rule l) (rule :: l).
Proof.
  induction l as [|h l IH]; simpl; [reflexivity|].
  destruct (RoutingRule.priority h <=? RoutingRule.priority rule); [reflexivity|].
  rewrite IH. apply perm_swap.
Qed.

Lemma sort_by_priority_reverse_Permutation (l : list RoutingRule.t) :
  Permutation (sort_by_priority_reverse l) l.
Proof.
  induction l as [|r l IH]; simpl; [reflexivity|].
  rewrite insert_by_priority_Permutation. now constructor.
Qed.

(** The inserted rule passes only rules of strictly larger priority, so it
    stays ahead of the rules of its own priority that were behind it. *)
Lemma with_priority_insert (p : Z) (rule : RoutingRule.t) (l : list RoutingRule.t) :
  with_priority p (insert_by_priority rule l) = with_priority p (rule :: l).
Proof.
  unfold with_priority.
  induction l as [|h l IH]; simpl; [reflexivity|].
  destruct (RoutingRule.priority h <=? RoutingRule.priority rule) eqn:E;
    [reflexivity|].
  apply Z.leb_gt in E. simpl. rewrite IH. simpl.
  destruct (RoutingRule.priority rule =? p) eqn:E1;
    destruct (RoutingRule.priority h =? p) eqn:E2; try reflexivity.
  apply Z.eqb_eq in E1, E2. lia.
Qed.

Lemma with_priority_sort (p : Z) (l : list RoutingRule.t) :
  with_priority p (sort_by_priority_reverse l) = with_priority p l.
Proof.
  induction l as [|r l IH]; simpl; [reflexivity|].
  rewrite with_priority_insert. unfold with_priority in *. simpl.
  now rewrite IH.
Qed.

(** A sorted list is its own sort: re-sorting on each insertion changes
    nothing but the place of the new rule. *)
Lemma sort_by_priority_reverse_id (l : list RoutingRule.t) :
  priority_sorted l -> sort_by_priority_reverse l = l.
Proof.
  unfold priority_sorted.
  induction 1 as [|h l Hs IH Hh]; simpl; [reflexivity|].
  rewrite IH. destruct l as [|h' l]; simpl; [reflexivity|].
  apply Forall_inv in Hh.
  destruct (RoutingRule.priority h' <=? RoutingRule.priority h) eqn:E;
    [reflexivity|].
  apply Z.leb_gt in E. lia.
Qed.

Lemma with_priority_app (p : Z) (a b : list RoutingRule.t) :
  with_priority p (a ++ b) = with_priority p a ++ with_priority p b.
Proof. apply filter_app. Qed.

Lemma add_routing_rules_sorted (rules : list RoutingRule.t) (self : AgentRouter) :
  priority_sorted (routing_rules self) ->
  priority_sorted (routing_rules (add_routing_rules rules self)).
Proof.
  revert self. induction rules as [|r rules IH]; intros self Hs; simpl.
  - exact Hs.
  - apply IH. simpl. apply sort_by_priority_reverse_sorted.
Qed.

Lemma add_routing_rules_with_priority (p : Z) (rules : list RoutingRule.t)
    (self : AgentRouter) :
  with_priority p (routing_rules (add_routing_rules rules self)) =
  with_priority p (routing_rules self ++ rules).
Proof.
  revert self. induction rules as [|r rules IH]; intros self; simpl.
  - now rewrite app_nil_r.
  - rewrite IH. simpl routing_rules.
    change (r :: rules) with ([r] ++ rules).
    rewrite with_priority_app, with_priority_sort, !with_priority_app.
    now rewrite <- app_assoc.
Qed.

Lemma add_routing_rules_Permutation (rules : list RoutingRule.t) (self : AgentRouter) :
  Permutation (routing_rules (add_routing_rules rules self)) (routing_rules self ++ rules).
Proof.
  revert self. induction rules as [|r rules IH]; intros self; simpl.
  - now rewrite app_nil_r.
  - rewrite IH. simpl. rewrite sort_by_priority_reverse_Permutation.
    now rewrite <- app_assoc.
Qed.

Lemma add_routing_rules_other_fields (rules : list RoutingRule.t) (self : AgentRouter) :
  agents (add_routing_rules rules self) = agents self /\
  message_history (add_routing_rules rules self) = message_history self /\
  stats (add_routing_rules rules self) = stats self.
Proof.
  revert self. induction rules as [|r rules IH]; intros self; simpl; [auto|].
  destruct (IH (add_routing_rule r self)) as (-> & -> & ->). auto.
Qed.

(* ================================================================== *)
(** ** Loops that append one message per element *)
(* ================================================================== *)

Lemma advance_advance (n m : nat) (w : World) :
  advance n (advance m w) = advance (n + m) w.
Proof. unfold advance. simpl. f_equal. lia. Qed.

Lemma advance_0 (w : World) : advance 0 w = w.
Proof. now destruct w. Qed.

Lemma for_each_append {A : Type}
    (mk : A -> list Message.t -> datetime -> Message.t)
    (body : A -> list Message.t -> M (list Message.t)) :
  (forall x acc w,
      body x acc w = (Ok (acc ++ [mk x acc (clock w (ticks w))]), advance 1 w)) ->
  forall xs acc w,
    for_each xs body acc w =
    (Ok (append_each mk xs acc (clock w) (ticks w)), advance (List.length xs) w).
Proof.
  intros Hbody. induction xs as [|x xs IH]; intros acc w; simpl.
  - unfold ret. now rewrite advance_0.
  - unfold bind. rewrite Hbody, IH, advance_advance.
    simpl. repeat f_equal. lia.
Qed.

Lemma append_each_app {A : Type} (mk : A -> list Message.t -> datetime -> Message.t)
    (xs : list A) (acc : list Message.t) (clk : nat -> datetime) (k : nat) :
  exists built,
    append_each mk xs acc clk k = acc ++ built /\ List.length built = List.length xs.
Proof.
  revert acc k. induction xs as [|x xs IH]; intros acc k; simpl.
  - exists []. now rewrite app_nil_r.
  - destruct (IH (acc ++ [mk x acc (clk k)]) (S k)) as (built & -> & Hlen).
    exists (mk x acc (clk k) :: built). rewrite <- app_assoc. simpl. auto.
Qed.

Lemma append_each_length {A : Type} (mk : A -> list Message.t -> datetime -> Message.t)
    (xs : list A) (acc : list Message.t) (clk : nat -> datetime) (k : nat) :
  List.length (append_each mk xs acc clk k) = (List.length acc + List.length xs)%nat.
Proof.
  destruct (append_each_app mk xs acc clk k) as (built & -> & Hlen).
  rewrite length_app. lia.
Qed.

(** The [j]-th message appended is built from the [j]-th element, the
    messages before it and the [j]-th reading of the clock. *)
Lemma append_each_nth {A : Type} (mk : A -> list Message.t -> datetime -> Message.t)
    (xs : list A) (acc : list Message.t) (clk : nat -> datetime) (k j : nat) (x : A) :
  nth_error xs j = Some x ->
  nth_error (append_each mk xs acc clk k) (List.length acc + j) =
  Some (mk x (firstn (List.length acc + j) (append_each mk xs acc clk k)) (clk (k + j)%nat)).
Proof.
  revert acc k j. induction xs as [|x0 xs IH]; intros acc k j Hj.
  - destruct j; discriminate.
  - simpl. destruct j as [|j]; simpl in Hj.
    + injection Hj as ->.
      destruct (append_each_app mk xs (acc ++ [mk x acc (clk k)]) clk (S k))
        as (built & -> & _).
      rewrite !Nat.add_0_r, <- app_assoc.
      rewrite nth_error_app2 by lia. rewrite Nat.sub_diag. simpl.
      rewrite firstn_app, Nat.sub_diag, firstn_all. simpl.
      now rewrite app_nil_r.
    + specialize (IH (acc ++ [mk x0 acc (clk k)]) (S k) j Hj).
      rewrite length_app in IH. simpl in IH.
      replace (List.length acc + S j)%nat with (List.length acc + 1 + j)%nat by lia.
      replace (k + S j)%nat with (S (k + j)) by lia.
      exact IH.
Qed.

(** A field that depends on the element only is mapped over the elements. *)
Lemma append_each_map {A B : Type} (mk : A -> list Message.t -> datetime -> Message.t)
    (f : Message.t -> B) (g : A -> B) :
  (forall x acc ts, f (mk x acc ts) = g x) ->
  forall xs acc clk k,
    map f (append_each mk xs acc clk k) = map f acc ++ map g xs.
Proof.
  intros Hfg. induction xs as [|x xs IH]; intros acc clk k; simpl.
  - now rewrite app_nil_r.
  - rewrite IH, map_app. simpl. rewrite Hfg, <- app_assoc. reflexivity.
Qed.

(** A property of every message built holds of the whole list. *)
Lemma append_each_Forall {A : Type} (mk : A -> list Message.t -> datetime -> Message.t)
    (P : Message.t -> Prop) :
  (forall x acc ts, P (mk x acc ts)) ->
  forall xs acc clk k,
    Forall P acc -> Forall P (append_each mk xs acc clk k).
Proof.
  intros HP. induction xs as [|x xs IH]; intros acc clk k Hacc; simpl.
  - exact Hacc.
  - apply IH. apply Forall_app. split; [exact Hacc|]. constructor; [apply HP|constructor].
Qed.

Lemma enumerate_from_map_snd {A B : Type} (f : A -> B) (z : Z) (xs : list A) :
  map (fun step => f (snd step)) (enumerate_from z xs) = map f xs.
Proof.
  revert z. induction xs as [|x xs IH]; intros z; simpl; [reflexivity|].
  now rewrite IH.
Qed.

Lemma enumerate_from_length {A : Type} (i : Z) (xs : list A) :
  List.length (enumerate_from i xs) = List.length xs.
Proof. revert i. induction xs; intros i; simpl; auto. Qed.

Lemma enumerate_from_nth {A : Type} (i : Z) (xs : list A) (j : nat) (x : A) :
  nth_error xs j = Some x ->
  nth_error (enumerate_from i xs) j = Some (i + Z.of_nat j, x).
Proof.
  revert i j. induction xs as [|x0 xs IH]; intros i j Hj.
  - destruct j; discriminate.
  - destruct j as [|j]; cbn [enumerate_from nth_error] in *.
    + injection Hj as ->. now rewrite Z.add_0_r.
    + rewrite (IH _ _ Hj).
      replace (i + 1 + Z.of_nat j) with (i + Z.of_nat (S j)) by lia.
      reflexivity.
Qed.

(* ================================================================== *)
(** ** The four ways through route_message *)
(* ================================================================== *)

(** A rule's condition raised an [Exception]: the handler counts an
    error. *)
Lemma route_message_raised (message : Message.t) (w : World) (e : Exc) :
  matching_rules (routing_rules (router w)) message = Raise e ->
  isinstance_Exception e = true ->
  route_message message w = (Ok [], with_stats (add_error (stats (router w))) w).
Proof.
  intros H He. unfold route_message, try_except, route_message_try, bind, gets, lift.
  rewrite H, He. reflexivity.
Qed.

(** A rule's condition raised something else: it passes the handler. *)
Lemma route_message_propagates (message : Message.t) (w : World) (e : Exc) :
  matching_rules (routing_rules (router w)) message = Raise e ->
  isinstance_Exception e = false ->
  route_message message w = (Raise e, w).
Proof.
  intros H He. unfold route_message, try_except, route_message_try, bind, gets, lift.
  rewrite H, He. reflexivity.
Qed.

(** No rule matches. *)
Lemma route_message_no_match (message : Message.t) (w : World) :
  matching_rules (routing_rules (router w)) message = Ok [] ->
  route_message message w = (Ok [], w).
Proof.
  intros H. unfold route_message, try_except, route_message_try, bind, gets, lift.
  rewrite H. reflexivity.
Qed.

(** The first matching rule has no registered target. *)
Lemma route_message_no_agent (message : Message.t) (w : World)
    (rule : RoutingRule.t) (rest : list RoutingRule.t) :
  matching_rules (routing_rules (router w)) message = Ok (rule :: rest) ->
  available_agents rule (router w) = [] ->
  route_message message w = (Ok [], w).
Proof.
  intros H Ha. unfold route_message, try_except, route_message_try, bind, gets, lift.
  rewrite H. simpl. rewrite Ha. reflexivity.
Qed.

(** The first matching rule has a registered target: it is expanded. *)
Lemma route_message_fires (message : Message.t) (w : World)
    (rule : RoutingRule.t) (rest : list RoutingRule.t) :
  matching_rules (routing_rules (router w)) message = Ok (rule :: rest) ->
  available_agents rule (router w) <> [] ->
  route_message message w =
  (Ok (expansion rule message w),
   with_stats
     (add_messages_routed (Z.of_nat (List.length (expansion rule message w)))
        (stats (router w)))
     (advance (List.length (expansion rule message w)) w)).
Proof.
  intros H Ha. unfold route_message, try_except, route_message_try.
  unfold bind at 1. unfold gets at 1. unfold bind at 1. unfold lift at 1.
  rewrite H. unfold bind at 1. unfold gets at 1. cbv beta iota zeta.
  unfold expansion.
  destruct (available_agents rule (router w)) as [|a0 avail] eqn:Eav;
    [contradiction|].
  destruct (RoutingRule.strategy rule).
  - unfold bind at 1.
    rewrite (for_each_append (sequential_message message (List.length (a0 :: avail))))
      by (intros [i agent_id] acc w0; reflexivity).
    rewrite enumerate_from_length || (unfold enumerate; rewrite enumerate_from_length).
    rewrite append_each_length, enumerate_from_length. reflexivity.
  - unfold bind at 1.
    rewrite (for_each_append (parallel_message message))
      by (intros agent_id acc w0; reflexivity).
    rewrite append_each_length. reflexivity.
  - rewrite advance_0. destruct w as [[ag rl hist [mp mr er av]] clk t].
    unfold bind, ret, set_stats, with_stats, add_messages_routed. simpl.
    rewrite Z.add_0_r. reflexivity.
  - unfold bind at 1.
    rewrite (for_each_append (broadcast_message message))
      by (intros agent_id acc w0; reflexivity).
    rewrite append_each_length. reflexivity.
Qed.

(* ================================================================== *)
(** ** The two ways through process_message *)
(* ================================================================== *)

Lemma process_message_succeeds (message : Message.t) (w : World)
    (agent_id : pystr) (agent : BaseAgent) (result : Content) :
  process_success w message agent_id agent result ->
  process_message message w =
  (Ok (result_response message agent_id agent result
         (clock w (ticks w)) (clock w (1 + ticks w)%nat) (clock w (2 + ticks w)%nat)),
   with_stats
     (record_processed
        (total_seconds (clock w (3 + ticks w)%nat - clock w (ticks w)))
        (stats (router w)))
     (advance 4 w)).
Proof.
  intros ([rest Hr] & Hg & Hp).
  unfold process_message, try_except, process_message_try, bind, now, lift, gets.
  cbn [router ticks clock]. rewrite Hr, Hg, Hp. reflexivity.
Qed.

Lemma process_message_fails (message : Message.t) (w : World) (e : Exc) :
  process_failure w message e ->
  isinstance_Exception e = true ->
  process_message message w =
  (Ok (error_response message e
         (clock w (ticks w)) (clock w (1 + ticks w)%nat) (clock w (2 + ticks w)%nat)),
   with_stats (add_error (stats (router w))) (advance 3 w)).
Proof.
  intros [Hr | agent_id rest Hr Hg | agent_id rest agent e' Hr Hg Hp] He;
    unfold process_message, try_except, process_message_try, bind, now, lift, gets,
      raise;
    cbn [router ticks clock]; rewrite Hr; try rewrite Hg; try rewrite Hp;
    try rewrite He; reflexivity.
Qed.

(** What is raised in the [try] and is no [Exception] passes the handler:
    the call raises it, after the one reading of the clock. *)
Lemma process_message_propagates (message : Message.t) (w : World) (e : Exc) :
  process_failure w message e ->
  isinstance_Exception e = false ->
  process_message message w = (Raise e, advance 1 w).
Proof.
  intros [Hr | agent_id rest Hr Hg | agent_id rest agent e' Hr Hg Hp] He;
    try discriminate;
    unfold process_message, try_except, process_message_try, bind, now, lift, gets,
      raise;
    cbn [router ticks clock]; rewrite Hr, Hg, Hp, He; reflexivity.
Qed.

(** The exceptions the router raises itself are caught. *)
Lemma process_failure_lookup (message : Message.t) (w : World) (e : Exc) :
  process_failure w message e ->
  isinstance_Exception e = false ->
  exists agent_id rest agent,
    Message.recipients message = agent_id :: rest /\
    Dict.get agent_id (agents (router w)) = Some agent /\
    process agent (Message.content message) = Raise e.
Proof.
  intros [Hr | agent_id rest Hr Hg | agent_id rest agent e' Hr Hg Hp] He;
    try discriminate.
  eauto 6.
Qed.

(** Every call takes one of the two ways. *)
Lemma process_message_cases (message : Message.t) (w : World) :
  (exists agent_id agent result, process_success w message agent_id agent result) \/
  (exists e, process_failure w message e).
Proof.
  destruct (Message.recipients message) as [|agent_id rest] eqn:Hr.
  - right. eexists. now apply no_recipient.
  - destruct (Dict.get agent_id (agents (router w))) as [agent|] eqn:Hg.
    + destruct (process agent (Message.content message)) as [result|e] eqn:Hp.
      * left. exists agent_id, agent, result. repeat split; eauto.
      * right. exists e. eapply agent_raised; eauto.
    + right. eexists. eapply agent_not_registered; eauto.
Qed.

(** The two ways exclude each other. *)
Lemma process_success_not_failure (message : Message.t) (w : World)
    agent_id agent result e :
  process_success w message agent_id agent result ->
  process_failure w message e -> False.
Proof.
  intros ([rest Hr] & Hg & Hp) [Hr' | a r Hr' Hg' | a r ag e' Hr' Hg' Hp'];
    rewrite Hr in Hr'; try discriminate;
    injection Hr' as <- <-; rewrite Hg in Hg'; try discriminate.
  injection Hg' as <-. rewrite Hp in Hp'. discriminate.
Qed.

(* ================================================================== *)
(** ** Broadcast *)
(* ================================================================== *)

(** What a broadcast rule yields once it gets past the check of its own
    target list: one message per key of [self.agents], in key order. *)
Lemma route_message_broadcast_past_guard (message : Message.t) (w : World)
    (rule : RoutingRule.t) (rest : list RoutingRule.t) :
  matching_rules (routing_rules (router w)) message = Ok (rule :: rest) ->
  RoutingRule.strategy rule = BROADCAST ->
  available_agents rule (router w) <> [] ->
  exists routed w',
    route_message message w = (Ok routed, w') /\
    map Message.recipients routed =
      map (fun agent_id => [agent_id]) (Dict.keys (agents (router w))) /\
    map Message.id routed =
      map (fun agent_id => Message.id message ++ py "_broadcast_" ++ agent_id)
        (Dict.keys (agents (router w))) /\
    Forall (fun m => Dict.get (py "broadcast") (Message.metadata m) = Some (MBool true))
      routed.
Proof.
  intros Hm Hs Ha. rewrite (route_message_fires _ _ _ _ Hm Ha).
  eexists _, _. split; [reflexivity|].
  unfold expansion. rewrite Hs.
  split; [|split].
  - now rewrite (append_each_map (broadcast_message message) Message.recipients
                   (fun agent_id => [agent_id])).
  - now rewrite (append_each_map (broadcast_message message) Message.id
                   (fun agent_id => Message.id message ++ py "_broadcast_" ++ agent_id)).
  - apply append_each_Forall; [|constructor].
    intros x acc ts. apply Dict_get_set_eq.
Qed.

(** C1. The router of the strategy test, with the agents "analyst" and
    "coder" registered, routes a message that only the broadcast rule
    matches.  The rule's target list is empty, as the test writes it, so the
    check of the rule's targets against the registered agents returns before
    the broadcast loop: no message is derived, although two agents are
    registered. *)
Theorem route_message_broadcast_empty_targets :
  let w := Sample.world Sample.test_router in
  let message := Sample.task "m1" "user" [] "Отправить всем" in
  Dict.keys (agents (router w)) = [py "analyst"; py "coder"] /\
  matching_rules (routing_rules (router w)) message = Ok [Sample.broadcast_rule] /\
  route_message message w = (Ok [], w).
Proof. vm_compute. repeat split. Qed.

(** The same message and agents, the rule listing one registered agent:
    both agents get a message. *)
Example route_message_broadcast_one_listed :
  let w := Sample.world
             (add_routing_rule Sample.broadcast_rule_listing_analyst Sample.two_agents) in
  let message := Sample.task "m1" "user" [] "Отправить всем" in
  map Message.recipients (match fst (route_message message w) with
                          | Ok routed => routed
                          | Raise _ => []
                          end)
  = [[py "analyst"]; [py "coder"]].
Proof. vm_compute. reflexivity. Qed.

(* ================================================================== *)
(** ** Sequential expansion *)
(* ================================================================== *)

Lemma firstn_append_each_contents {A : Type}
    (mk : A -> list Message.t -> datetime -> Message.t) (message : Message.t) :
  (forall x acc ts, Message.content (mk x acc ts) = Message.content message) ->
  forall xs clk k i,
    (i <= List.length xs)%nat ->
    map Message.content (firstn i (append_each mk xs [] clk k)) =
    repeat (Message.content message) i.
Proof.
  intros Hc xs clk k i Hi.
  rewrite <- firstn_map.
  rewrite (append_each_map mk Message.content (fun _ => Message.content message) Hc).
  simpl. revert i Hi. induction xs as [|x xs IH]; intros [|i] Hi; simpl in *;
    try reflexivity; try lia.
  f_equal. apply IH. lia.
Qed.

(** C2. When the first matching rule is sequential and [N] of its targets
    are registered, [route_message] returns [N] messages, and the message
    at position [i] (counted from 0, so the [i+1]-th) goes to the [i]-th
    registered target, has the id [{original_id}_to_{agent_id}], [step]
    equal to [i+1], [total_steps] equal to [N], and [previous_results] equal
    to the contents of the [i] messages before it in the returned list,
    each of which is the content of the original message. *)
Theorem route_message_sequential (message : Message.t) (w : World)
    (rule : RoutingRule.t) (rest : list RoutingRule.t) :
  matching_rules (routing_rules (router w)) message = Ok (rule :: rest) ->
  RoutingRule.strategy rule = SEQUENTIAL ->
  exists routed w',
    route_message message w = (Ok routed, w') /\
    List.length routed = List.length (available_agents rule (router w)) /\
    forall (i : nat) (agent_id : pystr),
      nth_error (available_agents rule (router w)) i = Some agent_id ->
      exists m,
        nth_error routed i = Some m /\
        Message.id m = Message.id message ++ py "_to_" ++ agent_id /\
        Message.recipients m = [agent_id] /\
        Dict.get (py "step") (Message.metadata m) = Some (MInt (Z.of_nat i + 1)) /\
        Dict.get (py "total_steps") (Message.metadata m) =
          Some (MInt (Z.of_nat (List.length (available_agents rule (router w))))) /\
        Dict.get (py "previous_results") (Message.metadata m) =
          Some (MContents (map Message.content (firstn i routed))) /\
        List.length (firstn i routed) = i /\
        map Message.content (firstn i routed) = repeat (Message.content message) i.
Proof.
  intros Hm Hs.
  destruct (available_agents rule (router w)) as [|a0 avail] eqn:Eav.
  - rewrite (route_message_no_agent _ _ _ _ Hm Eav).
    exists [], w. repeat split. intros [|i] agent_id H; discriminate.
  - assert (available_agents rule (router w) <> []) as Hne by (rewrite Eav; discriminate).
    rewrite (route_message_fires _ _ _ _ Hm Hne).
    eexists _, _. split; [reflexivity|].
    unfold expansion. rewrite Hs, Eav.
    set (N := List.length (a0 :: avail)).
    set (routed := append_each _ _ _ _ _).
    assert (List.length routed = N) as Hlen
      by (unfold routed, enumerate;
          now rewrite append_each_length, enumerate_from_length).
    split; [exact Hlen|].
    intros i agent_id Hi.
    assert (i < N)%nat as HiN by (apply nth_error_Some; congruence).
    pose proof (enumerate_from_nth 0 _ _ _ Hi) as He.
    pose proof (append_each_nth (sequential_message message N) _ [] (clock w)
                  (ticks w) _ _ He) as Hn.
    simpl in Hn. fold (enumerate (a0 :: avail)) in Hn. fold routed in Hn.
    eexists. split; [exact Hn|].
    cbn [sequential_message Message.id Message.recipients Message.metadata fst snd].
    repeat split.
    + rewrite !Dict_get_set_ne by (vm_compute; reflexivity).
      now rewrite Dict_get_set_eq.
    + rewrite Dict_get_set_ne by (vm_compute; reflexivity).
      now rewrite Dict_get_set_eq.
    + now rewrite Dict_get_set_eq.
    + rewrite length_firstn. lia.
    + unfold routed. apply firstn_append_each_contents; [reflexivity|].
      unfold enumerate. rewrite enumerate_from_length. fold N. lia.
Qed.

(** The catch-all chain of the default rules shape, on a router where two
    of three targets are registered. *)
Lemma route_message_sequential_witness :
  let rule := {| RoutingRule.condition := Sample.says "последовательно";
                 RoutingRule.target_agents := [py "analyst"; py "tester"; py "coder"];
                 RoutingRule.strategy := SEQUENTIAL;
                 RoutingRule.priority := 10;
                 RoutingRule.description := py "chain" |} in
  let w := Sample.world (add_routing_rule rule Sample.two_agents) in
  let message := Sample.task "m7" "user" [] "Обработать последовательно" in
  exists routed w',
    route_message message w = (Ok routed, w') /\
    List.length routed = 2%nat /\
    forall (i : nat) (agent_id : pystr),
      nth_error [py "analyst"; py "coder"] i = Some agent_id ->
      exists m,
        nth_error routed i = Some m /\
        Message.id m = Message.id message ++ py "_to_" ++ agent_id /\
        Message.recipients m = [agent_id] /\
        Dict.get (py "step") (Message.metadata m) = Some (MInt (Z.of_nat i + 1)) /\
        Dict.get (py "total_steps") (Message.metadata m) = Some (MInt 2) /\
        Dict.get (py "previous_results") (Message.metadata m) =
          Some (MContents (map Message.content (firstn i routed))) /\
        List.length (firstn i routed) = i /\
        map Message.content (firstn i routed) = repeat (Message.content message) i.
Proof.
  intros rule w message.
  exact (@route_message_sequential message w rule [] eq_refl eq_refl).
Defined.

(* ================================================================== *)
(** ** The conditional strategy *)
(* ================================================================== *)

Lemma with_stats_same (w : World) : with_stats (stats (router w)) w = w.
Proof. now destruct w as [[ag rl hist st] clk t]. Qed.

Lemma add_messages_routed_0 (s : Stats) : add_messages_routed 0 s = s.
Proof. destruct s. unfold add_messages_routed. simpl. now rewrite Z.add_0_r. Qed.

(** C10. When the first matching rule is conditional and one of its targets
    is registered, [route_message] returns the empty list: the strategy has
    no branch, nothing is built, and the router, its [messages_routed] and
    [errors] counters included, is as it was. *)
Theorem route_message_conditional (message : Message.t) (w : World)
    (rule : RoutingRule.t) (rest : list RoutingRule.t) :
  matching_rules (routing_rules (router w)) message = Ok (rule :: rest) ->
  RoutingRule.strategy rule = CONDITIONAL ->
  available_agents rule (router w) <> [] ->
  route_message message w = (Ok [], w) /\
  messages_routed (stats (router (snd (route_message message w)))) =
    messages_routed (stats (router w)) /\
  errors (stats (router (snd (route_message message w)))) =
    errors (stats (router w)).
Proof.
  intros Hm Hs Ha.
  assert (route_message message w = (Ok [], w)) as E.
  { rewrite (route_message_fires _ _ _ _ Hm Ha).
    unfold expansion. rewrite Hs. simpl List.length. simpl Z.of_nat.
    now rewrite add_messages_routed_0, advance_0, with_stats_same. }
  rewrite E. auto.
Qed.

Lemma route_message_conditional_witness :
  let w := Sample.world Sample.test_router in
  let message := Sample.task "m3" "user" [] "Если получится" in
  route_message message w = (Ok [], w) /\
  messages_routed (stats (router (snd (route_message message w)))) =
    messages_routed (stats (router w)) /\
  errors (stats (router (snd (route_message message w)))) =
    errors (stats (router w)).
Proof.
  intros w message.
  apply (@route_message_conditional message w Sample.conditional_rule []).
  - vm_compute. reflexivity.
  - reflexivity.
  - vm_compute. discriminate.
Defined.

(* ================================================================== *)
(** ** One rule fires *)
(* ================================================================== *)

(** The matching rules are a sublist of the rule list: the first of them is
    preceded in the rule list by rules that do not match only. *)
Lemma matching_rules_first (rules : list RoutingRule.t) (message : Message.t)
    (rule : RoutingRule.t) (rest : list RoutingRule.t) :
  matching_rules rules message = Ok (rule :: rest) ->
  exists before after,
    rules = before ++ rule :: after /\
    Forall (fun r => RoutingRule.condition r message = Ok false) before /\
    RoutingRule.condition rule message = Ok true /\
    matching_rules after message = Ok rest.
Proof.
  induction rules as [|r rules IH]; simpl; [discriminate|].
  destruct (RoutingRule.condition r message) as [b|e] eqn:Ec; [|discriminate].
  destruct (matching_rules rules message) as [l|e] eqn:El; [|discriminate].
  destruct b; intros H; inversion H; subst.
  - exists [], rules. auto.
  - destruct (IH eq_refl) as (before & after & -> & Hb & Hc & Ha).
    exists (r :: before), after. auto.
Qed.

Lemma matching_rules_In (rules : list RoutingRule.t) (message : Message.t)
    (l : list RoutingRule.t) (r : RoutingRule.t) :
  matching_rules rules message = Ok l ->
  In r l -> In r rules /\ RoutingRule.condition r message = Ok true.
Proof.
  revert l. induction rules as [|r0 rules IH]; simpl; intros l H Hin.
  - injection H as <-. destruct Hin.
  - destruct (RoutingRule.condition r0 message) as [b|e] eqn:Ec; [|discriminate].
    destruct (matching_rules rules message) as [l0|e] eqn:El; [|discriminate].
    injection H as <-. destruct b.
    + destruct Hin as [<-|Hin]; [auto|]. destruct (IH _ eq_refl Hin). auto.
    + destruct (IH _ eq_refl Hin). auto.
Qed.

Lemma matching_rules_sorted (rules : list RoutingRule.t) (message : Message.t)
    (l : list RoutingRule.t) :
  matching_rules rules message = Ok l ->
  priority_sorted rules -> priority_sorted l.
Proof.
  unfold priority_sorted. intros H Hs. revert l H.
  induction Hs as [|r0 rules Hs IH Hall]; simpl; intros l H.
  - injection H as <-. constructor.
  - destruct (RoutingRule.condition r0 message) as [b|e] eqn:Ec; [|discriminate].
    destruct (matching_rules rules message) as [l0|e] eqn:El; [|discriminate].
    injection H as <-. destruct b; [|now apply IH].
    constructor; [now apply IH|].
    rewrite Forall_forall in Hall |- *. intros x Hx.
    apply Hall. now destruct (matching_rules_In _ _ _ x El Hx).
Qed.

(** C8. When at least one rule matches, [route_message] applies the first
    matching rule of the rule list: every rule before it does not match,
    on a priority-sorted list no matching rule has a larger priority, and
    the call returns and leaves behind what it would with that rule as the
    router's only rule, so that no other matching rule adds anything.  What
    it returns is that rule's expansion: nothing when none of the rule's
    targets is registered, otherwise one message per registered target of
    the rule (per registered agent for a BROADCAST rule, none for a
    CONDITIONAL rule), each with the content and the sender of the routed
    message, and [messages_routed] grows by their number. *)
Theorem route_message_first_match (message : Message.t) (w : World)
    (rule : RoutingRule.t) (rest : list RoutingRule.t) :
  matching_rules (routing_rules (router w)) message = Ok (rule :: rest) ->
  (exists before after,
      routing_rules (router w) = before ++ rule :: after /\
      Forall (fun r => RoutingRule.condition r message = Ok false) before /\
      RoutingRule.condition rule message = Ok true) /\
  (priority_sorted (routing_rules (router w)) ->
   forall r, In r rest -> RoutingRule.priority r <= RoutingRule.priority rule) /\
  route_message message w =
    (fst (route_message message (with_rules [rule] w)),
     with_rules (routing_rules (router w))
       (snd (route_message message (with_rules [rule] w)))) /\
  (available_agents rule (router w) = [] ->
   route_message message w = (Ok [], w)) /\
  (available_agents rule (router w) <> [] ->
   route_message message w =
   (Ok (expansion rule message w),
    with_stats
      (add_messages_routed (Z.of_nat (List.length (expansion rule message w)))
         (stats (router w)))
      (advance (List.length (expansion rule message w)) w))) /\
  map Message.recipients (expansion rule message w) =
    match RoutingRule.strategy rule with
    | SEQUENTIAL | PARALLEL =>
        map (fun agent_id => [agent_id]) (available_agents rule (router w))
    | BROADCAST =>
        map (fun agent_id => [agent_id]) (Dict.keys (agents (router w)))
    | CONDITIONAL => []
    end /\
  Forall (fun m => Message.content m = Message.content message /\
                   Message.sender m = Message.sender message /\
                   Message.message_type m = Message.message_type message)
    (expansion rule message w).
Proof.
  intros Hm.
  destruct (matching_rules_first _ _ _ _ Hm) as (before & after & Hr & Hb & Hc & _).
  split; [exists before, after; auto|]. split; [|split; [|split; [|split; [|split]]]].
  - intros Hs r Hin.
    pose proof (matching_rules_sorted _ _ _ Hm Hs) as Hs'.
    apply StronglySorted_inv in Hs' as [_ Hall].
    rewrite Forall_forall in Hall. now apply Hall.
  - assert (matching_rules (routing_rules (router (with_rules [rule] w))) message
            = Ok [rule]) as Hm1 by (simpl; now rewrite Hc).
    destruct (available_agents rule (router w)) as [|a0 avail] eqn:Eav.
    + rewrite (route_message_no_agent _ _ _ _ Hm Eav).
      rewrite (route_message_no_agent _ (with_rules [rule] w) _ _ Hm1 Eav).
      simpl. now destruct w as [[ag rl hist st] clk t rp].
    + assert (available_agents rule (router w) <> []) as Hne
        by (rewrite Eav; discriminate).
      rewrite (route_message_fires _ _ _ _ Hm Hne).
      rewrite (route_message_fires _ (with_rules [rule] w) _ _ Hm1 Hne).
      reflexivity.
  - exact (route_message_no_agent _ _ _ _ Hm).
  - exact (route_message_fires _ _ _ _ Hm).
  - unfold expansion. destruct (RoutingRule.strategy rule); cbv beta iota zeta.
    + rewrite (append_each_map (sequential_message message _) Message.recipients
                 (fun step : Z * pystr => [snd step])) by reflexivity.
      apply (enumerate_from_map_snd (fun agent_id : pystr => [agent_id])).
    + now rewrite (append_each_map (parallel_message message) Message.recipients
                     (fun agent_id : pystr => [agent_id])).
    + reflexivity.
    + now rewrite (append_each_map (broadcast_message message) Message.recipients
                     (fun agent_id : pystr => [agent_id])).
  - unfold expansion. destruct (RoutingRule.strategy rule); cbv beta iota zeta;
      try (apply append_each_Forall; [|constructor]; intros x acc ts; now repeat split).
    constructor.
Qed.

(** Two rules match: the sequential rule of priority 10 and a parallel rule
    of priority 9 over the same message.  The call returns the two messages
    of the sequential rule, for "analyst" and for "coder", and nothing of
    the parallel rule. *)
Lemma route_message_first_match_witness :
  let low := {| RoutingRule.condition := Sample.says "последовательно";
                RoutingRule.target_agents := [py "coder"];
                RoutingRule.strategy := PARALLEL;
                RoutingRule.priority := 9;
                RoutingRule.description := py "low" |} in
  let w := Sample.world (add_routing_rule Sample.sequential_rule
                           (add_routing_rule low Sample.two_agents)) in
  let message := Sample.task "m7" "user" [] "Обработать последовательно" in
  matching_rules (routing_rules (router w)) message = Ok [Sample.sequential_rule; low] /\
  route_message message w =
    (fst (route_message message (with_rules [Sample.sequential_rule] w)),
     with_rules (routing_rules (router w))
       (snd (route_message message (with_rules [Sample.sequential_rule] w)))) /\
  exists routed w',
    route_message message w = (Ok routed, w') /\
    map Message.recipients routed = [[py "analyst"]; [py "coder"]] /\
    map Message.id routed = [py "m7_to_analyst"; py "m7_to_coder"] /\
    map (fun m => Dict.get (py "step") (Message.metadata m)) routed =
      [Some (MInt 1); Some (MInt 2)] /\
    messages_routed (stats (router w')) = messages_routed (stats (router w)) + 2.
Proof.
  intros low w message.
  assert (matching_rules (routing_rules (router w)) message
          = Ok [Sample.sequential_rule; low]) as Hm by (vm_compute; reflexivity).
  split; [exact Hm|].
  destruct (route_message_first_match message w _ _ Hm)
    as (_ & _ & Hsame & _ & Hfires & _).
  split; [exact Hsame|].
  eexists _, _. split; [apply Hfires; vm_compute; discriminate|].
  vm_compute. repeat split.
Defined.

(* ================================================================== *)
(** ** Routing misses *)
(* ================================================================== *)

Lemma matching_rules_none (rules : list RoutingRule.t) (message : Message.t) :
  Forall (fun r => RoutingRule.condition r message = Ok false) rules ->
  matching_rules rules message = Ok [].
Proof.
  induction 1 as [|r rules Hr _ IH]; simpl; [reflexivity|].
  now rewrite Hr, IH.
Qed.

Section DefaultRulesMiss.

Variable lower : pystr -> pystr.

Lemma add_default_routing_rules_unfold (self : AgentRouter) :
  exists r1 r2 r3 r4 r5 r6 r7,
    add_default_routing_rules lower self =
      add_routing_rules [r1; r2; r3; r4; r5; r6; r7] self /\
    RoutingRule.condition r1 = is_data_analysis lower /\
    RoutingRule.condition r2 = is_code_generation lower /\
    RoutingRule.condition r3 = is_code_review lower /\
    RoutingRule.condition r4 = is_project_management lower /\
    RoutingRule.condition r5 = is_idea_generation lower /\
    RoutingRule.condition r6 = is_quality_assessment lower /\
    RoutingRule.condition r7 = is_complex_task.
Proof.
  do 7 eexists. split; [reflexivity|]. repeat split.
Qed.

Lemma any_keyword_in_false (keywords : list pystr) (message : Message.t) :
  (forall keyword, In keyword keywords ->
     is_substring keyword (lower (py_str (Message.content message))) = false) ->
  any_keyword_in lower keywords message = false.
Proof.
  intros H. unfold any_keyword_in.
  induction keywords as [|k ks IH]; simpl; [reflexivity|].
  rewrite H by (now left). apply IH. intros k' Hk'. apply H. now right.
Qed.

(** No default rule matches a message that has none of the keywords and at
    most 200 characters. *)
Lemma default_routing_rules_none (message : Message.t) :
  (forall keyword, In keyword configured_keywords ->
     is_substring keyword (lower (py_str (Message.content message))) = false) ->
  len (py_str (Message.content message)) <= 200 ->
  Forall (fun r => RoutingRule.condition r message = Ok false)
    (default_routing_rules lower).
Proof.
  intros Hk Hl. unfold default_routing_rules.
  destruct (add_default_routing_rules_unfold AgentRouter_init)
    as (r1 & r2 & r3 & r4 & r5 & r6 & r7 & -> & H1 & H2 & H3 & H4 & H5 & H6 & H7).
  apply Forall_forall. intros r Hin.
  apply (Permutation_in _ (add_routing_rules_Permutation _ _)) in Hin.
  assert (forall kws, incl kws configured_keywords ->
            any_keyword_in lower kws message = false) as Hany
    by (intros kws Hi; apply any_keyword_in_false; intros k Hk'; apply Hk, Hi, Hk').
  unfold configured_keywords in Hany.
  simpl in Hin.
  destruct Hin as [<-|[<-|[<-|[<-|[<-|[<-|[<-|[]]]]]]]].
  - rewrite H1. unfold is_data_analysis. rewrite Hany, andb_false_r; [reflexivity|].
    apply incl_appl, incl_refl.
  - rewrite H2. unfold is_code_generation. rewrite Hany, andb_false_r; [reflexivity|].
    apply incl_appr, incl_appl, incl_refl.
  - rewrite H3. unfold is_code_review. rewrite Hany, andb_false_r; [reflexivity|].
    do 2 apply incl_appr. apply incl_appl, incl_refl.
  - rewrite H4. unfold is_project_management.
    rewrite Hany, andb_false_r; [reflexivity|].
    do 3 apply incl_appr. apply incl_appl, incl_refl.
  - rewrite H5. unfold is_idea_generation. rewrite Hany, andb_false_r; [reflexivity|].
    do 4 apply incl_appr. apply incl_appl, incl_refl.
  - rewrite H6. unfold is_quality_assessment.
    rewrite Hany, andb_false_r; [reflexivity|].
    do 5 apply incl_appr. apply incl_refl.
  - rewrite H7. unfold is_complex_task.
    replace (200 <? len (py_str (Message.content message))) with false
      by (symmetry; apply Z.ltb_ge; exact Hl).
    now rewrite andb_false_r.
Qed.

(** C4. A message that no rule matches, or whose first matching rule has no
    target registered in the router, is routed to the empty list: the call
    returns normally and the router, its [errors] counter included, is as it
    was.  This is so, in particular, for a router holding the default rules
    and a message whose stringified content, lower-cased as the conditions
    do, contains none of the configured keywords and has at most 200
    characters. *)
Theorem route_message_miss (message : Message.t) (w : World) :
  matching_rules (routing_rules (router w)) message = Ok [] \/
  (exists rule rest,
      matching_rules (routing_rules (router w)) message = Ok (rule :: rest) /\
      available_agents rule (router w) = []) \/
  (routing_rules (router w) = default_routing_rules lower /\
   (forall keyword, In keyword configured_keywords ->
      is_substring keyword (lower (py_str (Message.content message))) = false) /\
   len (py_str (Message.content message)) <= 200) ->
  route_message message w = (Ok [], w).
Proof.
  intros [Hm | [(rule & rest & Hm & Ha) | (Hr & Hk & Hl)]].
  - now apply route_message_no_match.
  - now apply (route_message_no_agent message w rule rest).
  - apply route_message_no_match. rewrite Hr.
    apply matching_rules_none. now apply default_routing_rules_none.
Qed.

End DefaultRulesMiss.

(** The three kinds of miss on concrete routers: the default rules with a
    short text without keywords, the test's rules with a text no rule
    matches, and a rule whose only target is not registered. *)
Lemma route_message_miss_witness :
  let w1 := Sample.world (add_default_routing_rules lower_basic Sample.two_agents) in
  let m1 := Sample.task "m1" "user" [] "Привет, как дела?" in
  let w2 := Sample.world Sample.test_router in
  let m2 := Sample.task "m2" "user" [] "Доброе утро" in
  let rule := {| RoutingRule.condition := Sample.says "ревью";
                 RoutingRule.target_agents := [py "reviewer"];
                 RoutingRule.strategy := SEQUENTIAL;
                 RoutingRule.priority := 9;
                 RoutingRule.description := py "review" |} in
  let w3 := Sample.world (add_routing_rule rule Sample.two_agents) in
  let m3 := Sample.task "m3" "user" [] "Проведи ревью" in
  route_message m1 w1 = (Ok [], w1) /\
  route_message m2 w2 = (Ok [], w2) /\
  route_message m3 w3 = (Ok [], w3).
Proof.
  intros w1 m1 w2 m2 rule w3 m3. split; [|split].
  - apply (route_message_miss lower_basic m1 w1). right. right.
    split; [reflexivity|]. split.
    + intros keyword Hin. vm_compute in Hin.
      repeat (destruct Hin as [<-|Hin]; [vm_compute; reflexivity|]). destruct Hin.
    + vm_compute. discriminate.
  - apply (route_message_miss lower_basic m2 w2). left. vm_compute. reflexivity.
  - apply (route_message_miss lower_basic m3 w3). right. left.
    exists rule, []. split; vm_compute; reflexivity.
Defined.

(* ================================================================== *)
(** ** Counters *)
(* ================================================================== *)

(** [route_message] returns a list and counts it, or lets pass what a
    condition raised that is no [Exception]; it leaves rules and agents as
    they are. *)
Lemma route_message_counts (message : Message.t) (w : World) :
  routing_rules (router (snd (route_message message w))) = routing_rules (router w) /\
  agents (router (snd (route_message message w))) = agents (router w) /\
  messages_processed (stats (router (snd (route_message message w)))) =
    messages_processed (stats (router w)) /\
  match fst (route_message message w) with
  | Ok routed =>
      messages_routed (stats (router (snd (route_message message w)))) =
        messages_routed (stats (router w)) + Z.of_nat (List.length routed)
  | Raise e =>
      isinstance_Exception e = false /\ snd (route_message message w) = w
  end.
Proof.
  destruct (matching_rules (routing_rules (router w)) message) as [[|rule rest]|e] eqn:Hm.
  - rewrite (route_message_no_match _ _ Hm). simpl. rewrite Z.add_0_r. auto.
  - destruct (available_agents rule (router w)) as [|a0 avail] eqn:Eav.
    + rewrite (route_message_no_agent _ _ _ _ Hm Eav). simpl.
      rewrite Z.add_0_r. auto.
    + assert (available_agents rule (router w) <> []) as Hne
        by (rewrite Eav; discriminate).
      rewrite (route_message_fires _ _ _ _ Hm Hne). simpl. auto.
  - destruct (isinstance_Exception e) eqn:He.
    + rewrite (route_message_raised _ _ _ Hm He). simpl. rewrite Z.add_0_r. auto.
    + rewrite (route_message_propagates _ _ _ Hm He). simpl. auto.
Qed.

(** C5. A [route_message] call that returns [K] messages leaves
    [messages_routed] at its value before the call plus [K]; a call returns,
    unless a condition raises what is no [Exception], and then nothing is
    counted.  A [process_message] call in which the agent returns adds one
    to [messages_processed] and leaves [errors] as it was; a call that fails
    leaves [messages_processed] as it was, and adds one to [errors] when the
    failure is caught, which it is for every [Exception]. *)
Theorem stats_counters (message : Message.t) (w : World) :
  ((forall routed w',
       route_message message w = (Ok routed, w') ->
       messages_routed (stats (router w')) =
         messages_routed (stats (router w)) + Z.of_nat (List.length routed)) /\
   ((exists routed w', route_message message w = (Ok routed, w')) \/
    (exists e, route_message message w = (Raise e, w) /\
               isinstance_Exception e = false))) /\
  (forall agent_id agent result,
      process_success w message agent_id agent result ->
      let w' := snd (process_message message w) in
      messages_processed (stats (router w')) =
        messages_processed (stats (router w)) + 1 /\
      errors (stats (router w')) = errors (stats (router w)) /\
      messages_routed (stats (router w')) = messages_routed (stats (router w))) /\
  (forall e,
      process_failure w message e ->
      let w' := snd (process_message message w) in
      messages_processed (stats (router w')) = messages_processed (stats (router w)) /\
      errors (stats (router w')) =
        errors (stats (router w)) + (if isinstance_Exception e then 1 else 0) /\
      messages_routed (stats (router w')) = messages_routed (stats (router w))).
Proof.
  split; [|split].
  - pose proof (route_message_counts message w) as (_ & _ & _ & H).
    destruct (route_message message w) as [[routed|e] w1] eqn:E; cbn [fst snd] in H.
    + split; [|left; eauto]. intros routed' w' E'. injection E' as <- <-. exact H.
    + destruct H as [He ->]. split; [intros routed' w' E'; discriminate|].
      right. eauto.
  - intros agent_id agent result Hs.
    rewrite (process_message_succeeds _ _ _ _ _ Hs). simpl. auto.
  - intros e Hf. destruct (isinstance_Exception e) eqn:He.
    + rewrite (process_message_fails _ _ _ Hf He). simpl. auto.
    + rewrite (process_message_propagates _ _ _ Hf He). simpl.
      rewrite Z.add_0_r. auto.
Qed.

(** A message for "analyst", who answers, and one for "reviewer", whose
    [process] raises. *)
Lemma stats_counters_witness :
  let w := Sample.world Sample.three_agents in
  let good := Sample.task "m1" "user" [py "analyst"] "Проанализируй данные" in
  let bad := Sample.task "m2" "user" [py "reviewer"] "Проведи ревью" in
  (messages_processed (stats (router (snd (process_message good w)))) = 1 /\
   errors (stats (router (snd (process_message good w)))) = 0) /\
  (messages_processed (stats (router (snd (process_message bad w)))) = 0 /\
   errors (stats (router (snd (process_message bad w)))) = 1).
Proof.
  intros w good bad. split.
  - assert (process_success w good (py "analyst") (Sample.mock_agent (py "analyst"))
              (CStr (py "Обработано агентом " ++ py "analyst"))) as Hs
      by (split; [exists []; reflexivity | split; vm_compute; reflexivity]).
    destruct (proj1 (proj2 (stats_counters good w)) _ _ _ Hs) as (H1 & H2 & _).
    split; [exact H1 | exact H2].
  - assert (process_failure w bad (mkExc (py "RuntimeError") (py "LLM unavailable")))
      as Hf
      by (apply (agent_raised w bad (py "reviewer") [] Sample.failing_agent);
          vm_compute; reflexivity).
    destruct (proj2 (proj2 (stats_counters bad w)) _ Hf) as (H1 & H2 & _).
    split; [exact H1 | exact H2].
Defined.

(* ================================================================== *)
(** ** Responses *)
(* ================================================================== *)

(** C3, as the code has it.  The handler of [process_message] is
    [except Exception].  When the recipient list is empty, or the first
    recipient is not a registered agent, or the agent's [process] raises an
    instance of [Exception], the call returns a message of kind ERROR: its
    sender is the first recipient, or "system" when there is none, its
    metadata hold the id of the original message, its content is the
    exception's string after the prefix the handler writes, and the
    [errors] counter is one larger.  The two exceptions the router raises
    itself are instances of [Exception].  What the agent raises that is no
    [Exception] is raised to the caller, and nothing is counted. *)
Theorem process_message_error_response (message : Message.t) (w : World) :
  ((exists response w', process_message message w = (Ok response, w')) \/
   (exists e agent_id rest agent,
       Message.recipients message = agent_id :: rest /\
       Dict.get agent_id (agents (router w)) = Some agent /\
       process agent (Message.content message) = Raise e /\
       isinstance_Exception e = false /\
       process_message message w = (Raise e, advance 1 w))) /\
  (forall e,
      process_failure w message e ->
      isinstance_Exception e = true ->
      exists response w',
        process_message message w = (Ok response, w') /\
        Message.message_type response = ERROR /\
        Message.sender response =
          match Message.recipients message with
          | agent_id :: _ => agent_id
          | [] => py "system"
          end /\
        Message.id response = py "error_" ++ Message.id message /\
        Dict.get (py "original_message_id") (Message.metadata response) =
          Some (MStr (Message.id message)) /\
        Dict.get (py "error_type") (Message.metadata response) =
          Some (MStr (exc_type e)) /\
        Message.content response = CStr (py "Ошибка обработки: " ++ exc_str e) /\
        errors (stats (router w')) = errors (stats (router w)) + 1 /\
        messages_processed (stats (router w')) =
          messages_processed (stats (router w))) /\
  (Message.recipients message = [] ->
   process_failure w message (IndexError (py "list index out of range")) /\
   isinstance_Exception (IndexError (py "list index out of range")) = true) /\
  (forall agent_id rest,
      Message.recipients message = agent_id :: rest ->
      Dict.get agent_id (agents (router w)) = None ->
      process_failure w message
        (ValueError (py "Агент " ++ agent_id ++ py " не найден")) /\
      isinstance_Exception (ValueError (py "Агент " ++ agent_id ++ py " не найден"))
        = true) /\
  (forall agent_id rest agent e,
      Message.recipients message = agent_id :: rest ->
      Dict.get agent_id (agents (router w)) = Some agent ->
      process agent (Message.content message) = Raise e ->
      process_failure w message e) /\
  (forall e,
      process_failure w message e ->
      isinstance_Exception e = false ->
      process_message message w = (Raise e, advance 1 w) /\
      stats (router (snd (process_message message w))) = stats (router w)).
Proof.
  split; [|split; [|split; [|split; [|split]]]].
  - destruct (process_message_cases message w)
      as [(agent_id & agent & result & Hs) | (e & Hf)].
    + rewrite (process_message_succeeds _ _ _ _ _ Hs). left. eauto.
    + destruct (isinstance_Exception e) eqn:He.
      * rewrite (process_message_fails _ _ _ Hf He). left. eauto.
      * right. destruct (process_failure_lookup _ _ _ Hf He)
          as (agent_id & rest & agent & Hr & Hg & Hp).
        exists e, agent_id, rest, agent.
        rewrite (process_message_propagates _ _ _ Hf He). auto 6.
  - intros e Hf He. rewrite (process_message_fails _ _ _ Hf He).
    eexists _, _. split; [reflexivity|].
    cbn [error_response Message.message_type Message.sender Message.id
         Message.metadata Message.content].
    repeat split.
  - intros Hr. split; [now apply no_recipient | reflexivity].
  - intros agent_id rest Hr Hg.
    split; [now apply (agent_not_registered w message agent_id rest) | reflexivity].
  - apply agent_raised.
  - intros e Hf He. rewrite (process_message_propagates _ _ _ Hf He). auto.
Qed.

(** No recipient, an unregistered recipient, and an agent that raises. *)
Lemma process_message_error_response_witness :
  let w := Sample.world Sample.three_agents in
  let m1 := Sample.task "m1" "user" [] "x" in
  let m2 := Sample.task "m2" "user" [py "ghost"] "x" in
  let m3 := Sample.task "m3" "system" [py "reviewer"] "x" in
  (exists r w', process_message m1 w = (Ok r, w') /\
     Message.message_type r = ERROR /\ Message.sender r = py "system" /\
     Message.content r = CStr (py "Ошибка обработки: list index out of range")) /\
  (exists r w', process_message m2 w = (Ok r, w') /\
     Message.message_type r = ERROR /\ Message.sender r = py "ghost" /\
     Message.content r = CStr (py "Ошибка обработки: Агент ghost не найден")) /\
  (exists r w', process_message m3 w = (Ok r, w') /\
     Message.message_type r = ERROR /\ Message.sender r = py "reviewer" /\
     Message.content r = CStr (py "Ошибка обработки: LLM unavailable")).
Proof.
  intros w m1 m2 m3.
  pose proof (process_message_error_response m1 w) as (_ & E1 & F1 & _).
  pose proof (process_message_error_response m2 w) as (_ & E2 & _ & F2 & _).
  pose proof (process_message_error_response m3 w) as (_ & E3 & _ & _ & F3 & _).
  split; [|split].
  - destruct (F1 eq_refl) as [Hf He].
    destruct (E1 _ Hf He) as (r & w' & H & Ht & Hs & _ & _ & _ & Hc & _).
    exists r, w'. split; [exact H|]. split; [exact Ht|]. split; [exact Hs|].
    rewrite Hc. vm_compute. reflexivity.
  - destruct (F2 (py "ghost") [] eq_refl eq_refl) as [Hf He].
    destruct (E2 _ Hf He) as (r & w' & H & Ht & Hs & _ & _ & _ & Hc & _).
    exists r, w'. split; [exact H|]. split; [exact Ht|]. split; [exact Hs|].
    rewrite Hc. vm_compute. reflexivity.
  - destruct (E3 _ (F3 (py "reviewer") [] Sample.failing_agent _ eq_refl eq_refl eq_refl)
                eq_refl)
      as (r & w' & H & Ht & Hs & _ & _ & _ & Hc & _).
    exists r, w'. split; [exact H|]. split; [exact Ht|]. split; [exact Hs|].
    rewrite Hc. vm_compute. reflexivity.
Defined.

(** An agent whose [process] is cancelled: [asyncio.CancelledError] is no
    [Exception], the handler is passed, and [process_message] raises to its
    caller with the [errors] counter as it was. *)
Lemma process_message_raises_cancelled :
  let w := Sample.world Sample.with_cancelled_agent in
  let message := Sample.task "m4" "user" [py "slow"] "x" in
  fst (process_message message w) =
    Raise (mkBaseException (py "CancelledError") (py "")) /\
  errors (stats (router (snd (process_message message w)))) = errors (stats (router w)) /\
  ~ (exists response w', process_message message w = (Ok response, w')).
Proof.
  intros w message.
  assert (process_message message w =
          (Raise (mkBaseException (py "CancelledError") (py "")), advance 1 w)) as E
    by (vm_compute; reflexivity).
  rewrite E. split; [reflexivity|]. split; [reflexivity|].
  intros (response & w' & H). discriminate.
Qed.

(** C6. When the first recipient is a registered agent and its [process]
    returns, the message [process_message] returns has kind RESULT, the
    agent's id as sender, the original sender as its one recipient, or no
    recipient when the original sender is "system", the agent's result as
    content, and metadata holding the id of the original message, the time
    measured from the start of the call, and the agent's capability and
    limitation lists. *)
Theorem process_message_result (message : Message.t) (w : World)
    (agent_id : pystr) (agent : BaseAgent) (result : Content) :
  process_success w message agent_id agent result ->
  exists response w',
    process_message message w = (Ok response, w') /\
    Message.message_type response = RESULT /\
    Message.sender response = agent_id /\
    (Message.sender message = py "system" -> Message.recipients response = []) /\
    (Message.sender message <> py "system" ->
     Message.recipients response = [Message.sender message]) /\
    Message.content response = result /\
    Dict.get (py "original_message_id") (Message.metadata response) =
      Some (MStr (Message.id message)) /\
    Dict.get (py "processing_time") (Message.metadata response) =
      Some (MFloat (total_seconds (clock w (1 + ticks w)%nat - clock w (ticks w)))) /\
    Dict.get (py "agent_capabilities") (Message.metadata response) =
      Some (MStrList (get_capabilities agent)) /\
    Dict.get (py "agent_limitations") (Message.metadata response) =
      Some (MStrList (get_limitations agent)).
Proof.
  intros Hs. rewrite (process_message_succeeds _ _ _ _ _ Hs).
  eexists _, _. split; [reflexivity|].
  cbn [result_response Message.message_type Message.sender Message.recipients
       Message.content Message.metadata].
  split; [reflexivity|]. split; [reflexivity|].
  split; [|split].
  - intros E. unfold reply_recipients. rewrite E. now rewrite pystr_eqb_refl.
  - intros E. unfold reply_recipients.
    apply pystr_eqb_neq in E. now rewrite E.
  - split; [reflexivity|].
    repeat split;
      rewrite ?Dict_get_set_ne by (vm_compute; reflexivity);
      apply Dict_get_set_eq.
Qed.

(** "analyst" answers a message from "user" and one from "system". *)
Lemma process_message_result_witness :
  let w := Sample.world Sample.two_agents in
  let m1 := Sample.task "m1" "user" [py "analyst"] "Проанализируй данные" in
  let m2 := Sample.task "m2" "system" [py "analyst"; py "coder"] "Проанализируй данные" in
  (exists r w', process_message m1 w = (Ok r, w') /\
     Message.message_type r = RESULT /\ Message.sender r = py "analyst" /\
     Message.recipients r = [py "user"] /\
     Dict.get (py "original_message_id") (Message.metadata r) = Some (MStr (py "m1"))) /\
  (exists r w', process_message m2 w = (Ok r, w') /\
     Message.message_type r = RESULT /\ Message.sender r = py "analyst" /\
     Message.recipients r = [] /\
     Dict.get (py "original_message_id") (Message.metadata r) = Some (MStr (py "m2"))).
Proof.
  intros w m1 m2.
  assert (forall m rest, Message.recipients m = py "analyst" :: rest ->
            process_success w m (py "analyst") (Sample.mock_agent (py "analyst"))
              (CStr (py "Обработано агентом " ++ py "analyst"))) as Hs
    by (intros m rest Hr; split; [now exists rest | split; vm_compute; reflexivity]).
  split.
  - destruct (process_message_result m1 w _ _ _ (Hs m1 [] eq_refl))
      as (r & w' & H & Ht & Hsd & _ & Hrc & _ & Hid & _).
    exists r, w'. split; [exact H|]. split; [exact Ht|]. split; [exact Hsd|].
    split; [|exact Hid].
    apply Hrc. vm_compute. discriminate.
  - destruct (process_message_result m2 w _ _ _ (Hs m2 [py "coder"] eq_refl))
      as (r & w' & H & Ht & Hsd & Hrc & _ & _ & Hid & _).
    exists r, w'. split; [exact H|]. split; [exact Ht|]. split; [exact Hsd|].
    split; [|exact Hid].
    apply Hrc. reflexivity.
Defined.

(* ================================================================== *)
(** ** The rule list *)
(* ================================================================== *)

Lemma process_message_keeps_rules (message : Message.t) (w : World) :
  routing_rules (router (snd (process_message message w))) = routing_rules (router w) /\
  agents (router (snd (process_message message w))) = agents (router w).
Proof.
  destruct (process_message_cases message w)
    as [(agent_id & agent & result & Hs) | (e & Hf)].
  - now rewrite (process_message_succeeds _ _ _ _ _ Hs).
  - destruct (isinstance_Exception e) eqn:He.
    + now rewrite (process_message_fails _ _ _ Hf He).
    + now rewrite (process_message_propagates _ _ _ Hf He).
Qed.

(** C7. Starting from a rule list that is sorted by priority, after any
    sequence of [add_routing_rule] calls the rule list is non-increasing in
    priority from first to last, holds the rules it had and the rules added,
    and for each priority holds the rules of that priority in the order of
    insertion.  The other operations on the router ([register_agent],
    [route_message], [process_message]) leave the rule list as it is, and
    the default rules are added by [add_routing_rule]. *)
Theorem add_routing_rule_sorted_stable (rules : list RoutingRule.t) (self : AgentRouter) :
  priority_sorted (routing_rules self) ->
  priority_sorted (routing_rules (add_routing_rules rules self)) /\
  (forall p,
      with_priority p (routing_rules (add_routing_rules rules self)) =
      with_priority p (routing_rules self ++ rules)) /\
  Permutation (routing_rules (add_routing_rules rules self)) (routing_rules self ++ rules) /\
  (forall agent_id agent,
      routing_rules (register_agent agent_id agent self) = routing_rules self) /\
  (forall message w,
      routing_rules (router (snd (route_message message w))) = routing_rules (router w)) /\
  (forall message w,
      routing_rules (router (snd (process_message message w))) = routing_rules (router w)) /\
  (forall lower, exists defaults,
      add_default_routing_rules lower self = add_routing_rules defaults self).
Proof.
  intros Hs. repeat split.
  - now apply add_routing_rules_sorted.
  - intros p. apply add_routing_rules_with_priority.
  - apply add_routing_rules_Permutation.
  - intros message w.
    apply (route_message_counts message w).
  - intros message w. apply process_message_keeps_rules.
  - intros lower.
    destruct (add_default_routing_rules_unfold lower self)
      as (r1 & r2 & r3 & r4 & r5 & r6 & r7 & E & _).
    now exists [r1; r2; r3; r4; r5; r6; r7].
Qed.

(** The three rules of the strategy test and a second rule of priority 9,
    added to the default rules. *)
Lemma add_routing_rule_sorted_stable_witness :
  let second := {| RoutingRule.condition := Sample.says "ревью";
                   RoutingRule.target_agents := [py "reviewer"];
                   RoutingRule.strategy := PARALLEL;
                   RoutingRule.priority := 9;
                   RoutingRule.description := py "second" |} in
  let added := [Sample.broadcast_rule; Sample.parallel_rule; second;
                Sample.sequential_rule] in
  let self := add_routing_rules [Sample.conditional_rule] AgentRouter_init in
  map RoutingRule.priority (routing_rules (add_routing_rules added self)) =
    [10; 9; 9; 8; 7] /\
  with_priority 9 (routing_rules (add_routing_rules added self)) =
    [Sample.parallel_rule; second].
Proof.
  intros second added self.
  assert (priority_sorted (routing_rules self)) as Hs
    by (repeat constructor).
  destruct (add_routing_rule_sorted_stable added self Hs) as (_ & Hst & _).
  split.
  - vm_compute. reflexivity.
  - rewrite Hst. reflexivity.
Defined.

(* ================================================================== *)
(** ** The default rules on the texts of the demo *)
(* ================================================================== *)

(** The priorities of the default rules, as registered. *)
Example default_routing_rules_priorities :
  map RoutingRule.priority (default_routing_rules lower_basic) = [10; 10; 9; 8; 7; 6; 5].
Proof. vm_compute. reflexivity. Qed.

(** "Проанализируй данные продаж" goes to "analyst", as step 1 of 1. *)
Example route_sales_analysis :
  let w := Sample.world (add_default_routing_rules lower_basic Sample.two_agents) in
  let message := Sample.task "t1" "system" [] "Проанализируй данные продаж" in
  match fst (route_message message w) with
  | Ok routed =>
      map Message.recipients routed = [[py "analyst"]] /\
      map Message.id routed = [py "t1_to_analyst"] /\
      map (fun m => Dict.get (py "step") (Message.metadata m)) routed = [Some (MInt 1)]
  | Raise _ => False
  end.
Proof. vm_compute. repeat split. Qed.

(** "Создай функцию для вычисления факториала" has the word in the
    accusative, "функцию", and the keyword is "функция": no keyword is in
    the text, which is short, and the message is routed to no agent. *)
Example route_factorial :
  let w := Sample.world (add_default_routing_rules lower_basic Sample.two_agents) in
  let message :=
    Sample.task "t2" "system" [] "Создай функцию для вычисления факториала" in
  (filter (fun keyword =>
             is_substring keyword (lower_basic (py_str (Message.content message))))
     configured_keywords) = [] /\
  fst (route_message message w) = Ok [].
Proof. vm_compute. split; reflexivity. Qed.

(** "Напиши код функции" has the keyword "код": it goes to "coder". *)
Example route_code :
  let w := Sample.world (add_default_routing_rules lower_basic Sample.two_agents) in
  let message := Sample.task "t4" "system" [] "Напиши КОД функции" in
  match fst (route_message message w) with
  | Ok routed => map Message.recipients routed = [[py "coder"]]
  | Raise _ => False
  end.
Proof. vm_compute. reflexivity. Qed.

(** A rule whose condition raises: the call returns the empty list and
    counts an error. *)
Example route_broken_condition :
  let rule := {| RoutingRule.condition := Sample.broken;
                 RoutingRule.target_agents := [py "analyst"];
                 RoutingRule.strategy := PARALLEL;
                 RoutingRule.priority := 1;
                 RoutingRule.description := py "broken" |} in
  let w := Sample.world (add_routing_rule rule Sample.test_router) in
  let message := Sample.task "t3" "system" [] "Обработать параллельно" in
  fst (route_message message w) = Ok [] /\
  errors (stats (router (snd (route_message message w)))) = 1.
Proof. vm_compute. split; reflexivity. Qed.

(** Agents are listed in the order of registration. *)
Example registration_order :
  Dict.keys (agents Sample.three_agents) = [py "analyst"; py "coder"; py "reviewer"].
Proof. vm_compute. reflexivity. Qed.

(* ================================================================== *)
(** ** Kinds and their values *)
(* ================================================================== *)

(** X1. The value of a member, given to the constructor as a string, gives
    the message the member itself gives: [MessageType(t.value)] is [t], and
    two members with the same value are the same member. *)
Theorem MessageType_value_round_trip
    (t : MessageType) id sender recipients content metadata priority (w : World) :
  (forall repr, MessageType_of_value repr (MessageType_value t) = Ok t) /\
  Message_init id sender recipients (inr (MessageType_value t)) content metadata priority w =
    Message_init id sender recipients (inl (Member t)) content metadata priority w /\
  (forall t', MessageType_value t' = MessageType_value t -> t' = t).
Proof.
  assert (forall repr t0, MessageType_of_value repr (MessageType_value t0) = Ok t0) as RT
    by (intros repr t0; destruct t0; vm_compute; reflexivity).
  split; [intros repr; apply RT|]. split.
  - unfold Message_init, bind, now, post_init, ret. cbn [str_repr]. now rewrite RT.
  - intros t' E. pose proof (RT (fun s => s) t') as R'. rewrite E, RT in R'. congruence.
Qed.

(* ================================================================== *)
(** ** More on the expansion of a rule *)
(* ================================================================== *)

Lemma Dict_mem_get {V : Type} (k : pystr) (d : Dict.t V) :
  Dict.mem k d = true -> exists v, Dict.get k d = Some v.
Proof. unfold Dict.mem. destruct (Dict.get k d); [eauto | discriminate]. Qed.

Lemma Dict_keys_get {V : Type} (k : pystr) (d : Dict.t V) :
  In k (Dict.keys d) <-> exists v, Dict.get k d = Some v.
Proof.
  induction d as [|[k' v'] d IH]; simpl.
  - split; [tauto | intros [v H]; discriminate].
  - destruct (pystr_eqb k k') eqn:E.
    + apply pystr_eqb_eq in E. subst. split; eauto.
    + apply pystr_eqb_neq in E. rewrite <- IH. split; [|tauto].
      intros [H|H]; [congruence | exact H].
Qed.

(** X2. When the first matching rule is parallel, [route_message] returns
    one message per listed target that is registered, in the order of the
    list: each goes to that target alone, has the id
    [{original_id}_to_{agent_id}], and carries [parallel: True] and its
    target under [agent_id]; [messages_routed] grows by their number. *)
Theorem route_message_parallel (message : Message.t) (w : World)
    (rule : RoutingRule.t) (rest : list RoutingRule.t) :
  matching_rules (routing_rules (router w)) message = Ok (rule :: rest) ->
  RoutingRule.strategy rule = PARALLEL ->
  exists routed w',
    route_message message w = (Ok routed, w') /\
    map Message.recipients routed =
      map (fun agent_id => [agent_id]) (available_agents rule (router w)) /\
    map Message.id routed =
      map (fun agent_id => Message.id message ++ py "_to_" ++ agent_id)
        (available_agents rule (router w)) /\
    map (fun m => Dict.get (py "agent_id") (Message.metadata m)) routed =
      map (fun agent_id => Some (MStr agent_id)) (available_agents rule (router w)) /\
    Forall (fun m => Dict.get (py "parallel") (Message.metadata m) = Some (MBool true))
      routed /\
    messages_routed (stats (router w')) =
      messages_routed (stats (router w))
      + Z.of_nat (List.length (available_agents rule (router w))).
Proof.
  intros Hm Hs.
  destruct (available_agents rule (router w)) as [|a0 avail] eqn:Eav.
  - rewrite (route_message_no_agent _ _ _ _ Hm Eav). exists [], w. simpl.
    rewrite Z.add_0_r. repeat split; constructor.
  - assert (available_agents rule (router w) <> []) as Hne by (rewrite Eav; discriminate).
    rewrite (route_message_fires _ _ _ _ Hm Hne).
    eexists _, _. split; [reflexivity|].
    unfold expansion. rewrite Hs, Eav.
    split; [|split; [|split; [|split]]].
    + now rewrite (append_each_map (parallel_message message) Message.recipients
                     (fun agent_id => [agent_id])).
    + now rewrite (append_each_map (parallel_message message) Message.id
                     (fun agent_id => Message.id message ++ py "_to_" ++ agent_id)).
    + rewrite (append_each_map (parallel_message message)
                 (fun m => Dict.get (py "agent_id") (Message.metadata m))
                 (fun agent_id => Some (MStr agent_id))); [reflexivity|].
      intros x acc ts. apply Dict_get_set_eq.
    + apply append_each_Forall; [|constructor].
      intros x acc ts. cbn [parallel_message Message.metadata].
      rewrite Dict_get_set_ne by (vm_compute; reflexivity).
      apply Dict_get_set_eq.
    + simpl. now rewrite append_each_length.
Qed.

Lemma route_message_parallel_witness :
  let w := Sample.world Sample.test_router in
  let message := Sample.task "m5" "user" [] "Сделать параллельно" in
  exists routed w',
    route_message message w = (Ok routed, w') /\
    map Message.recipients routed = [[py "analyst"]; [py "coder"]] /\
    map Message.id routed = [py "m5_to_analyst"; py "m5_to_coder"].
Proof.
  intros w message.
  assert (matching_rules (routing_rules (router w)) message = Ok [Sample.parallel_rule])
    as Hm by (vm_compute; reflexivity).
  destruct (route_message_parallel message w Sample.parallel_rule [] Hm eq_refl)
    as (routed & w' & E & Hr & Hi & _).
  exists routed, w'. split; [exact E|]. split.
  - rewrite Hr. vm_compute. reflexivity.
  - rewrite Hi. vm_compute. reflexivity.
Defined.

Lemma enumerate_from_In {A : Type} (i z : Z) (a : A) (xs : list A) :
  In (i, a) (enumerate_from z xs) -> In a xs.
Proof.
  revert z. induction xs as [|x xs IH]; intros z; simpl; [tauto|].
  intros [E|Hin]; [injection E as _ E; now left | right; eapply IH; eauto].
Qed.

(** Every message of an expansion satisfies what each built message does. *)
Lemma expansion_Forall (P : Message.t -> Prop) (rule : RoutingRule.t)
    (message : Message.t) (w : World) :
  (forall step acc ts,
      In (snd step) (available_agents rule (router w)) ->
      P (sequential_message message
           (List.length (available_agents rule (router w))) step acc ts)) ->
  (forall agent_id acc ts,
      In agent_id (available_agents rule (router w)) ->
      P (parallel_message message agent_id acc ts)) ->
  (forall agent_id acc ts,
      In agent_id (Dict.keys (agents (router w))) ->
      P (broadcast_message message agent_id acc ts)) ->
  Forall P (expansion rule message w).
Proof.
  intros Hseq Hpar Hbro. unfold expansion.
  assert (forall (A : Type) (mk : A -> list Message.t -> datetime -> Message.t)
                 (Q : A -> Prop) xs acc clk k,
             (forall x a ts, Q x -> P (mk x a ts)) ->
             Forall Q xs -> Forall P acc -> Forall P (append_each mk xs acc clk k)) as G.
  { intros A mk Q xs. induction xs as [|x xs IH]; intros acc clk k HP HQ Hacc; simpl.
    - exact Hacc.
    - apply IH; [exact HP | now apply Forall_inv_tail in HQ |].
      apply Forall_app. split; [exact Hacc|].
      constructor; [|constructor]. apply HP. now apply Forall_inv in HQ. }
  destruct (RoutingRule.strategy rule).
  - apply (G _ _ (fun step => In (snd step) (available_agents rule (router w))));
      [intros; now apply Hseq | | constructor].
    apply Forall_forall. intros [i a] Hin. simpl.
    now apply enumerate_from_In in Hin.
  - apply (G _ _ (fun a => In a (available_agents rule (router w))));
      [intros; now apply Hpar | | constructor].
    now apply Forall_forall.
  - constructor.
  - apply (G _ _ (fun a => In a (Dict.keys (agents (router w)))));
      [intros; now apply Hbro | | constructor].
    now apply Forall_forall.
Qed.

(** X3. Every derived message repeats the sender, kind, content and
    priority of the original message, and the original's metadata under
    every key that the strategy does not write itself: a caller's own
    entries travel with the derived messages. *)
Theorem derived_messages_inherit (message : Message.t) (w : World)
    (rule : RoutingRule.t) (rest : list RoutingRule.t) :
  matching_rules (routing_rules (router w)) message = Ok (rule :: rest) ->
  exists routed w',
    route_message message w = (Ok routed, w') /\
    Forall (fun m =>
              Message.sender m = Message.sender message /\
              Message.message_type m = Message.message_type message /\
              Message.content m = Message.content message /\
              Message.priority m = Message.priority message /\
              forall key, ~ In key (written_keys (RoutingRule.strategy rule)) ->
                Dict.get key (Message.metadata m) =
                Dict.get key (Message.metadata message))
      routed.
Proof.
  intros Hm.
  destruct (available_agents rule (router w)) as [|a0 avail] eqn:Eav.
  - rewrite (route_message_no_agent _ _ _ _ Hm Eav). exists [], w. split; auto.
  - assert (available_agents rule (router w) <> []) as Hne by (rewrite Eav; discriminate).
    rewrite (route_message_fires _ _ _ _ Hm Hne).
    eexists _, _. split; [reflexivity|].
    assert (forall key k', key <> k' -> pystr_eqb key k' = false) as Hneq
      by (intros; now apply pystr_eqb_neq).
    unfold expansion.
    destruct (RoutingRule.strategy rule) eqn:Hs.
    + apply append_each_Forall; [|constructor]. intros step acc ts.
      cbn [sequential_message Message.sender Message.message_type Message.content
           Message.priority Message.metadata].
      repeat split. intros key Hk. simpl in Hk.
      rewrite !Dict_get_set_ne; [reflexivity | | |]; apply Hneq; intros ->; tauto.
    + apply append_each_Forall; [|constructor]. intros agent_id acc ts.
      cbn [parallel_message Message.sender Message.message_type Message.content
           Message.priority Message.metadata].
      repeat split. intros key Hk. simpl in Hk.
      rewrite !Dict_get_set_ne; [reflexivity | |]; apply Hneq; intros ->; tauto.
    + constructor.
    + apply append_each_Forall; [|constructor]. intros agent_id acc ts.
      cbn [broadcast_message Message.sender Message.message_type Message.content
           Message.priority Message.metadata].
      repeat split. intros key Hk. simpl in Hk.
      rewrite Dict_get_set_ne; [reflexivity|]. apply Hneq; intros ->; tauto.
Qed.

(** A message that carries [parallel: True] and a trace id, under a
    sequential rule: both entries are on the derived messages. *)
Lemma derived_messages_inherit_witness :
  let w := Sample.world Sample.test_router in
  let message := Fixture.message "m8" TASK "Обработать последовательно" in
  exists routed w',
    route_message message w = (Ok routed, w') /\
    Forall (fun m =>
              Message.priority m = 3 /\
              Dict.get (py "parallel") (Message.metadata m) = Some (MBool true) /\
              Dict.get (py "trace") (Message.metadata m) = Some (MStr (py "t-1")))
      routed.
Proof.
  intros w message.
  assert (matching_rules (routing_rules (router w)) message = Ok [Sample.sequential_rule])
    as Hm by (vm_compute; reflexivity).
  destruct (derived_messages_inherit message w Sample.sequential_rule [] Hm)
    as (routed & w' & E & H).
  exists routed, w'. split; [exact E|].
  eapply Forall_impl; [|exact H]. cbv beta.
  intros m (_ & _ & _ & Hp & Hk). split; [exact Hp|]. split.
  - rewrite Hk; [reflexivity|]. vm_compute. intuition discriminate.
  - rewrite Hk; [reflexivity|]. vm_compute. intuition discriminate.
Defined.

(* ================================================================== *)
(** ** From routing to processing *)
(* ================================================================== *)

Lemma available_agents_registered (rule : RoutingRule.t) (self : AgentRouter)
    (agent_id : pystr) :
  In agent_id (available_agents rule self) ->
  exists agent, Dict.get agent_id (agents self) = Some agent.
Proof.
  unfold available_agents. intros H. apply filter_In in H as [_ H].
  now apply Dict_mem_get.
Qed.

(** X4. Every message [route_message] derives is addressed to one agent,
    and that agent is registered.  So [process_message] on a derived message
    never fails for want of a recipient or of an agent: it returns the
    agent's RESULT, or, when the agent's own [process] raises an
    [Exception], an ERROR with that exception's text; either way the
    response names the agent as sender and the derived message's id as
    [original_message_id].  What the agent raises that is no [Exception] is
    raised by [process_message] too. *)
Theorem derived_messages_reach_agents (message : Message.t) (w : World)
    (rule : RoutingRule.t) (rest : list RoutingRule.t) :
  matching_rules (routing_rules (router w)) message = Ok (rule :: rest) ->
  exists routed w',
    route_message message w = (Ok routed, w') /\
    Forall (fun m =>
              exists agent_id agent,
                Message.recipients m = [agent_id] /\
                Dict.get agent_id (agents (router w')) = Some agent /\
                agent_outcome w' m agent_id (process agent (Message.content message)))
      routed.
Proof.
  intros Hm.
  destruct (available_agents rule (router w)) as [|a0 avail] eqn:Eav.
  - rewrite (route_message_no_agent _ _ _ _ Hm Eav). exists [], w. split; auto.
  - assert (available_agents rule (router w) <> []) as Hne by (rewrite Eav; discriminate).
    rewrite (route_message_fires _ _ _ _ Hm Hne).
    eexists _, _. split; [reflexivity|].
    set (w' := with_stats _ _).
    assert (forall m agent_id agent,
               Message.recipients m = [agent_id] ->
               Message.content m = Message.content message ->
               Dict.get agent_id (agents (router w)) = Some agent ->
               exists agent_id agent,
                 Message.recipients m = [agent_id] /\
                 Dict.get agent_id (agents (router w')) = Some agent /\
                 agent_outcome w' m agent_id (process agent (Message.content message)))
      as Hgo.
    { intros m agent_id agent Hr Hc Hg.
      exists agent_id, agent. split; [exact Hr|]. split; [exact Hg|].
      unfold agent_outcome.
      destruct (process agent (Message.content message)) as [result|e] eqn:Hp.
      - assert (process_success w' m agent_id agent result) as Hs
          by (split; [now exists [] | split; [exact Hg | now rewrite Hc]]).
        rewrite (process_message_succeeds _ _ _ _ _ Hs).
        eexists _, _. split; [reflexivity|].
        cbn [result_response Message.sender Message.metadata Message.message_type
             Message.content].
        split; [reflexivity|]. split; [|auto].
        rewrite !Dict_get_set_ne by (vm_compute; reflexivity).
        apply Dict_get_set_eq.
      - assert (process_failure w' m e) as Hf
          by (apply (agent_raised w' m agent_id [] agent e Hr Hg); now rewrite Hc).
        destruct (isinstance_Exception e) eqn:He.
        + rewrite (process_message_fails _ _ _ Hf He).
          eexists _, _. split; [reflexivity|].
          cbn [error_response Message.sender Message.metadata Message.message_type
               Message.content].
          rewrite Hr. split; [reflexivity|]. split; [|auto].
          rewrite !Dict_get_set_ne by (vm_compute; reflexivity).
          apply Dict_get_set_eq.
        + apply (process_message_propagates _ _ _ Hf He). }
    apply expansion_Forall.
    + intros step acc ts Hin.
      destruct (available_agents_registered _ _ _ Hin) as [agent Hg].
      now apply (Hgo _ (snd step) agent).
    + intros agent_id acc ts Hin.
      destruct (available_agents_registered _ _ _ Hin) as [agent Hg].
      now apply (Hgo _ agent_id agent).
    + intros agent_id acc ts Hin.
      apply Dict_keys_get in Hin as [agent Hg].
      now apply (Hgo _ agent_id agent).
Qed.

Lemma derived_messages_reach_agents_witness :
  let w := Sample.world Sample.test_router in
  let message := Sample.task "m7" "user" [] "Обработать последовательно" in
  exists routed w',
    route_message message w = (Ok routed, w') /\
    Forall (fun m =>
              exists agent_id agent,
                Message.recipients m = [agent_id] /\
                Dict.get agent_id (agents (router w')) = Some agent /\
                agent_outcome w' m agent_id (process agent (Message.content message)))
      routed.
Proof.
  intros w message.
  assert (matching_rules (routing_rules (router w)) message = Ok [Sample.sequential_rule])
    as Hm by (vm_compute; reflexivity).
  exact (derived_messages_reach_agents message w Sample.sequential_rule [] Hm).
Defined.

(* ================================================================== *)
(** ** A condition that raises *)
(* ================================================================== *)

Lemma matching_rules_raise (before after : list RoutingRule.t) (r : RoutingRule.t)
    (message : Message.t) (e : Exc) :
  Forall (fun r' => exists b, RoutingRule.condition r' message = Ok b) before ->
  RoutingRule.condition r message = Raise e ->
  matching_rules (before ++ r :: after) message = Raise e.
Proof.
  intros Hb Hr. induction Hb as [|r' before [b Hr'] _ IH]; simpl.
  - now rewrite Hr.
  - now rewrite Hr', IH.
Qed.

(** X5. The conditions of all rules are called on every message.  When one
    of them raises an [Exception], [route_message] returns the empty list,
    counts one error and routes nothing, also when a rule before it, of
    higher priority, matches the message; when it raises what is no
    [Exception], [route_message] raises it and counts nothing. *)
Theorem route_message_condition_raises (message : Message.t) (w : World)
    (before after : list RoutingRule.t) (r : RoutingRule.t) (e : Exc) :
  routing_rules (router w) = before ++ r :: after ->
  Forall (fun r' => exists b, RoutingRule.condition r' message = Ok b) before ->
  RoutingRule.condition r message = Raise e ->
  if isinstance_Exception e
  then exists w',
         route_message message w = (Ok [], w') /\
         errors (stats (router w')) = errors (stats (router w)) + 1 /\
         messages_routed (stats (router w')) = messages_routed (stats (router w)) /\
         ticks w' = ticks w
  else route_message message w = (Raise e, w).
Proof.
  intros Hr Hb He.
  assert (matching_rules (routing_rules (router w)) message = Raise e) as Hm
    by (rewrite Hr; now apply matching_rules_raise).
  destruct (isinstance_Exception e) eqn:Hc.
  - rewrite (route_message_raised _ _ _ Hm Hc). eexists. split; [reflexivity|].
    simpl. auto.
  - apply (route_message_propagates _ _ _ Hm Hc).
Qed.

(** The parallel rule of priority 9 matches, and a rule of priority 1 has a
    condition that raises, [KeyError] in the first world and
    [KeyboardInterrupt] in the second. *)
Lemma route_message_condition_raises_witness :
  let rule := {| RoutingRule.condition := Sample.broken;
                 RoutingRule.target_agents := [py "analyst"];
                 RoutingRule.strategy := PARALLEL;
                 RoutingRule.priority := 1;
                 RoutingRule.description := py "broken" |} in
  let interrupted := {| RoutingRule.condition := Sample.interrupted;
                        RoutingRule.target_agents := [py "analyst"];
                        RoutingRule.strategy := PARALLEL;
                        RoutingRule.priority := 1;
                        RoutingRule.description := py "interrupted" |} in
  let w := Sample.world (add_routing_rule rule Sample.test_router) in
  let w2 := Sample.world (add_routing_rule interrupted Sample.test_router) in
  let message := Sample.task "t3" "system" [] "Обработать параллельно" in
  RoutingRule.condition Sample.parallel_rule message = Ok true /\
  (exists w',
     route_message message w = (Ok [], w') /\
     errors (stats (router w')) = errors (stats (router w)) + 1 /\
     messages_routed (stats (router w')) = messages_routed (stats (router w)) /\
     ticks w' = ticks w) /\
  route_message message w2 =
    (Raise (mkBaseException (py "KeyboardInterrupt") (py "")), w2).
Proof.
  intros rule interrupted w w2 message. split; [vm_compute; reflexivity|].
  assert (Forall (fun r' => exists b, RoutingRule.condition r' message = Ok b)
            [Sample.sequential_rule; Sample.parallel_rule; Sample.broadcast_rule;
             Sample.conditional_rule]) as Hb
    by (repeat constructor; eexists; vm_compute; reflexivity).
  split.
  - exact (route_message_condition_raises message w
             [Sample.sequential_rule; Sample.parallel_rule; Sample.broadcast_rule;
              Sample.conditional_rule] [] rule
             (mkExc (py "KeyError") (py "'topic'")) eq_refl Hb eq_refl).
  - exact (route_message_condition_raises message w2
             [Sample.sequential_rule; Sample.parallel_rule; Sample.broadcast_rule;
              Sample.conditional_rule] [] interrupted
             (mkBaseException (py "KeyboardInterrupt") (py "")) eq_refl Hb eq_refl).
Defined.

(* ================================================================== *)
(** ** Only the first recipient is served *)
(* ================================================================== *)

(** X6. [process_message] reads the first recipient only: a message with
    several recipients gets the response, and leaves the router in the
    state, that the same message addressed to the first of them alone
    does.  The other recipients are never looked up or called. *)
Theorem process_message_first_recipient (message : Message.t) (w : World)
    (agent_id : pystr) (others : list pystr) :
  Message.recipients message = agent_id :: others ->
  process_message message w = process_message (with_recipients [agent_id] message) w.
Proof.
  intros Hr.
  destruct (Dict.get agent_id (agents (router w))) as [agent|] eqn:Hg.
  - destruct (process agent (Message.content message)) as [result|e] eqn:Hp.
    + assert (process_success w message agent_id agent result) as H1
        by (split; [now exists others | auto]).
      assert (process_success w (with_recipients [agent_id] message) agent_id agent result)
        as H2 by (split; [now exists [] | auto]).
      rewrite (process_message_succeeds _ _ _ _ _ H1).
      rewrite (process_message_succeeds _ _ _ _ _ H2). reflexivity.
    + assert (process_failure w message e) as H1
        by (now apply (agent_raised w message agent_id others agent e)).
      assert (process_failure w (with_recipients [agent_id] message) e) as H2
        by (now apply (agent_raised w _ agent_id [] agent e)).
      destruct (isinstance_Exception e) eqn:He.
      * rewrite (process_message_fails _ _ _ H1 He), (process_message_fails _ _ _ H2 He).
        unfold error_response. rewrite Hr. reflexivity.
      * now rewrite (process_message_propagates _ _ _ H1 He),
          (process_message_propagates _ _ _ H2 He).
  - assert (process_failure w message
              (ValueError (py "Агент " ++ agent_id ++ py " не найден"))) as H1
      by (now apply (agent_not_registered w message agent_id others)).
    assert (process_failure w (with_recipients [agent_id] message)
              (ValueError (py "Агент " ++ agent_id ++ py " не найден"))) as H2
      by (now apply (agent_not_registered w _ agent_id [])).
    rewrite (process_message_fails _ _ _ H1 eq_refl),
      (process_message_fails _ _ _ H2 eq_refl).
    unfold error_response. rewrite Hr. reflexivity.
Qed.

(** A message for "analyst" and for "ghost", who is not registered. *)
Lemma process_message_first_recipient_witness :
  let w := Sample.world Sample.two_agents in
  let message := Sample.task "m1" "user" [py "analyst"; py "ghost"] "Проанализируй" in
  process_message message w =
  process_message (Sample.task "m1" "user" [py "analyst"] "Проанализируй") w.
Proof.
  intros w message.
  exact (process_message_first_recipient message w (py "analyst") [py "ghost"] eq_refl).
Defined.

(* ================================================================== *)
(** ** Processing a list of messages in sequence *)
(* ================================================================== *)

Lemma count_kind_app (kind : MessageType) (a b : list Message.t) :
  count_kind kind (a ++ b) = count_kind kind a + count_kind kind b.
Proof.
  unfold count_kind. rewrite filter_app, length_app. lia.
Qed.

(** [handled] says that every exception of the call is an [Exception]. *)
Lemma handled_spec (w : World) (m : Message.t) :
  handled w m = true <->
  (forall e, process_failure w m e -> isinstance_Exception e = true).
Proof.
  unfold handled. split.
  - intros H e [Hr | a r Hr Hg | a r ag e' Hr Hg Hp]; try reflexivity.
    rewrite Hr, Hg, Hp in H. exact H.
  - intros H. destruct (Message.recipients m) as [|a r] eqn:Hr; [reflexivity|].
    destruct (Dict.get a (agents (router w))) as [ag|] eqn:Hg; [|reflexivity].
    destruct (process ag (Message.content m)) as [res|e] eqn:Hp; [reflexivity|].
    apply H. now apply (agent_raised w m a r ag e).
Qed.

Lemma handled_agents (w1 w2 : World) (ms : list Message.t) :
  agents (router w1) = agents (router w2) ->
  forallb (handled w1) ms = forallb (handled w2) ms.
Proof.
  intros H. induction ms as [|m ms IH]; [reflexivity|].
  cbn [forallb]. rewrite IH. unfold handled. now rewrite H.
Qed.

Lemma process_failure_agents (w1 w2 : World) (m : Message.t) (e : Exc) :
  agents (router w1) = agents (router w2) ->
  process_failure w1 m e -> process_failure w2 m e.
Proof.
  intros H [Hr | a r Hr Hg | a r ag e' Hr Hg Hp].
  - now apply no_recipient.
  - rewrite H in Hg. now apply (agent_not_registered w2 m a r).
  - rewrite H in Hg. now apply (agent_raised w2 m a r ag e').
Qed.

Lemma for_each_app {A S : Type} (xs ys : list A) (body : A -> S -> M S) (acc : S)
    (w : World) :
  for_each (xs ++ ys) body acc w =
  match for_each xs body acc w with
  | (Ok acc', w') => for_each ys body acc' w'
  | (Raise e, w') => (Raise e, w')
  end.
Proof.
  revert acc w. induction xs as [|x xs IH]; intros acc w; [reflexivity|].
  cbn [app for_each]. unfold bind.
  destruct (body x acc w) as [[acc'|e] w1]; [apply IH | reflexivity].
Qed.

(** One call: a response of kind RESULT or ERROR, counted accordingly. *)
Lemma process_message_step (m : Message.t) (w : World) :
  handled w m = true ->
  exists response w',
    process_message m w = (Ok response, w') /\
    Dict.get (py "original_message_id") (Message.metadata response) =
      Some (MStr (Message.id m)) /\
    messages_processed (stats (router w')) =
      messages_processed (stats (router w)) + count_kind RESULT [response] /\
    errors (stats (router w')) = errors (stats (router w)) + count_kind ERROR [response] /\
    count_kind RESULT [response] + count_kind ERROR [response] = 1 /\
    messages_routed (stats (router w')) = messages_routed (stats (router w)) /\
    agents (router w') = agents (router w) /\
    routing_rules (router w') = routing_rules (router w) /\
    message_history (router w') = message_history (router w).
Proof.
  intros Hh.
  destruct (process_message_cases m w) as [(agent_id & agent & result & Hs) | (e & Hf)].
  - rewrite (process_message_succeeds _ _ _ _ _ Hs). eexists _, _.
    split; [reflexivity|]. split.
    + cbn [result_response Message.metadata].
      rewrite !Dict_get_set_ne by (vm_compute; reflexivity). apply Dict_get_set_eq.
    + unfold count_kind. cbn. repeat split; try reflexivity; lia.
  - rewrite (process_message_fails _ _ _ Hf (proj1 (handled_spec w m) Hh e Hf)).
    eexists _, _.
    split; [reflexivity|]. split.
    + cbn [error_response Message.metadata].
      rewrite !Dict_get_set_ne by (vm_compute; reflexivity). apply Dict_get_set_eq.
    + unfold count_kind. cbn. repeat split; try reflexivity; lia.
Qed.

(** The loop over messages whose calls raise nothing outside [Exception]. *)
Lemma process_sequentially_handled (routed_messages : list Message.t) (w : World) :
  forallb (handled w) routed_messages = true ->
  exists responses w',
    process_sequentially routed_messages w = (Ok tt, w') /\
    message_history (router w') = message_history (router w) ++ responses /\
    map (fun r => Dict.get (py "original_message_id") (Message.metadata r)) responses =
      map (fun m => Some (MStr (Message.id m))) routed_messages /\
    messages_processed (stats (router w')) =
      messages_processed (stats (router w)) + count_kind RESULT responses /\
    errors (stats (router w')) = errors (stats (router w)) + count_kind ERROR responses /\
    count_kind RESULT responses + count_kind ERROR responses =
      Z.of_nat (List.length routed_messages) /\
    messages_routed (stats (router w')) = messages_routed (stats (router w)) /\
    agents (router w') = agents (router w) /\
    routing_rules (router w') = routing_rules (router w).
Proof.
  unfold process_sequentially.
  revert w. induction routed_messages as [|m ms IH]; intros w Hall.
  - exists [], w. simpl. rewrite app_nil_r, !Z.add_0_r. unfold ret. auto 10.
  - cbn [forallb] in Hall. apply andb_true_iff in Hall as [Hm Hms].
    destruct (process_message_step m w Hm)
      as (response & w1 & E1 & Hid & Hp & He & Hk & Hr & Ha & Hrl & Hh).
    cbn [for_each]. unfold bind at 1. unfold bind at 1. rewrite E1.
    unfold append_history at 1.
    set (w2 := mkWorld _ _ _ _).
    assert (agents (router w) = agents (router w2)) as Hag
      by (subst w2; cbn [router agents]; now rewrite Ha).
    rewrite (handled_agents w w2 ms Hag) in Hms.
    destruct (IH w2 Hms)
      as (responses & w' & E & Hh' & Hid' & Hp' & He' & Hk' & Hr' & Ha' & Hrl').
    exists (response :: responses), w'.
    split; [exact E|].
    change (response :: responses) with ([response] ++ responses).
    rewrite !count_kind_app.
    subst w2. simpl in *.
    rewrite Hh', Hp', He', Hr', Ha', Hrl', Hh, Hp, He, Hid, Hid', <- app_assoc.
    repeat split; try reflexivity; try assumption; lia.
Qed.

(** X7. The sequential branch of the processing loop, as long as no call of
    an agent raises outside [Exception] ([handled]), appends to the history
    exactly one response per message, in the order of the messages, each
    naming its message as [original_message_id]; [messages_processed] grows
    by the number of RESULT responses and [errors] by the number of ERROR
    responses, which together are the number of messages; agents, rules and
    [messages_routed] are untouched.  At the first message whose agent
    raises outside [Exception] (a cancellation, an interrupt) the loop
    raises that exception: the responses to the messages before it are in
    the history, the messages after it are not processed. *)
Theorem process_sequentially_appends (routed_messages : list Message.t) (w : World) :
  (forallb (handled w) routed_messages = true ->
   exists responses w',
     process_sequentially routed_messages w = (Ok tt, w') /\
     message_history (router w') = message_history (router w) ++ responses /\
     map (fun r => Dict.get (py "original_message_id") (Message.metadata r)) responses =
       map (fun m => Some (MStr (Message.id m))) routed_messages /\
     messages_processed (stats (router w')) =
       messages_processed (stats (router w)) + count_kind RESULT responses /\
     errors (stats (router w')) = errors (stats (router w)) + count_kind ERROR responses /\
     count_kind RESULT responses + count_kind ERROR responses =
       Z.of_nat (List.length routed_messages) /\
     messages_routed (stats (router w')) = messages_routed (stats (router w)) /\
     agents (router w') = agents (router w) /\
     routing_rules (router w') = routing_rules (router w)) /\
  (forall before m after e,
     routed_messages = before ++ m :: after ->
     forallb (handled w) before = true ->
     process_failure w m e ->
     isinstance_Exception e = false ->
     exists responses w',
       process_sequentially routed_messages w = (Raise e, w') /\
       message_history (router w') = message_history (router w) ++ responses /\
       map (fun r => Dict.get (py "original_message_id") (Message.metadata r)) responses =
         map (fun m => Some (MStr (Message.id m))) before).
Proof.
  split; [apply process_sequentially_handled|].
  intros before m after e -> Hall Hf He.
  destruct (process_sequentially_handled before w Hall)
    as (responses & w1 & E & Hh & Hid & _ & _ & _ & _ & Ha & _).
  unfold process_sequentially in *.
  rewrite for_each_app, E. cbn [for_each]. unfold bind at 1. unfold bind at 1.
  rewrite (process_message_propagates m w1 e
             (process_failure_agents w w1 m e (eq_sym Ha) Hf) He).
  exists responses, (advance 1 w1). repeat split; assumption.
Qed.

(** Two messages, the second for an agent that raises RuntimeError: two
    responses; three messages, the second for an agent that is cancelled:
    the loop raises after one response. *)
Lemma process_sequentially_appends_witness :
  let w := Sample.world Sample.three_agents in
  let msgs := [Sample.task "m1" "user" [py "analyst"] "a";
               Sample.task "m2" "user" [py "reviewer"] "b"] in
  let w_c := Sample.world Sample.with_cancelled_agent in
  let m_c := Sample.task "m2" "user" [py "slow"] "b" in
  let before := [Sample.task "m1" "user" [py "analyst"] "a"] in
  let after := [Sample.task "m3" "user" [py "coder"] "c"] in
  (forallb (handled w) msgs = true /\
   exists responses w',
     process_sequentially msgs w = (Ok tt, w') /\
     message_history (router w') = message_history (router w) ++ responses /\
     count_kind RESULT responses + count_kind ERROR responses = 2) /\
  (forallb (handled w_c) before = true /\
   handled w_c m_c = false /\
   exists (responses : list Message.t) w',
     process_sequentially (before ++ m_c :: after) w_c =
       (Raise (mkBaseException (py "CancelledError") (py "")), w') /\
     message_history (router w') = message_history (router w_c) ++ responses /\
     List.length responses = 1%nat).
Proof.
  intros w msgs w_c m_c before after. split.
  - split; [vm_compute; reflexivity|].
    destruct (proj1 (process_sequentially_appends msgs w))
      as (responses & w' & E & Hh & _ & _ & _ & Hk & _); [vm_compute; reflexivity|].
    exists responses, w'. repeat split; assumption.
  - split; [vm_compute; reflexivity|]. split; [vm_compute; reflexivity|].
    destruct (proj2 (process_sequentially_appends (before ++ m_c :: after) w_c)
                before m_c after (mkBaseException (py "CancelledError") (py ""))
                eq_refl)
      as (responses & w' & E & Hh & Hid); [vm_compute; reflexivity| |reflexivity|].
    + apply (agent_raised w_c m_c (py "slow") [] Sample.cancelled_agent);
        vm_compute; reflexivity.
    + exists responses, w'. split; [exact E|]. split; [exact Hh|].
      apply (f_equal (@List.length (option MetaVal))) in Hid. rewrite !length_map in Hid. exact Hid.
Defined.

(* ================================================================== *)
(** ** Reading the history *)
(* ================================================================== *)

(** X8. [get_message_history(limit)] with a positive limit returns the last
    [limit] messages of the history, in order, or the whole history when it
    has no more than [limit] messages. *)
Theorem get_message_history_last (limit : Z) (self : AgentRouter) :
  0 < limit ->
  exists earlier,
    message_history self = earlier ++ get_message_history limit self /\
    Z.of_nat (List.length (get_message_history limit self)) =
      Z.min limit (Z.of_nat (List.length (message_history self))) /\
    (Z.of_nat (List.length (message_history self)) <= limit ->
     get_message_history limit self = message_history self).
Proof.
  intros Hl. unfold get_message_history, slice_from.
  replace (limit =? 0) with false by (symmetry; apply Z.eqb_neq; lia).
  replace (- limit <? 0) with true by (symmetry; apply Z.ltb_lt; lia).
  set (h := message_history self).
  set (k := Z.to_nat (Z.max (- limit + Z.of_nat (List.length h)) 0)).
  exists (firstn k h). split; [now rewrite firstn_skipn|]. split.
  - rewrite length_skipn. unfold k. lia.
  - intros Hle. replace k with 0%nat by (unfold k; lia). reflexivity.
Qed.

Lemma get_message_history_last_witness :
  let self := Fixture.with_history
                [Fixture.message "a" TASK "x"; Fixture.message "b" TASK "x";
                 Fixture.message "c" TASK "x"; Fixture.message "d" TASK "x"] in
  map Message.id (get_message_history 2 self) = [py "c"; py "d"] /\
  get_message_history 9 self = message_history self.
Proof.
  intros self.
  destruct (get_message_history_last 2 self ltac:(lia)) as (earlier & _ & _ & _).
  destruct (get_message_history_last 9 self ltac:(lia)) as (_ & _ & _ & H9).
  split; [vm_compute; reflexivity|].
  apply H9. vm_compute. discriminate.
Defined.

(** X9. A limit of 0 does not give an empty list: 0 is false for the test
    [if limit], and the whole history is returned.  A negative limit [-n]
    gives the history without its first [n] messages, which is what the
    slice [history[n:]] is. *)
Theorem get_message_history_zero_negative (limit : Z) (self : AgentRouter) :
  limit <= 0 ->
  get_message_history limit self = skipn (Z.to_nat (- limit)) (message_history self) /\
  (limit = 0 -> get_message_history limit self = message_history self) /\
  Z.of_nat (List.length (get_message_history limit self)) =
    Z.max (Z.of_nat (List.length (message_history self)) + limit) 0.
Proof.
  intros Hl. unfold get_message_history, slice_from.
  destruct (limit =? 0) eqn:E0.
  - apply Z.eqb_eq in E0. subst. simpl. repeat split. lia.
  - apply Z.eqb_neq in E0.
    replace (- limit <? 0) with false by (symmetry; apply Z.ltb_ge; lia).
    set (h := message_history self).
    assert (skipn (Z.to_nat (Z.min (- limit) (Z.of_nat (List.length h)))) h
            = skipn (Z.to_nat (- limit)) h) as Es.
    { destruct (Z.le_gt_cases (- limit) (Z.of_nat (List.length h))) as [H|H].
      - now rewrite Z.min_l by lia.
      - rewrite Z.min_r by lia. rewrite Nat2Z.id.
        rewrite skipn_all. symmetry. apply skipn_all2. lia. }
    rewrite Es. split; [reflexivity|]. split; [lia|].
    rewrite length_skipn. lia.
Qed.

Lemma get_message_history_zero_negative_witness :
  let self := Fixture.with_history
                [Fixture.message "a" TASK "x"; Fixture.message "b" TASK "x";
                 Fixture.message "c" TASK "x"; Fixture.message "d" TASK "x"] in
  map Message.id (get_message_history 0 self) = [py "a"; py "b"; py "c"; py "d"] /\
  map Message.id (get_message_history (-1) self) = [py "b"; py "c"; py "d"] /\
  get_message_history (-7) self = [].
Proof.
  intros self.
  destruct (get_message_history_zero_negative 0 self ltac:(lia)) as (_ & H0 & _).
  destruct (get_message_history_zero_negative (-1) self ltac:(lia)) as (H1 & _).
  destruct (get_message_history_zero_negative (-7) self ltac:(lia)) as (H7 & _).
  rewrite (H0 eq_refl), H1, H7. vm_compute. repeat split.
Defined.

(* ================================================================== *)
(** ** What the default rules do with a message *)
(* ================================================================== *)

Lemma matching_rules_head (r : RoutingRule.t) (rs : list RoutingRule.t)
    (message : Message.t) :
  RoutingRule.condition r message = Ok true ->
  Forall (fun r' => exists b, RoutingRule.condition r' message = Ok b) rs ->
  exists rest, matching_rules (r :: rs) message = Ok (r :: rest).
Proof.
  intros Hr Hrs.
  assert (exists l, matching_rules rs message = Ok l) as [l Hl].
  { induction Hrs as [|r' rs [b Hb] _ [l IH]]; simpl; [eauto|].
    rewrite Hb, IH. eauto. }
  exists l. simpl. now rewrite Hr, Hl.
Qed.

Section DefaultRulesDispatch.

Variable lower : pystr -> pystr.

(** The default rules of a fresh router, in the order the sort leaves them
    in. *)
Lemma default_routing_rules_order :
  exists d1 d2 d3 d4 d5 d6 d7,
    default_routing_rules lower =
    [ RoutingRule.mk (is_data_analysis lower) [py "analyst"] SEQUENTIAL 10 d1;
      RoutingRule.mk (is_code_generation lower) [py "coder"] SEQUENTIAL 10 d2;
      RoutingRule.mk (is_code_review lower) [py "reviewer"] SEQUENTIAL 9 d3;
      RoutingRule.mk (is_project_management lower) [py "manager"] SEQUENTIAL 8 d4;
      RoutingRule.mk (is_idea_generation lower) [py "ideator"] SEQUENTIAL 7 d5;
      RoutingRule.mk (is_quality_assessment lower) [py "assessor"] SEQUENTIAL 6 d6;
      RoutingRule.mk is_complex_task [py "analyst"; py "coder"; py "reviewer"]
        SEQUENTIAL 5 d7 ].
Proof. do 7 eexists. reflexivity. Qed.

(** X10. A router holding the default rules routes no message whose kind is
    not TASK, whatever its content: RESULT, ERROR, CONTROL and DATA
    messages all get the empty list. *)
Theorem default_rules_task_only (message : Message.t) (w : World) :
  routing_rules (router w) = default_routing_rules lower ->
  Message.message_type message <> TASK ->
  route_message message w = (Ok [], w).
Proof.
  intros Hr Hk. apply route_message_no_match. rewrite Hr.
  apply matching_rules_none.
  destruct default_routing_rules_order as (d1 & d2 & d3 & d4 & d5 & d6 & d7 & ->).
  assert (Kind_eqb (Message.message_type message) TASK = false) as E
    by (destruct (Message.message_type message) as [[]|]; try reflexivity; congruence).
  repeat constructor; simpl;
    unfold is_data_analysis, is_code_generation, is_code_review,
      is_project_management, is_idea_generation, is_quality_assessment,
      is_complex_task;
    now rewrite E.
Qed.

(** X11. Under the default rules a TASK message with one of the data analysis
    keywords in its lower-cased text is decided by the data analysis rule,
    whatever other keywords it has: with "analyst" registered it becomes
    one message for "analyst", step 1 of 1; with "analyst" not registered it
    is routed to nobody, because no later rule is tried. *)
Theorem default_rules_data_analysis (message : Message.t) (w : World) :
  routing_rules (router w) = default_routing_rules lower ->
  Message.message_type message = TASK ->
  any_keyword_in lower data_analysis_keywords message = true ->
  (Dict.mem (py "analyst") (agents (router w)) = true ->
   exists m w',
     route_message message w = (Ok [m], w') /\
     Message.recipients m = [py "analyst"] /\
     Message.id m = Message.id message ++ py "_to_" ++ py "analyst" /\
     Dict.get (py "step") (Message.metadata m) = Some (MInt 1) /\
     Dict.get (py "total_steps") (Message.metadata m) = Some (MInt 1) /\
     Dict.get (py "previous_results") (Message.metadata m) = Some (MContents [])) /\
  (Dict.mem (py "analyst") (agents (router w)) = false ->
   route_message message w = (Ok [], w)).
Proof.
  intros Hr Hk Hkw.
  destruct default_routing_rules_order as (d1 & d2 & d3 & d4 & d5 & d6 & d7 & Ho).
  rewrite Ho in Hr.
  match type of Hr with _ = ?r :: ?rs =>
    assert (exists rest, matching_rules (r :: rs) message = Ok (r :: rest)) as [rest Hm]
  end.
  { apply matching_rules_head.
    - simpl. unfold is_data_analysis. now rewrite Hk, Hkw.
    - repeat constructor; eexists; reflexivity. }
  rewrite <- Hr in Hm.
  split; intros Hreg.
  - match type of Hm with _ = Ok (?r :: _) =>
      assert (available_agents r (router w) = [py "analyst"]) as Hav
        by (unfold available_agents; simpl; now rewrite Hreg)
    end.
    rewrite (route_message_fires _ _ _ _ Hm) by (rewrite Hav; discriminate).
    unfold expansion. rewrite Hav. simpl.
    eexists _, _. split; [reflexivity|].
    cbn [sequential_message Message.recipients Message.id Message.metadata fst snd].
    repeat split.
    + rewrite !Dict_get_set_ne by (vm_compute; reflexivity). apply Dict_get_set_eq.
    + rewrite Dict_get_set_ne by (vm_compute; reflexivity). apply Dict_get_set_eq.
    + apply Dict_get_set_eq.
  - apply (route_message_no_agent _ _ _ _ Hm).
    unfold available_agents. simpl. now rewrite Hreg.
Qed.

(** X12. Under the default rules a TASK message of more than 200 characters
    with none of the keywords goes down the chain "analyst", "coder",
    "reviewer": one message for each of the three that is registered, in
    that order, numbered from 1. *)
Theorem default_rules_complex_task (message : Message.t) (w : World) :
  routing_rules (router w) = default_routing_rules lower ->
  Message.message_type message = TASK ->
  (forall keyword, In keyword configured_keywords ->
     is_substring keyword (lower (py_str (Message.content message))) = false) ->
  200 < len (py_str (Message.content message)) ->
  let chain := filter (fun agent_id => Dict.mem agent_id (agents (router w)))
                 [py "analyst"; py "coder"; py "reviewer"] in
  exists routed w',
    route_message message w = (Ok routed, w') /\
    map Message.recipients routed = map (fun agent_id => [agent_id]) chain /\
    map (fun m => Dict.get (py "step") (Message.metadata m)) routed =
      map (fun step => Some (MInt (fst step + 1))) (enumerate chain) /\
    Forall (fun m => Dict.get (py "total_steps") (Message.metadata m) =
                     Some (MInt (Z.of_nat (List.length chain)))) routed.
Proof.
  intros Hr Hk Hkw Hlen chain.
  destruct default_routing_rules_order as (d1 & d2 & d3 & d4 & d5 & d6 & d7 & Ho).
  assert (forall kws, incl kws configured_keywords ->
            any_keyword_in lower kws message = false) as Hany
    by (intros kws Hi; apply any_keyword_in_false; intros k Hk'; apply Hkw, Hi, Hk').
  unfold configured_keywords in Hany.
  set (r7 := RoutingRule.mk is_complex_task [py "analyst"; py "coder"; py "reviewer"]
               SEQUENTIAL 5 d7) in *.
  assert (matching_rules (routing_rules (router w)) message = Ok [r7]) as Hm.
  { assert (is_data_analysis lower message = Ok false) as C1
      by (unfold is_data_analysis; rewrite Hany, andb_false_r;
          [reflexivity | apply incl_appl, incl_refl]).
    assert (is_code_generation lower message = Ok false) as C2
      by (unfold is_code_generation; rewrite Hany, andb_false_r;
          [reflexivity | apply incl_appr, incl_appl, incl_refl]).
    assert (is_code_review lower message = Ok false) as C3
      by (unfold is_code_review; rewrite Hany, andb_false_r;
          [reflexivity | do 2 apply incl_appr; apply incl_appl, incl_refl]).
    assert (is_project_management lower message = Ok false) as C4
      by (unfold is_project_management; rewrite Hany, andb_false_r;
          [reflexivity | do 3 apply incl_appr; apply incl_appl, incl_refl]).
    assert (is_idea_generation lower message = Ok false) as C5
      by (unfold is_idea_generation; rewrite Hany, andb_false_r;
          [reflexivity | do 4 apply incl_appr; apply incl_appl, incl_refl]).
    assert (is_quality_assessment lower message = Ok false) as C6
      by (unfold is_quality_assessment; rewrite Hany, andb_false_r;
          [reflexivity | do 5 apply incl_appr; apply incl_refl]).
    assert (is_complex_task message = Ok true) as C7.
    { unfold is_complex_task. rewrite Hk.
      replace (200 <? len (py_str (Message.content message))) with true
        by (symmetry; now apply Z.ltb_lt).
      reflexivity. }
    rewrite Hr, Ho. unfold r7. cbn [matching_rules RoutingRule.condition].
    now rewrite C1, C2, C3, C4, C5, C6, C7. }
  assert (available_agents r7 (router w) = chain) as Hav by reflexivity.
  destruct chain as [|a0 rest] eqn:Ec.
  - rewrite (route_message_no_agent _ _ _ _ Hm Hav). exists [], w.
    repeat split; constructor.
  - rewrite (route_message_fires _ _ _ _ Hm) by (rewrite Hav; discriminate).
    unfold expansion. rewrite Hav. cbn [RoutingRule.strategy r7].
    eexists _, _. split; [reflexivity|]. split; [|split].
    + rewrite (append_each_map _ Message.recipients (fun step => [snd step]))
        by reflexivity.
      apply (enumerate_from_map_snd (fun agent_id => [agent_id])).
    + rewrite (append_each_map _
                 (fun m => Dict.get (py "step") (Message.metadata m))
                 (fun step => Some (MInt (fst step + 1)))); [reflexivity|].
      intros x acc ts. cbn [sequential_message Message.metadata].
      rewrite !Dict_get_set_ne by (vm_compute; reflexivity). apply Dict_get_set_eq.
    + apply append_each_Forall; [|constructor].
      intros x acc ts. cbn [sequential_message Message.metadata].
      rewrite Dict_get_set_ne by (vm_compute; reflexivity). apply Dict_get_set_eq.
Qed.

(** X13. Each call of [add_default_routing_rules] adds seven rules, also
    when the same rules are there already, keeps every rule that was there,
    and leaves the list sorted by priority whatever it was before. *)
Theorem add_default_routing_rules_grows (self : AgentRouter) :
  List.length (routing_rules (add_default_routing_rules lower self)) =
    (List.length (routing_rules self) + 7)%nat /\
  (forall r, In r (routing_rules self) ->
             In r (routing_rules (add_default_routing_rules lower self))) /\
  priority_sorted (routing_rules (add_default_routing_rules lower self)) /\
  List.length (routing_rules
                 (add_default_routing_rules lower
                    (add_default_routing_rules lower AgentRouter_init))) = 14%nat.
Proof.
  assert (forall s,
             List.length (routing_rules (add_default_routing_rules lower s)) =
             (List.length (routing_rules s) + 7)%nat) as Hlen.
  { intros s.
    destruct (add_default_routing_rules_unfold lower s)
      as (r1 & r2 & r3 & r4 & r5 & r6 & r7 & -> & _).
    rewrite (Permutation_length (add_routing_rules_Permutation _ _)).
    now rewrite length_app. }
  split; [apply Hlen|]. split; [|split].
  - intros r Hin.
    destruct (add_default_routing_rules_unfold lower self)
      as (r1 & r2 & r3 & r4 & r5 & r6 & r7 & -> & _).
    apply (Permutation_in _ (Permutation_sym (add_routing_rules_Permutation _ _))).
    apply in_or_app. now left.
  - apply sort_by_priority_reverse_sorted.
  - rewrite !Hlen. reflexivity.
Qed.

End DefaultRulesDispatch.

Lemma default_rules_task_only_witness :
  let w := Sample.world (add_default_routing_rules lower_basic Sample.two_agents) in
  let message := Fixture.message "r1" RESULT "Анализ данных готов" in
  route_message message w = (Ok [], w).
Proof.
  intros w message.
  apply (default_rules_task_only lower_basic message w); [reflexivity|discriminate].
Defined.

(** "Анализ кода": a data analysis keyword and a code keyword. *)
Lemma default_rules_data_analysis_witness :
  let message := Fixture.message "t9" TASK "Анализ кода" in
  let w1 := Sample.world (add_default_routing_rules lower_basic Sample.two_agents) in
  let w2 := Sample.world
              (add_default_routing_rules lower_basic
                 (register_agent (py "coder") (Sample.mock_agent (py "coder"))
                    AgentRouter_init)) in
  (exists m w', route_message message w1 = (Ok [m], w') /\
                Message.recipients m = [py "analyst"]) /\
  route_message message w2 = (Ok [], w2).
Proof.
  intros message w1 w2.
  assert (any_keyword_in lower_basic data_analysis_keywords message = true) as Hkw
    by (vm_compute; reflexivity).
  split.
  - destruct (default_rules_data_analysis lower_basic message w1 eq_refl eq_refl Hkw)
      as [H _].
    destruct (H ltac:(vm_compute; reflexivity)) as (m & w' & E & Hrc & _).
    exists m, w'. split; [exact E | exact Hrc].
  - destruct (default_rules_data_analysis lower_basic message w2 eq_refl eq_refl Hkw)
      as [_ H].
    apply H. vm_compute. reflexivity.
Defined.

(** A text of 210 characters without any keyword. *)
Lemma default_rules_complex_task_witness :
  let text := ("zzzzzzzzzzzzzzzzzzzzzzzzzzzzzzzzzzzzzzzzzzzzzzzzzzzzzzzzzzzzzzzzzzzzzz" ++
               "zzzzzzzzzzzzzzzzzzzzzzzzzzzzzzzzzzzzzzzzzzzzzzzzzzzzzzzzzzzzzzzzzzzzzz" ++
               "zzzzzzzzzzzzzzzzzzzzzzzzzzzzzzzzzzzzzzzzzzzzzzzzzzzzzzzzzzzzzzzzzzzzzz")%string in
  let message := Fixture.message "big" TASK text in
  let w := Sample.world (add_default_routing_rules lower_basic Sample.two_agents) in
  exists routed w',
    route_message message w = (Ok routed, w') /\
    map Message.recipients routed = [[py "analyst"]; [py "coder"]] /\
    map (fun m => Dict.get (py "step") (Message.metadata m)) routed =
      [Some (MInt 1); Some (MInt 2)].
Proof.
  intros text message w.
  assert (forall keyword, In keyword configured_keywords ->
            is_substring keyword (lower_basic (py_str (Message.content message))) = false)
    as Hkw.
  { intros keyword Hin. vm_compute in Hin.
    repeat (destruct Hin as [<-|Hin]; [vm_compute; reflexivity|]). destruct Hin. }
  destruct (default_rules_complex_task lower_basic message w eq_refl eq_refl Hkw
              ltac:(vm_compute; reflexivity))
    as (routed & w' & E & Hr & Hs & _).
  exists routed, w'. split; [exact E|]. split.
  - rewrite Hr. vm_compute. reflexivity.
  - rewrite Hs. vm_compute. reflexivity.
Defined.

(* ================================================================== *)
(** ** The factories *)
(* ================================================================== *)

Lemma Dict_get_app {V : Type} (k : pystr) (a b : Dict.t V) :
  Dict.get k (a ++ b) =
  match Dict.get k a with Some v => Some v | None => Dict.get k b end.
Proof.
  induction a as [|[k' v'] a IH]; simpl; [reflexivity|].
  destruct (pystr_eqb k k'); [reflexivity | exact IH].
Qed.

Lemma Dict_get_None {V : Type} (k : pystr) (d : Dict.t V) :
  ~ In k (Dict.keys d) -> Dict.get k d = None.
Proof.
  intros H. destruct (Dict.get k d) as [v|] eqn:E; [|reflexivity].
  exfalso. apply H. apply Dict_keys_get. eauto.
Qed.

Lemma all_agent_classes_eq :
  all_agent_classes = base_agent_classes ++ extended_agent_classes.
Proof. vm_compute. reflexivity. Qed.

Lemma all_agent_classes_keys :
  Dict.keys all_agent_classes = ExtendedAgentFactory_get_available_agent_types.
Proof. vm_compute. reflexivity. Qed.

(** The two tables of base types have the same keys. *)
Lemma base_agent_classes_get (agent_type : pystr) :
  match Dict.get agent_type agent_classes with
  | Some _ => exists name, Dict.get agent_type base_agent_classes = Some (inl name)
  | None => Dict.get agent_type base_agent_classes = None
  end.
Proof.
  unfold agent_classes, base_agent_classes. cbn [Dict.get].
  repeat (destruct (pystr_eqb agent_type _); [eauto|]). reflexivity.
Qed.

Lemma extended_agent_classes_get (agent_type : pystr) (v : pystr + AgentClass) :
  Dict.get agent_type extended_agent_classes = Some v -> exists cls, v = inr cls.
Proof.
  unfold extended_agent_classes. cbn [Dict.get].
  repeat (destruct (pystr_eqb agent_type _); [intros H; injection H as <-; eauto|]).
  discriminate.
Qed.

Section FactoriesAgree.

Variable Cfg : Type.
Variable construct : AgentClass -> Cfg -> Result BaseAgent.
Variable isinstance_ImportError : Exc -> bool.

(** X14. The two factories accept the same agent types, the sixteen that
    [ExtendedAgentFactory.get_available_agent_types] lists, and two frames
    of recursion are enough for either.  For a base type both call the base
    class; for an extended type both call the extended class, and
    [AgentFactory] turns an [ImportError] of that call into the error for an
    unknown type; for any other type both raise [ValueError] with the text
    "Неизвестный тип агента: " and the type. *)
Theorem create_agent_types (depth : nat) (agent_type : pystr) (config : Cfg) :
  (2 <= depth)%nat ->
  (forall cls,
      Dict.get agent_type agent_classes = Some cls ->
      In agent_type ExtendedAgentFactory_get_available_agent_types /\
      forall factory,
        create_agent construct isinstance_ImportError depth factory agent_type config =
        construct cls config) /\
  (forall cls,
      Dict.get agent_type all_agent_classes = Some (inr cls) ->
      In agent_type ExtendedAgentFactory_get_available_agent_types /\
      create_agent construct isinstance_ImportError depth ExtendedAgentFactory
        agent_type config = construct cls config /\
      create_agent construct isinstance_ImportError depth AgentFactory
        agent_type config =
        import_error_as_unknown isinstance_ImportError agent_type (construct cls config)) /\
  (~ In agent_type ExtendedAgentFactory_get_available_agent_types ->
   forall factory,
     create_agent construct isinstance_ImportError depth factory agent_type config =
     Raise (ValueError (py "Неизвестный тип агента: " ++ agent_type))) /\
  (In agent_type ExtendedAgentFactory_get_available_agent_types ->
   (exists cls, Dict.get agent_type agent_classes = Some cls) \/
   (exists cls, Dict.get agent_type all_agent_classes = Some (inr cls))).
Proof.
  intros Hd. destruct depth as [|[|d]]; try lia. clear Hd.
  pose proof (base_agent_classes_get agent_type) as Hb.
  assert (forall v, Dict.get agent_type all_agent_classes = Some v ->
                    In agent_type ExtendedAgentFactory_get_available_agent_types) as Hin
    by (intros v Hv; rewrite <- all_agent_classes_keys; apply Dict_keys_get; eauto).
  split; [|split; [|split]].
  - intros cls Hc. rewrite Hc in Hb. destruct Hb as [name Hn].
    assert (Dict.get agent_type all_agent_classes = Some (inl name)) as Ha
      by (now rewrite all_agent_classes_eq, Dict_get_app, Hn).
    split; [now apply (Hin _ Ha)|].
    intros [|]; cbn [create_agent]; rewrite ?Ha, ?Hc; reflexivity.
  - intros cls Ha. split; [now apply (Hin _ Ha)|].
    assert (Dict.get agent_type agent_classes = None) as Hc.
    { destruct (Dict.get agent_type agent_classes); [|reflexivity].
      destruct Hb as [name Hn].
      rewrite all_agent_classes_eq, Dict_get_app, Hn in Ha. discriminate. }
    split; cbn [create_agent]; rewrite ?Hc, ?Ha; reflexivity.
  - intros Hn.
    assert (Dict.get agent_type all_agent_classes = None) as Ha
      by (apply Dict_get_None; now rewrite all_agent_classes_keys).
    assert (Dict.get agent_type agent_classes = None) as Hc.
    { destruct (Dict.get agent_type agent_classes); [|reflexivity].
      destruct Hb as [name Hn'].
      rewrite all_agent_classes_eq, Dict_get_app, Hn' in Ha. discriminate. }
    intros [|]; cbn [create_agent]; rewrite ?Hc, ?Ha; [|reflexivity].
    now destruct (isinstance_ImportError _).
  - intros Hl. rewrite <- all_agent_classes_keys in Hl.
    apply Dict_keys_get in Hl as [v Hv].
    destruct (Dict.get agent_type agent_classes) as [cls|] eqn:Hc; [eauto|].
    right. rewrite all_agent_classes_eq, Dict_get_app, Hb in Hv.
    destruct (extended_agent_classes_get _ _ Hv) as [cls ->].
    exists cls. now rewrite all_agent_classes_eq, Dict_get_app, Hb.
Qed.

End FactoriesAgree.

Lemma create_agent_types_witness :
  let cfg := (py "Agent", [py "x"]) in
  create_agent Fixture.construct Fixture.not_import_error recursion_limit AgentFactory
    (py "ml") cfg = Fixture.construct MachineLearningAgent cfg /\
  create_agent Fixture.construct Fixture.not_import_error recursion_limit
    ExtendedAgentFactory (py "coder") cfg = Fixture.construct CodeDeveloperAgent cfg /\
  create_agent Fixture.construct Fixture.not_import_error recursion_limit AgentFactory
    (py "helper") cfg = Raise (ValueError (py "Неизвестный тип агента: " ++ py "helper")).
Proof.
  intros cfg.
  assert (2 <= recursion_limit)%nat as Hd by (unfold recursion_limit; lia).
  pose proof (create_agent_types _ Fixture.construct Fixture.not_import_error
                recursion_limit (py "ml") cfg Hd) as (_ & Hml & _).
  pose proof (create_agent_types _ Fixture.construct Fixture.not_import_error
                recursion_limit (py "coder") cfg Hd) as (Hco & _).
  pose proof (create_agent_types _ Fixture.construct Fixture.not_import_error
                recursion_limit (py "helper") cfg Hd) as (_ & _ & Hh & _).
  split; [|split].
  - destruct (Hml MachineLearningAgent ltac:(vm_compute; reflexivity)) as (_ & _ & ->).
    reflexivity.
  - destruct (Hco CodeDeveloperAgent ltac:(vm_compute; reflexivity)) as (_ & H).
    apply H.
  - apply Hh. vm_compute. intuition discriminate.
Defined.

(** X15. [AgentFactory.get_available_agent_types] names the same types as
    the extended factory's list, but each of the six base types twice: a
    type occurs in it once more than in the extended list exactly when it is
    a key of [agent_classes]. *)
Theorem AgentFactory_listing_duplicates (agent_type : pystr) :
  count_occ pystr_eq_dec AgentFactory_get_available_agent_types agent_type =
    (count_occ pystr_eq_dec ExtendedAgentFactory_get_available_agent_types agent_type
     + if Dict.mem agent_type agent_classes then 1 else 0)%nat /\
  (In agent_type AgentFactory_get_available_agent_types <->
   In agent_type ExtendedAgentFactory_get_available_agent_types) /\
  NoDup ExtendedAgentFactory_get_available_agent_types /\
  ~ NoDup AgentFactory_get_available_agent_types.
Proof.
  set (base := [py "analyst"; py "coder"; py "reviewer"; py "manager"; py "ideator";
                py "assessor"]).
  assert (AgentFactory_get_available_agent_types =
          base ++ ExtendedAgentFactory_get_available_agent_types) as E by reflexivity.
  assert (count_occ pystr_eq_dec base agent_type =
          if Dict.mem agent_type agent_classes then 1%nat else 0%nat) as Hc.
  { destruct (in_dec pystr_eq_dec agent_type base) as [Hin|Hn].
    - simpl in Hin.
      repeat (destruct Hin as [<-|Hin]; [vm_compute; reflexivity|]). destruct Hin.
    - rewrite (proj1 (count_occ_not_In pystr_eq_dec base agent_type) Hn).
      unfold Dict.mem. rewrite Dict_get_None; [reflexivity|]. exact Hn. }
  split; [|split; [|split]].
  - rewrite E, count_occ_app, Hc. lia.
  - rewrite E. split.
    + intros H. apply in_app_or in H as [H|H]; [|exact H].
      simpl in H. repeat (destruct H as [<-|H]; [vm_compute; tauto|]). destruct H.
    + intros H. apply in_or_app. now right.
  - apply (NoDup_count_occ pystr_eq_dec). intros x.
    destruct (in_dec pystr_eq_dec x ExtendedAgentFactory_get_available_agent_types)
      as [Hin|Hn].
    + simpl in Hin.
      repeat (destruct Hin as [<-|Hin]; [vm_compute; lia|]). destruct Hin.
    + rewrite (proj1 (count_occ_not_In pystr_eq_dec _ x) Hn). lia.
  - intros Hnd. rewrite (NoDup_count_occ pystr_eq_dec) in Hnd.
    specialize (Hnd (py "analyst")). vm_compute in Hnd. lia.
Qed.

(* ================================================================== *)
(** ** initialize_agents *)
(* ================================================================== *)

Lemma with_router_same (w : World) : with_router (router w) w = w.
Proof. now destruct w. Qed.

Lemma register_agent_get_eq (agent_id : pystr) (agent : BaseAgent) (self : AgentRouter) :
  Dict.get agent_id (agents (register_agent agent_id agent self)) = Some agent.
Proof. apply Dict_get_set_eq. Qed.

Lemma register_agent_get_ne (agent_id other : pystr) (agent : BaseAgent)
    (self : AgentRouter) :
  other <> agent_id ->
  Dict.get other (agents (register_agent agent_id agent self)) =
  Dict.get other (agents self).
Proof. intros H. apply Dict_get_set_ne. now apply pystr_eqb_neq. Qed.

Lemma register_agent_keys (agent_id : pystr) (agent : BaseAgent) (self : AgentRouter) :
  exists added,
    Dict.keys (agents (register_agent agent_id agent self)) =
    Dict.keys (agents self) ++ added.
Proof.
  simpl. destruct (Dict.get agent_id (agents self)) as [a|] eqn:E.
  - exists []. rewrite Dict_keys_set_old, app_nil_r; [reflexivity|].
    unfold Dict.mem. now rewrite E.
  - exists [agent_id]. now apply Dict_keys_set_new.
Qed.

Section InitializeAgents.

Variables Cfg ConfigDict : Type.
Variable construct : AgentClass -> Cfg -> Result BaseAgent.
Variable isinstance_ImportError : Exc -> bool.
Variable AgentConfig_init : ConfigDict -> Result Cfg.
Variable configured : Dict.t ConfigDict.

Local Abbreviation agent_of := (agent_for construct isinstance_ImportError AgentConfig_init configured).
Local Abbreviation all_registered :=
  (register_all construct isinstance_ImportError AgentConfig_init configured).
Local Abbreviation loop_body :=
  (initialize_agent construct isinstance_ImportError AgentConfig_init configured).

Lemma register_all_cons (agent_id : pystr) (agent_ids : list pystr)
    (self : AgentRouter) :
  all_registered (agent_id :: agent_ids) self =
  all_registered agent_ids
    (match agent_of agent_id with
     | Some (Ok agent) => register_agent agent_id agent self
     | _ => self
     end).
Proof. reflexivity. Qed.

Lemma initialize_agent_run (agent_id : pystr) (w : World) :
  loop_body agent_id tt w =
  match agent_of agent_id with
  | None => (Ok tt, w)
  | Some (Ok agent) => (Ok tt, with_router (register_agent agent_id agent (router w)) w)
  | Some (Raise e) => (Raise e, w)
  end.
Proof.
  unfold initialize_agent, agent_for.
  destruct (Dict.get agent_id configured) as [d|]; [|reflexivity].
  unfold bind, lift. destruct (AgentConfig_init d) as [cfg|e]; [|reflexivity].
  destruct (create_agent _ _ _ _ _ _); reflexivity.
Qed.

Lemma initialize_loop_ok (agent_ids : list pystr) (w : World) :
  Forall (created_ok construct isinstance_ImportError AgentConfig_init configured)
    agent_ids ->
  for_each agent_ids loop_body tt w =
  (Ok tt, with_router (all_registered agent_ids (router w)) w).
Proof.
  intros H. revert w. induction H as [|agent_id ids Hok _ IH]; intros w.
  - simpl. unfold ret. now rewrite with_router_same.
  - cbn [for_each]. unfold bind. rewrite initialize_agent_run.
    unfold created_ok in Hok. rewrite register_all_cons.
    destruct (agent_of agent_id) as [[agent|e]|]; [| contradiction |].
    + rewrite IH. reflexivity.
    + rewrite IH. reflexivity.
Qed.

Lemma initialize_loop_raises (before after : list pystr) (agent_id : pystr)
    (e : Exc) (w : World) :
  Forall (created_ok construct isinstance_ImportError AgentConfig_init configured)
    before ->
  agent_of agent_id = Some (Raise e) ->
  for_each (before ++ agent_id :: after) loop_body tt w =
  (Raise e, with_router (all_registered before (router w)) w).
Proof.
  intros H He. revert w. induction H as [|id ids Hok _ IH]; intros w.
  - simpl. unfold bind. rewrite initialize_agent_run, He.
    now rewrite with_router_same.
  - cbn [app for_each]. unfold bind. rewrite initialize_agent_run.
    unfold created_ok in Hok. rewrite register_all_cons.
    destruct (agent_of id) as [[agent|e']|]; [| contradiction |].
    + rewrite IH. reflexivity.
    + rewrite IH. reflexivity.
Qed.

Lemma register_all_other_fields (agent_ids : list pystr) (self : AgentRouter) :
  routing_rules (all_registered agent_ids self) = routing_rules self /\
  message_history (all_registered agent_ids self) = message_history self /\
  stats (all_registered agent_ids self) = stats self /\
  exists added,
    Dict.keys (agents (all_registered agent_ids self)) = Dict.keys (agents self) ++ added.
Proof.
  revert self. induction agent_ids as [|id ids IH]; intros self.
  - simpl. repeat split. exists []. now rewrite app_nil_r.
  - rewrite register_all_cons.
    destruct (agent_of id) as [[agent|e]|]; try apply IH.
    destruct (IH (register_agent id agent self)) as (-> & -> & -> & added & ->).
    repeat split. destruct (register_agent_keys id agent self) as [added0 ->].
    exists (added0 ++ added). now rewrite app_assoc.
Qed.

Lemma register_all_get_other (agent_ids : list pystr) (self : AgentRouter)
    (agent_id : pystr) :
  ~ In agent_id agent_ids \/ agent_of agent_id = None ->
  Dict.get agent_id (agents (all_registered agent_ids self)) =
  Dict.get agent_id (agents self).
Proof.
  revert self. induction agent_ids as [|id ids IH]; intros self H; [reflexivity|].
  rewrite register_all_cons.
  assert (~ In agent_id ids \/ agent_of agent_id = None) as H'
    by (destruct H as [H|H]; [left; intros Hin; apply H; now right | now right]).
  destruct (agent_of id) as [[agent|e]|] eqn:Ea; try (now apply IH).
  rewrite (IH _ H'). apply register_agent_get_ne.
  intros ->. destruct H as [H|H]; [apply H; now left | congruence].
Qed.

Lemma register_all_get (agent_ids : list pystr) (self : AgentRouter)
    (agent_id : pystr) (agent : BaseAgent) :
  In agent_id agent_ids ->
  agent_of agent_id = Some (Ok agent) ->
  Dict.get agent_id (agents (all_registered agent_ids self)) = Some agent.
Proof.
  revert self. induction agent_ids as [|id ids IH]; intros self Hin Ha; [destruct Hin|].
  rewrite register_all_cons.
  destruct (in_dec pystr_eq_dec agent_id ids) as [Hi|Hn].
  - now apply IH.
  - destruct Hin as [->|Hin]; [|contradiction].
    rewrite Ha. rewrite register_all_get_other by (now left).
    apply register_agent_get_eq.
Qed.

(** [except Exception: ...; raise] hands every exception to the caller. *)
Lemma try_except_reraise {A : Type} (body : M A) (w : World) :
  try_except body (fun e => raise e) w = body w.
Proof.
  unfold try_except, raise. destruct (body w) as [[a|e] w']; [reflexivity|].
  now destruct (isinstance_Exception e).
Qed.

(** X16. When the configuration loads and every requested agent that is
    configured is created, [initialize_agents] returns, with every such
    agent registered under its id; ids that are not configured are passed
    over without an error; agents registered before keep their place in the
    order of the dictionary, and an agent that is not requested stays as it
    was.  Without a list of ids, every configured agent is requested.
    Rules, history and counters are untouched. *)
Theorem initialize_agents_registers (agent_ids : option (list pystr)) (w : World) :
  let ids := match agent_ids with
             | None => Dict.keys configured
             | Some ids => ids
             end in
  Forall (created_ok construct isinstance_ImportError AgentConfig_init configured) ids ->
  exists w',
    initialize_agents construct isinstance_ImportError (Ok configured)
      AgentConfig_init agent_ids w = (Ok tt, w') /\
    (forall agent_id agent,
        In agent_id ids -> agent_of agent_id = Some (Ok agent) ->
        Dict.get agent_id (agents (router w')) = Some agent) /\
    (forall agent_id,
        ~ In agent_id ids \/ Dict.get agent_id configured = None ->
        Dict.get agent_id (agents (router w')) =
        Dict.get agent_id (agents (router w))) /\
    (exists added,
        Dict.keys (agents (router w')) = Dict.keys (agents (router w)) ++ added) /\
    routing_rules (router w') = routing_rules (router w) /\
    message_history (router w') = message_history (router w) /\
    stats (router w') = stats (router w).
Proof.
  intros ids Hok.
  exists (with_router (all_registered ids (router w)) w).
  split.
  - unfold initialize_agents. rewrite !try_except_reraise. unfold bind, lift. fold ids.
    now rewrite (initialize_loop_ok ids w Hok).
  - cbn [router with_router].
    destruct (register_all_other_fields ids (router w)) as (Hr & Hh & Hs & Hk).
    split; [intros agent_id agent Hin Ha; now apply register_all_get|].
    split; [|auto].
    intros agent_id H. apply register_all_get_other.
    destruct H as [H|H]; [now left | right]. unfold agent_for. now rewrite H.
Qed.

(** X17. [initialize_agents] does not catch for its caller: the exception
    of the configuration loader, of the validation of an agent's
    configuration, or of the factory is raised again.  When it comes from
    the agent [agent_id], the agents of the ids before it in the list stay
    registered, exactly as a call with those ids alone leaves them, and the
    ids after it are not reached. *)
Theorem initialize_agents_raises (before after : list pystr) (agent_id : pystr)
    (e : Exc) (w : World) :
  (forall agent_ids,
      initialize_agents construct isinstance_ImportError (Raise e)
        AgentConfig_init agent_ids w = (Raise e, w)) /\
  (Forall (created_ok construct isinstance_ImportError AgentConfig_init configured)
     before ->
   agent_of agent_id = Some (Raise e) ->
   initialize_agents construct isinstance_ImportError (Ok configured)
     AgentConfig_init (Some (before ++ agent_id :: after)) w =
   (Raise e,
    snd (initialize_agents construct isinstance_ImportError (Ok configured)
           AgentConfig_init (Some before) w)) /\
   fst (initialize_agents construct isinstance_ImportError (Ok configured)
          AgentConfig_init (Some before) w) = Ok tt).
Proof.
  split;
    [intros agent_ids; unfold initialize_agents; now rewrite try_except_reraise|].
  intros Hok He.
  unfold initialize_agents. rewrite !try_except_reraise. unfold bind, lift.
  rewrite (initialize_loop_raises before after agent_id e w Hok He).
  rewrite (initialize_loop_ok before w Hok). split; reflexivity.
Qed.

Lemma create_agent_unknown_type (agent_type : pystr) (config : Cfg) :
  ~ In agent_type ExtendedAgentFactory_get_available_agent_types ->
  create_agent construct isinstance_ImportError recursion_limit AgentFactory
    agent_type config =
  Raise (ValueError (py "Неизвестный тип агента: " ++ agent_type)).
Proof.
  intros Hn.
  assert (Dict.get agent_type all_agent_classes = None) as Ha
    by (apply Dict_get_None; now rewrite all_agent_classes_keys).
  assert (Dict.get agent_type agent_classes = None) as Hc.
  { pose proof (base_agent_classes_get agent_type) as Hb.
    destruct (Dict.get agent_type agent_classes); [|reflexivity].
    destruct Hb as [name Hn'].
    rewrite all_agent_classes_eq, Dict_get_app, Hn' in Ha. discriminate. }
  unfold recursion_limit.
  change 1000%nat with (S (S 998)). cbn [create_agent]. rewrite Hc, Ha.
  now destruct (isinstance_ImportError _).
Qed.

(** X18. The id of an agent is also its type: a configured agent whose id
    is not one of the sixteen types of the factories makes
    [initialize_agents] raise [ValueError] with the text
    "Неизвестный тип агента: " and the id, although its configuration is
    valid. *)
Theorem initialize_agents_unknown_type (before after : list pystr) (agent_id : pystr)
    (agent_config_dict : ConfigDict) (agent_config : Cfg) (w : World) :
  Dict.get agent_id configured = Some agent_config_dict ->
  AgentConfig_init agent_config_dict = Ok agent_config ->
  ~ In agent_id ExtendedAgentFactory_get_available_agent_types ->
  Forall (created_ok construct isinstance_ImportError AgentConfig_init configured)
    before ->
  fst (initialize_agents construct isinstance_ImportError (Ok configured)
         AgentConfig_init (Some (before ++ agent_id :: after)) w) =
  Raise (ValueError (py "Неизвестный тип агента: " ++ agent_id)).
Proof.
  intros Hg Hi Hn Hok.
  assert (agent_of agent_id =
          Some (Raise (ValueError (py "Неизвестный тип агента: " ++ agent_id)))) as He
    by (unfold agent_for; now rewrite Hg, Hi, create_agent_unknown_type).
  unfold initialize_agents. rewrite !try_except_reraise. unfold bind, lift.
  now rewrite (initialize_loop_raises before after agent_id _ w Hok He).
Qed.

End InitializeAgents.

(** "analyst" and "coder" are configured, "ghost" is not. *)
Lemma initialize_agents_registers_witness :
  let w := Sample.world AgentRouter_init in
  let ids := [py "analyst"; py "ghost"; py "coder"] in
  exists w' a1 a2,
    initialize_agents Fixture.construct Fixture.not_import_error (Ok Fixture.configured)
      Fixture.validate (Some ids) w = (Ok tt, w') /\
    Dict.get (py "analyst") (agents (router w')) = Some a1 /\
    Dict.get (py "coder") (agents (router w')) = Some a2 /\
    Dict.get (py "ghost") (agents (router w')) = None.
Proof.
  intros w ids.
  assert (Forall (created_ok Fixture.construct Fixture.not_import_error Fixture.validate
                    Fixture.configured) ids) as Hok
    by (repeat constructor; vm_compute; exact I).
  destruct (initialize_agents_registers _ _ Fixture.construct Fixture.not_import_error
              Fixture.validate Fixture.configured (Some ids) w Hok)
    as (w' & E & Hreg & Hother & _).
  exists w'. do 2 eexists. split; [exact E|]. split; [|split].
  - apply Hreg; [now left | vm_compute; reflexivity].
  - apply Hreg; [right; right; now left | vm_compute; reflexivity].
  - rewrite Hother; [reflexivity|]. right. vm_compute. reflexivity.
Defined.

(** "helper" is configured but is no type of the factories: the call
    raises, and "analyst", before it in the list, stays registered. *)
Lemma initialize_agents_raises_witness :
  let w := Sample.world AgentRouter_init in
  let e := ValueError (py "Неизвестный тип агента: helper") in
  initialize_agents Fixture.construct Fixture.not_import_error (Ok Fixture.configured)
    Fixture.validate (Some [py "analyst"; py "helper"; py "coder"]) w =
  (Raise e,
   snd (initialize_agents Fixture.construct Fixture.not_import_error
          (Ok Fixture.configured) Fixture.validate (Some [py "analyst"]) w)) /\
  Dict.keys (agents (router (snd
    (initialize_agents Fixture.construct Fixture.not_import_error
       (Ok Fixture.configured) Fixture.validate (Some [py "analyst"]) w)))) =
  [py "analyst"].
Proof.
  intros w e. split; [|vm_compute; reflexivity].
  apply (proj2 (initialize_agents_raises _ _ Fixture.construct Fixture.not_import_error
                  Fixture.validate Fixture.configured
                  [py "analyst"] [py "coder"] (py "helper") e w)).
  - repeat constructor; vm_compute; exact I.
  - vm_compute. reflexivity.
Defined.

Lemma initialize_agents_unknown_type_witness :
  fst (initialize_agents Fixture.construct Fixture.not_import_error
         (Ok Fixture.configured) Fixture.validate
         (Some ([py "analyst"] ++ py "helper" :: [py "coder"]))
         (Sample.world AgentRouter_init)) =
  Raise (ValueError (py "Неизвестный тип агента: " ++ py "helper")).
Proof.
  apply (initialize_agents_unknown_type _ _ Fixture.construct Fixture.not_import_error
           Fixture.validate Fixture.configured [py "analyst"] [py "coder"] (py "helper")
           (py "Helper", []) (py "Helper", [])).
  - vm_compute. reflexivity.
  - vm_compute. reflexivity.
  - vm_compute. intuition discriminate.
  - repeat constructor; vm_compute; exact I.
Defined.

(* ================================================================== *)
(** ** Where a new rule lands, and what it cannot change *)
(* ================================================================== *)

Lemma filter_none {A : Type} (f : A -> bool) (l : list A) :
  (forall x, In x l -> f x = false) -> filter f l = [].
Proof.
  induction l as [|h l IH]; intros H; simpl; [reflexivity|].
  rewrite (H h) by (now left). apply IH. intros x Hx. apply H. now right.
Qed.

Lemma filter_all {A : Type} (f : A -> bool) (l : list A) :
  (forall x, In x l -> f x = true) -> filter f l = l.
Proof.
  induction l as [|h l IH]; intros H; simpl; [reflexivity|].
  rewrite (H h) by (now left). f_equal. apply IH. intros x Hx. apply H. now right.
Qed.

Lemma insert_by_priority_top (rule : RoutingRule.t) (l : list RoutingRule.t) :
  Forall (fun r => RoutingRule.priority r <= RoutingRule.priority rule) l ->
  insert_by_priority rule l = rule :: l.
Proof.
  intros H. destruct l as [|h l]; [reflexivity|]. simpl.
  apply Forall_inv in H. apply Z.leb_le in H. now rewrite H.
Qed.

Lemma priority_sorted_split (p : Z) (l : list RoutingRule.t) :
  priority_sorted l ->
  l = filter (fun r => p <=? RoutingRule.priority r) l
      ++ filter (fun r => RoutingRule.priority r <? p) l.
Proof.
  unfold priority_sorted. induction 1 as [|h l Hs IH Hh]; [reflexivity|]. simpl.
  destruct (p <=? RoutingRule.priority h) eqn:E.
  - apply Z.leb_le in E.
    replace (RoutingRule.priority h <? p) with false by (symmetry; apply Z.ltb_ge; lia).
    simpl. now rewrite <- IH.
  - apply Z.leb_gt in E.
    replace (RoutingRule.priority h <? p) with true by (symmetry; apply Z.ltb_lt; lia).
    assert (filter (fun r => p <=? RoutingRule.priority r) l = []) as ->.
    { apply filter_none. intros x Hx.
      rewrite Forall_forall in Hh. specialize (Hh x Hx).
      apply Z.leb_gt. lia. }
    simpl. f_equal. symmetry. apply filter_all.
    intros x Hx. rewrite Forall_forall in Hh. specialize (Hh x Hx).
    apply Z.ltb_lt. lia.
Qed.

Lemma sort_append_sorted (rule : RoutingRule.t) (l : list RoutingRule.t) :
  priority_sorted l ->
  sort_by_priority_reverse (l ++ [rule]) =
  filter (fun r => RoutingRule.priority rule <=? RoutingRule.priority r) l
  ++ rule :: filter (fun r => RoutingRule.priority r <? RoutingRule.priority rule) l.
Proof.
  unfold priority_sorted. induction 1 as [|h l Hs IH Hh]; [reflexivity|].
  cbn [app sort_by_priority_reverse]. rewrite IH.
  rewrite Forall_forall in Hh. cbn [filter].
  destruct (RoutingRule.priority rule <=? RoutingRule.priority h) eqn:E.
  - apply Z.leb_le in E.
    replace (RoutingRule.priority h <? RoutingRule.priority rule) with false
      by (symmetry; apply Z.ltb_ge; lia).
    apply insert_by_priority_top.
    apply Forall_app. split; [|constructor; [lia|]];
      apply Forall_forall; intros x Hx; apply filter_In in Hx as [Hx _];
      now apply Hh.
  - apply Z.leb_gt in E.
    replace (RoutingRule.priority h <? RoutingRule.priority rule) with true
      by (symmetry; apply Z.ltb_lt; lia).
    assert (filter (fun r => RoutingRule.priority rule <=? RoutingRule.priority r) l = [])
      as ->.
    { apply filter_none. intros x Hx.
      specialize (Hh x Hx). apply Z.leb_gt. lia. }
    assert (filter (fun r => RoutingRule.priority r <? RoutingRule.priority rule) l = l)
      as ->.
    { apply filter_all. intros x Hx.
      specialize (Hh x Hx). apply Z.ltb_lt. lia. }
    simpl.
    replace (RoutingRule.priority rule <=? RoutingRule.priority h) with false
      by (symmetry; apply Z.leb_gt; lia).
    f_equal. apply insert_by_priority_top. apply Forall_forall. exact Hh.
Qed.

(** X19. On a sorted rule list [add_routing_rule] moves no rule: the new
    rule goes behind every rule whose priority is at least its own, so also
    behind the rules of its own priority, and in front of the rules of
    smaller priority, which keep their order. *)
Theorem add_routing_rule_position (rule : RoutingRule.t) (self : AgentRouter) :
  priority_sorted (routing_rules self) ->
  routing_rules (add_routing_rule rule self) =
    filter (fun r => RoutingRule.priority rule <=? RoutingRule.priority r)
      (routing_rules self)
    ++ rule ::
    filter (fun r => RoutingRule.priority r <? RoutingRule.priority rule)
      (routing_rules self) /\
  routing_rules self =
    filter (fun r => RoutingRule.priority rule <=? RoutingRule.priority r)
      (routing_rules self)
    ++ filter (fun r => RoutingRule.priority r <? RoutingRule.priority rule)
         (routing_rules self).
Proof.
  intros Hs. split.
  - unfold add_routing_rule. cbn [routing_rules]. now apply sort_append_sorted.
  - now apply priority_sorted_split.
Qed.

(** A rule of priority 9 added to rules of priorities 10, 9, 8, 7. *)
Lemma add_routing_rule_position_witness :
  let second := {| RoutingRule.condition := Sample.says "ревью";
                   RoutingRule.target_agents := [py "reviewer"];
                   RoutingRule.strategy := PARALLEL;
                   RoutingRule.priority := 9;
                   RoutingRule.description := py "second" |} in
  routing_rules (add_routing_rule second Sample.test_router) =
  [Sample.sequential_rule; Sample.parallel_rule; second; Sample.broadcast_rule;
   Sample.conditional_rule].
Proof.
  intros second.
  assert (priority_sorted (routing_rules Sample.test_router)) as Hs
    by (apply sort_by_priority_reverse_sorted).
  rewrite (proj1 (add_routing_rule_position second Sample.test_router Hs)).
  reflexivity.
Defined.

Lemma matching_rules_app (a b : list RoutingRule.t) (message : Message.t) :
  matching_rules (a ++ b) message =
  match matching_rules a message with
  | Raise e => Raise e
  | Ok la =>
      match matching_rules b message with
      | Raise e => Raise e
      | Ok lb => Ok (la ++ lb)
      end
  end.
Proof.
  induction a as [|r a IH]; simpl.
  - now destruct (matching_rules b message).
  - destruct (RoutingRule.condition r message) as [c|e]; [|reflexivity].
    rewrite IH. destruct (matching_rules a message) as [la|e]; [|reflexivity].
    destruct (matching_rules b message) as [lb|e]; [|reflexivity].
    now destruct c.
Qed.

(** What [route_message] returns and counts is decided by the first
    matching rule, the agents and the clock. *)
Lemma route_message_same_first (message : Message.t) (w1 w2 : World)
    (rule : RoutingRule.t) (rest1 rest2 : list RoutingRule.t) :
  matching_rules (routing_rules (router w1)) message = Ok (rule :: rest1) ->
  matching_rules (routing_rules (router w2)) message = Ok (rule :: rest2) ->
  agents (router w1) = agents (router w2) ->
  stats (router w1) = stats (router w2) ->
  clock w1 = clock w2 ->
  ticks w1 = ticks w2 ->
  fst (route_message message w1) = fst (route_message message w2) /\
  stats (router (snd (route_message message w1))) =
    stats (router (snd (route_message message w2))).
Proof.
  intros H1 H2 Ha Hs Hc Ht.
  assert (available_agents rule (router w1) = available_agents rule (router w2)) as Hav
    by (unfold available_agents; now rewrite Ha).
  assert (expansion rule message w1 = expansion rule message w2) as Hex
    by (unfold expansion; now rewrite Hav, Ha, Hc, Ht).
  destruct (available_agents rule (router w1)) as [|a0 avail] eqn:E1.
  - rewrite (route_message_no_agent _ _ _ _ H1 E1).
    rewrite (route_message_no_agent _ _ _ _ H2 (eq_sym Hav)). auto.
  - rewrite (route_message_fires _ _ _ _ H1) by (rewrite E1; discriminate).
    rewrite (route_message_fires _ _ _ _ H2) by (rewrite <- Hav; discriminate).
    simpl. now rewrite Hex, Hs.
Qed.

(** X20. A new rule whose priority is not larger than that of the rule that
    fires for a message, and whose condition returns on that message, does
    not change how the message is routed: the same derived messages are
    returned and the same counts are kept, whether or not the new rule
    matches.  An added rule takes a message over only with a strictly
    larger priority. *)
Theorem add_routing_rule_keeps_routing (message : Message.t) (w : World)
    (rule new_rule : RoutingRule.t) (rest : list RoutingRule.t) :
  priority_sorted (routing_rules (router w)) ->
  matching_rules (routing_rules (router w)) message = Ok (rule :: rest) ->
  RoutingRule.priority new_rule <= RoutingRule.priority rule ->
  (exists b, RoutingRule.condition new_rule message = Ok b) ->
  let w2 := with_router (add_routing_rule new_rule (router w)) w in
  fst (route_message message w2) = fst (route_message message w) /\
  stats (router (snd (route_message message w2))) =
    stats (router (snd (route_message message w))).
Proof.
  intros Hs Hm Hp [b Hb] w2.
  pose proof (sort_append_sorted new_rule (routing_rules (router w)) Hs) as Hnew.
  pose proof (priority_sorted_split (RoutingRule.priority new_rule)
                (routing_rules (router w)) Hs) as Hold.
  change (sort_by_priority_reverse (routing_rules (router w) ++ [new_rule]))
    with (routing_rules (add_routing_rule new_rule (router w))) in Hnew.
  set (ge := filter (fun r => RoutingRule.priority new_rule <=? RoutingRule.priority r)
               (routing_rules (router w))) in *.
  set (lt := filter (fun r => RoutingRule.priority r <? RoutingRule.priority new_rule)
               (routing_rules (router w))) in *.
  rewrite Hold, matching_rules_app in Hm.
  destruct (matching_rules ge message) as [lge|e] eqn:Ege; [|discriminate].
  destruct (matching_rules lt message) as [llt|e] eqn:Elt; [|discriminate].
  injection Hm as Hm.
  assert (exists rest1, lge = rule :: rest1) as [rest1 ->].
  { destruct lge as [|r0 lge]; [|injection Hm as -> _; eauto].
    simpl in Hm. subst llt.
    destruct (matching_rules_In lt message _ rule Elt (or_introl eq_refl)) as [Hin _].
    apply filter_In in Hin as [_ Hin]. apply Z.ltb_lt in Hin. lia. }
  assert (exists rest2, matching_rules (routing_rules (router w2)) message
                        = Ok (rule :: rest2)) as [rest2 Hm2].
  { unfold w2. cbn [router with_router]. rewrite Hnew, matching_rules_app, Ege.
    cbn [matching_rules]. rewrite Hb, Elt. eexists. reflexivity. }
  assert (matching_rules (routing_rules (router w)) message = Ok (rule :: rest)) as Hm1
    by (rewrite Hold, matching_rules_app, Ege, Elt; now rewrite Hm).
  apply (route_message_same_first message w2 w rule rest2 rest Hm2 Hm1); reflexivity.
Qed.

(** The parallel rule fires for the message; a rule of the same priority
    that matches it too is added. *)
Lemma add_routing_rule_keeps_routing_witness :
  let rival := {| RoutingRule.condition := Sample.says "параллельно";
                  RoutingRule.target_agents := [py "coder"];
                  RoutingRule.strategy := BROADCAST;
                  RoutingRule.priority := 9;
                  RoutingRule.description := py "rival" |} in
  let w := Sample.world Sample.test_router in
  let message := Sample.task "m5" "user" [] "Сделать параллельно" in
  RoutingRule.condition rival message = Ok true /\
  fst (route_message message (with_router (add_routing_rule rival (router w)) w)) =
  fst (route_message message w).
Proof.
  intros rival w message. split; [vm_compute; reflexivity|].
  refine (proj1 (add_routing_rule_keeps_routing message w Sample.parallel_rule rival []
                   _ _ _ _)).
  - apply sort_by_priority_reverse_sorted.
  - vm_compute. reflexivity.
  - vm_compute. discriminate.
  - exists true. vm_compute. reflexivity.
Defined.
